(** * Reconciliation contract of the Morpheus Terraform provider

    A shallow embedding of three resource kinds of the provider
    (helm spec template, workflow catalog item, Ansible Tower
    integration): their create / read / update / delete functions, the
    request payloads they build, and the password diff-suppression
    predicate of the integration, with the properties the specification
    states about them. *)

From Stdlib Require Import ZArith Lia Ascii String List DecimalString.
From stdpp Require Import base strings list gmap.

Open Scope string_scope.
Open Scope list_scope.
Open Scope Z_scope.

(** * Part 1. crypto/sha256, encoding/hex and strings.EqualFold

    The password diff-suppression function of the Ansible Tower
    integration is built from three Go library calls.  They are written
    out here on bytes as [Z] (a Go [string] is a byte sequence; a Rocq
    [string] is a list of 8-bit [ascii]), words as [Z] reduced modulo
    [2^32]. *)

Module Sha256.

Definition wrap32 (x : Z) : Z := x mod 2 ^ 32.

Definition add32 (x y : Z) : Z := wrap32 (x + y).

(** [bits.RotateLeft32(x, -n)] for [0 < n < 32]. *)
Definition rotr (n x : Z) : Z :=
  Z.lor (Z.shiftr x n) (wrap32 (Z.shiftl x (32 - n))).

(** [^x] on a [uint32]. *)
Definition not32 (x : Z) : Z := Z.lxor x (2 ^ 32 - 1).

Definition xor3 (x y z : Z) : Z := Z.lxor (Z.lxor x y) z.

(** The round constants [_K]: the first 32 bits of the fractional parts
    of the cube roots of the first 64 primes. *)
Definition _K : list Z :=
  [ 1116352408; 1899447441; 3049323471; 3921009573; 961987163; 1508970993;
    2453635748; 2870763221; 3624381080; 310598401; 607225278; 1426881987;
    1925078388; 2162078206; 2614888103; 3248222580; 3835390401; 4022224774;
    264347078; 604807628; 770255983; 1249150122; 1555081692; 1996064986;
    2554220882; 2821834349; 2952996808; 3210313671; 3336571891; 3584528711;
    113926993; 338241895; 666307205; 773529912; 1294757372; 1396182291;
    1695183700; 1986661051; 2177026350; 2456956037; 2730485921; 2820302411;
    3259730800; 3345764771; 3516065817; 3600352804; 4094571909; 275423344;
    430227734; 506948616; 659060556; 883997877; 958139571; 1322822218;
    1537002063; 1747873779; 1955562222; 2024104815; 2227730452; 2361852424;
    2428436474; 2756734187; 3204031479; 3329325298 ].

(** The chaining value [dig.h], and the working variables [a .. h]. *)
Record state : Type := State
  { s0 : Z; s1 : Z; s2 : Z; s3 : Z; s4 : Z; s5 : Z; s6 : Z; s7 : Z }.

Definition init : state :=
  State 1779033703 3144134277 1013904242 2773480762
        1359893119 2600822924 528734635 1541459225.

(** [w[i] = uint32(p[j])<<24 | uint32(p[j+1])<<16 | uint32(p[j+2])<<8 | uint32(p[j+3])] *)
Fixpoint words (p : list Z) : list Z :=
  match p with
  | b0 :: b1 :: b2 :: b3 :: rest =>
      Z.lor (Z.lor (Z.lor (Z.shiftl b0 24) (Z.shiftl b1 16)) (Z.shiftl b2 8)) b3
      :: words rest
  | _ => []
  end.

(** One step of the message schedule: [w[i]] from [w[0 .. i-1]]. *)
Definition next_word (w : list Z) : Z :=
  let i := length w in
  let v1 := nth (i - 2) w 0 in
  let t1 := xor3 (rotr 17 v1) (rotr 19 v1) (Z.shiftr v1 10) in
  let v2 := nth (i - 15) w 0 in
  let t2 := xor3 (rotr 7 v2) (rotr 18 v2) (Z.shiftr v2 3) in
  add32 (add32 (add32 t1 (nth (i - 7) w 0)) t2) (nth (i - 16) w 0).

Fixpoint schedule (n : nat) (w : list Z) : list Z :=
  match n with
  | O => w
  | S n' => schedule n' (w ++ [next_word w])
  end.

(** One of the 64 rounds, on constant [k] and schedule word [wi]. *)
Definition round (st : state) (kw : Z * Z) : state :=
  let '(State a b c d e f g h) := st in
  let t1 :=
    add32 (add32 (add32 (add32 h (xor3 (rotr 6 e) (rotr 11 e) (rotr 25 e)))
                        (Z.lxor (Z.land e f) (Z.land (not32 e) g)))
                 (fst kw)) (snd kw) in
  let t2 :=
    add32 (xor3 (rotr 2 a) (rotr 13 a) (rotr 22 a))
          (xor3 (Z.land a b) (Z.land a c) (Z.land b c)) in
  State (add32 t1 t2) a b c (add32 d t1) e f g.

(** [blockGeneric] on one 64-byte chunk. *)
Definition block (dig : state) (p : list Z) : state :=
  let w := schedule 48 (words p) in
  let '(State a b c d e f g h) := fold_left round (combine _K w) dig in
  State (add32 (s0 dig) a) (add32 (s1 dig) b) (add32 (s2 dig) c) (add32 (s3 dig) d)
        (add32 (s4 dig) e) (add32 (s5 dig) f) (add32 (s6 dig) g) (add32 (s7 dig) h).

(** The chunks of a padded message; the fuel is the message length. *)
Fixpoint chunks (fuel : nat) (p : list Z) : list (list Z) :=
  match fuel, p with
  | S fuel', _ :: _ => firstn 64 p :: chunks fuel' (skipn 64 p)
  | _, _ => []
  end.

Definition be_bytes (n : nat) (x : Z) : list Z :=
  map (fun i => Z.land (Z.shiftr x (8 * Z.of_nat i)) 255) (rev (seq 0 n)).

(** [checkSum]: one [0x80] byte, zeros up to 56 modulo 64, then the
    length in bits as a big-endian [uint64]. *)
Definition pad (msg : list Z) : list Z :=
  let len := Z.of_nat (length msg) in
  msg ++ [128] ++ repeat 0 (Z.to_nat ((55 - len) mod 64))
      ++ be_bytes 8 ((8 * len) mod 2 ^ 64).

Definition be32 (x : Z) : list Z :=
  [ Z.land (Z.shiftr x 24) 255; Z.land (Z.shiftr x 16) 255;
    Z.land (Z.shiftr x 8) 255; Z.land x 255 ].

Definition digest_bytes (st : state) : list Z :=
  be32 (s0 st) ++ be32 (s1 st) ++ be32 (s2 st) ++ be32 (s3 st) ++
  be32 (s4 st) ++ be32 (s5 st) ++ be32 (s6 st) ++ be32 (s7 st).

(** [h := sha256.New(); h.Write(msg); h.Sum(nil)] *)
Definition Sum256 (msg : list Z) : list Z :=
  let p := pad msg in
  digest_bytes (fold_left block (chunks (length p) p) init).

End Sha256.

(** [[]byte(s)] *)
Definition bytes_of_string (s : string) : list Z :=
  map (fun a => Z.of_N (N_of_ascii a)) (list_ascii_of_string s).

Module Hex.

Definition hextable : list ascii := list_ascii_of_string "0123456789abcdef".

Definition digit (v : Z) : ascii := nth (Z.to_nat v) hextable "0"%char.

(** [hex.EncodeToString]: [hextable[v>>4]] then [hextable[v&0x0f]] for
    every byte [v]. *)
Fixpoint EncodeToString (src : list Z) : string :=
  match src with
  | [] => EmptyString
  | v :: rest =>
      String (digit (Z.shiftr v 4)) (String (digit (Z.land v 15)) (EncodeToString rest))
  end.

End Hex.

Definition sha256_hex (s : string) : string :=
  Hex.EncodeToString (Sha256.Sum256 (bytes_of_string s)).

(** ** strings.EqualFold

    The ASCII fast path is written out.  When a byte with the high bit set
    is met, Go falls through to the comparison by Unicode simple folding
    of the two remaining suffixes; its tables belong to the [unicode]
    package and are a parameter here. *)

Section EqualFold.

Variable equalFoldUnicode : string -> string -> bool.

Definition is_upper (c : nat) : bool := ((65 <=? c) && (c <=? 90))%nat.

Fixpoint EqualFold (s t : string) : bool :=
  match s, t with
  | String a s', String b t' =>
      let sr := nat_of_ascii a in
      let tr := nat_of_ascii b in
      if ((128 <=? sr) || (128 <=? tr))%nat then equalFoldUnicode s t
      else if (tr =? sr)%nat then EqualFold s' t'
      else
        let '(sr, tr) := if (tr <? sr)%nat then (tr, sr) else (sr, tr) in
        if is_upper sr && (tr =? sr + 32)%nat then EqualFold s' t' else false
  | EmptyString, EmptyString => true
  | _, _ => false
  end.

(** The [DiffSuppressFunc] of the integration's [password] attribute:
<<
    h := sha256.New()
    h.Write([]byte(new))
    sha256_hash := hex.EncodeToString(h.Sum(nil))
    return strings.EqualFold(old, sha256_hash)
>>
    The key [k] and the resource data [d] are not used. *)
Definition passwordDiffSuppress (old new : string) : bool :=
  let sha256_hash := sha256_hex new in
  EqualFold old sha256_hash.

End EqualFold.

(** * Part 2. Data model

    ** Request bodies

    A [morpheus.Request] body is a [map[string]interface{}]: a finite map
    from keys to strings, integers, booleans, slices and nested maps. *)

#[warnings="-register-all"]
Inductive JSON : Type :=
| JString (s : string)
| JInt (n : Z)
| JBool (b : bool)
| JArray (l : list JSON)
| JObject (m : gmap string JSON).

(** [m[k1][k2]] on nested maps. *)
Definition field (k : string) (j : JSON) : option JSON :=
  match j with
  | JObject m => m !! k
  | _ => None
  end.

(** ** Resource data

    [schema.ResourceData] as the provider functions see it: the identifier,
    the last observed state, the planned values (state overlaid with the
    configuration) and the values written by [d.Set] during the call. *)

Inductive Value : Type :=
| VString (s : string)
| VInt (n : Z)
| VBool (b : bool)
| VList (l : list Z)
| VSet (s : gset string).

Record ResourceData : Type := mkResourceData
  { rd_id : string;
    rd_state : gmap string Value;
    rd_plan : gmap string Value;
    rd_set : gmap string Value }.

Definition Id (d : ResourceData) : string := rd_id d.

Definition SetId (v : string) (d : ResourceData) : ResourceData :=
  mkResourceData v (rd_state d) (rd_plan d) (rd_set d).

(** [d.Get(key)]: the written value if any, the planned value otherwise. *)
Definition Get (key : string) (d : ResourceData) : option Value :=
  match rd_set d !! key with
  | Some v => Some v
  | None => rd_plan d !! key
  end.

(** [d.Get(key)] at the attribute's schema type; an attribute without a
    value reads as the zero value of its type. *)
Definition GetString (key : string) (d : ResourceData) : string :=
  match Get key d with Some (VString s) => s | _ => "" end.

Definition GetInt (key : string) (d : ResourceData) : Z :=
  match Get key d with Some (VInt n) => n | _ => 0 end.

Definition GetBool (key : string) (d : ResourceData) : bool :=
  match Get key d with Some (VBool b) => b | _ => false end.

Definition GetList (key : string) (d : ResourceData) : list Z :=
  match Get key d with Some (VList l) => l | _ => [] end.

Definition GetSet (key : string) (d : ResourceData) : gset string :=
  match Get key d with Some (VSet s) => s | _ => ∅ end.

(** [d.GetOk(key)] on a set attribute: [ok] tells whether the value is
    set to something other than the zero value. *)
Definition GetOkSet (key : string) (d : ResourceData) : gset string * bool :=
  let attr := GetSet key d in (attr, negb (bool_decide (attr = ∅))).

(** [d.Set(key, value)] *)
Definition Set_ (key : string) (value : Value) (d : ResourceData) : ResourceData :=
  mkResourceData (rd_id d) (rd_state d) (rd_plan d) (<[key := value]> (rd_set d)).

(** [d.GetChange(key)] on a string attribute: the value in the last observed
    state and the planned value.  Values written by [d.Set] do not count. *)
Definition GetChange (key : string) (d : ResourceData) : string * string :=
  (match rd_state d !! key with Some (VString s) => s | _ => "" end,
   match rd_plan d !! key with Some (VString s) => s | _ => "" end).

(** [d.HasChange(key)] *)
Definition HasChange (key : string) (d : ResourceData) : bool :=
  let '(o, n) := GetChange key d in negb (String.eqb o n).

(** A field decoded into an [interface{}]: [nil], a string, or a value of
    another JSON type. *)
Inductive iface : Type :=
| Nil
| Str (s : string)
| Other.

(** [d.Set(key, v)] for [v] an [interface{}] and [key] a string attribute:
    [nil] resets the attribute, a string is stored, anything else makes
    [d.Set] return an error, which the provider ignores. *)
Definition SetIface (key : string) (v : iface) (d : ResourceData) : ResourceData :=
  match v with
  | Nil => Set_ key (VString "") d
  | Str s => Set_ key (VString s) d
  | Other => d
  end.

(** ** Diagnostics *)

Definition error : Type := string.

Inductive Severity : Type := Error | Warning.

Record Diagnostic : Type := mkDiagnostic
  { diag_Severity : Severity;
    diag_Summary : string }.

Definition Diagnostics : Type := list Diagnostic.

(** [diag.FromErr(err)] *)
Definition FromErr (err : error) : Diagnostics := [mkDiagnostic Error err].

(** [diag.Errorf(msg)] *)
Definition Errorf (msg : string) : Diagnostics := [mkDiagnostic Error msg].

(** [diags.HasError()] *)
Definition HasError (diags : Diagnostics) : bool :=
  existsb (fun x => match diag_Severity x with Error => true | Warning => false end) diags.

(** ** Remote entities

    Only the fields the provider reads are kept. *)

(** The [HelmSpecTemplate] struct that the body of a spec template response
    is decoded into: [Spectemplate.ID], [.Name], [.File.Sourcetype],
    [.File.Contentref], [.File.Contentpath], [.File.Repository.ID] and
    [.File.Content]. *)
Record HelmSpecTemplate : Type := mkHelmSpecTemplate
  { hst_ID : Z;
    hst_Name : string;
    hst_Sourcetype : string;
    hst_Contentref : iface;
    hst_Contentpath : iface;
    hst_Repository_ID : Z;
    hst_Content : string }.

(** [resp.Body], represented by what [json.Unmarshal] makes of it: a
    decoding error or the decoded struct. *)
Definition Body : Type := (error + HelmSpecTemplate)%type.

Definition json_Unmarshal (body : Body) : error + HelmSpecTemplate := body.

(** [morpheus.CatalogItem]; an element of [OptionTypes] is kept by its
    numeric ["id"]. *)
Record CatalogItem : Type := mkCatalogItem
  { ci_ID : Z;
    ci_Name : string;
    ci_Labels : list string;
    ci_Description : string;
    ci_Category : string;
    ci_Enabled : bool;
    ci_Featured : bool;
    ci_OptionTypes : list Z;
    ci_Content : string;
    ci_Context : string;
    ci_Visibility : string;
    ci_Form_ID : Z;
    ci_Workflow_ID : Z;
    ci_ImagePath : string;
    ci_DarkImagePath : string }.

(** [morpheus.Integration] *)
Record Integration : Type := mkIntegration
  { in_ID : Z;
    in_Name : string;
    in_Enabled : bool;
    in_URL : string;
    in_Username : string;
    in_PasswordHash : string;
    in_Credential_ID : Z }.

(** [morpheus.FilePayload] *)
Record FilePayload : Type := mkFilePayload
  { ParameterName : string;
    FileName : string;
    FileContent : list Z }.

(** ** The remote API client

    Every method of [morpheus.Client] the provider calls, with its
    arguments. *)
Inductive Call : Type :=
| CreateSpecTemplate (req : JSON)
| FindSpecTemplateByName (name : string)
| GetSpecTemplate (id : Z)
| UpdateSpecTemplate (id : Z) (req : JSON)
| DeleteSpecTemplate (id : Z)
| CreateCatalogItem (req : JSON)
| FindCatalogItemByName (name : string)
| GetCatalogItem (id : Z)
| UpdateCatalogItem (id : Z) (req : JSON)
| UpdateCatalogItemLogo (id : Z) (filePayloads : list FilePayload)
| DeleteCatalogItem (id : Z)
| CreateIntegration (req : JSON)
| FindIntegrationByName (name : string)
| GetIntegration (id : Z)
| UpdateIntegration (id : Z) (req : JSON)
| DeleteIntegration (id : Z).

(** What the provider takes out of [resp.Result] (or [resp.Body]) after
    each call: the identifier of the created or updated entity, the entity
    itself, or nothing. *)
Definition ResultOf (c : Call) : Type :=
  match c with
  | CreateSpecTemplate _ | UpdateSpecTemplate _ _ => Z
  | FindSpecTemplateByName _ | GetSpecTemplate _ => Body
  | CreateCatalogItem _ | UpdateCatalogItem _ _ => Z
  | FindCatalogItemByName _ | GetCatalogItem _ => CatalogItem
  | CreateIntegration _ | UpdateIntegration _ _ => Z
  | FindIntegrationByName _ | GetIntegration _ => Integration
  | DeleteSpecTemplate _ | DeleteCatalogItem _ | DeleteIntegration _
  | UpdateCatalogItemLogo _ _ => unit
  end.

(** The pair [(resp, err)] a client method returns.  With [err == nil] the
    response carries the typed result; with [err != nil] the response may
    be [nil] and otherwise carries its [StatusCode]. *)
Inductive Reply (A : Type) : Type :=
| Success (result : A)
| Failure (resp : option Z) (err : error).

Arguments Success {A} result.
Arguments Failure {A} resp err.

(** [resp != nil && resp.StatusCode == 404] *)
Definition is404 (resp : option Z) : bool :=
  match resp with
  | Some StatusCode => Z.eqb StatusCode 404
  | None => false
  end.

(** The remote service behind [meta.( *morpheus.Client)]: its answer to a
    call may depend on every call made before. *)
Definition Client : Type := list Call -> forall c : Call, Reply (ResultOf c).

(** The lines written by [log.Printf], by their format. *)
Inductive LogLine : Type :=
| API_FAILURE (resp : option Z) (err : error)
| API_404 (resp : option Z) (err : error)
| API_RESPONSE
| Forcing_recreation.

(** What a provider function acts on besides [d]: the calls made to the
    remote service so far and the log. *)
Record World : Type := mkWorld
  { calls : list Call;
    logs : list LogLine }.

Definition Printf (l : LogLine) (w : World) : World :=
  mkWorld (calls w) (logs w ++ [l]).

(** Calling a client method: the service answers, the call is recorded. *)
Definition invoke (meta : Client) (c : Call) (w : World) : Reply (ResultOf c) * World :=
  (meta (calls w) c, mkWorld (calls w ++ [c]) (logs w)).

(** What a provider function leaves behind: the diagnostics it returns,
    the resource data and the world. *)
Definition Outcome : Type := (Diagnostics * ResourceData * World)%type.

(** ** strings.Split and strings.Replace, as the catalog item read uses them *)

(** [strings.Split(s, sep)] for a separator of one byte. *)
Fixpoint Split (sep : ascii) (s : string) : list string :=
  match s with
  | EmptyString => [EmptyString]
  | String c s' =>
      if Ascii.eqb c sep then EmptyString :: Split sep s'
      else match Split sep s' with
           | piece :: rest => String c piece :: rest
           | [] => [String c EmptyString]
           end
  end.

Fixpoint string_drop (n : nat) (s : string) : string :=
  match n, s with
  | S n', String _ s' => string_drop n' s'
  | _, _ => s
  end.

(** [strings.Replace(s, old, new, 1)] for a non-empty [old]. *)
Fixpoint Replace1 (s old new : string) {struct s} : string :=
  if String.prefix old s then String.append new (string_drop (String.length old) s)
  else match s with
       | EmptyString => EmptyString
       | String c s' => String c (Replace1 s' old new)
       end.

(** [opt := strings.Replace(imagePath[len(imagePath)-1], "_original", "", 1)]
    with [imagePath := strings.Split(path, "/")]. *)
Definition logoName (path : string) : string :=
  let imagePath := Split "/"%char path in
  Replace1 (List.last imagePath "") "_original" "".

(** ** Resources

    [schema.Resource], by its four lifecycle functions, and the three
    resource kinds of the files at hand. *)

Definition Lifecycle : Type := ResourceData -> Client -> World -> Outcome.

Record Resource : Type := mkResource
  { CreateContext : Lifecycle;
    ReadContext : Lifecycle;
    UpdateContext : Lifecycle;
    DeleteContext : Lifecycle }.

Inductive Kind : Type :=
| HelmSpecTemplateKind
| WorkflowCatalogItemKind
| AnsibleTowerIntegrationKind.


(** * Part 3. The provider functions

    [toInt64], [int64ToString] and [intToString] are helpers of the
    provider package defined outside the files at hand, and [os.ReadFile]
    reads the local file system: all four are parameters.  The context
    argument [ctx] is not used by any function and is left out. *)

Section Provider.

Variable toInt64 : string -> Z.
Variable int64ToString : Z -> string.
Variable intToString : Z -> string.
Variable os_ReadFile : string -> error + list Z.

(** ** Helm spec template *)

(** The [sourceOptions] map of create and update: the switch on
    [d.Get("source_type")]. *)
Definition helmSourceOptions (d : ResourceData) : gmap string JSON :=
  let sourceOptions : gmap string JSON :=
    <["sourceType" := JString (GetString "source_type" d)]> ∅ in
  let source_type := GetString "source_type" d in
  if String.eqb source_type "local" then
    <["contentPath" := JString (GetString "spec_path" d)]>
      (<["content" := JString (GetString "spec_content" d)]> sourceOptions)
  else if String.eqb source_type "url" then
    <["contentPath" := JString (GetString "spec_path" d)]>
      (<["content" := JString (GetString "spec_content" d)]> sourceOptions)
  else if String.eqb source_type "repository" then
    <["repository" := JObject (<["id" := JInt (GetInt "repository_id" d)]> ∅)]>
      (<["contentRef" := JString (GetString "version_ref" d)]>
         (<["contentPath" := JString (GetString "spec_path" d)]> sourceOptions))
  else sourceOptions.

(** The request body of create and update. *)
Definition helmRequest (d : ResourceData) : JSON :=
  let name := GetString "name" d in
  let sourceOptions := helmSourceOptions d in
  let specTemplateType : gmap string JSON := <["code" := JString "helm"]> ∅ in
  JObject (<["specTemplate" :=
             JObject (<["type" := JObject specTemplateType]>
                        (<["file" := JObject sourceOptions]>
                           (<["name" := JString name]> ∅)))]> ∅).

(** The part of read after a successful lookup: the decoded entity is
    stored into [d]. *)
Definition helmStore (helmSpecTemplate : HelmSpecTemplate) (d : ResourceData) : ResourceData :=
  let d := SetId (intToString (hst_ID helmSpecTemplate)) d in
  let d := Set_ "name" (VString (hst_Name helmSpecTemplate)) d in
  let d := Set_ "source_type" (VString (hst_Sourcetype helmSpecTemplate)) d in
  let Sourcetype := hst_Sourcetype helmSpecTemplate in
  if String.eqb Sourcetype "local" then
    let d := Set_ "source_type" (VString "local") d in
    Set_ "spec_content" (VString (hst_Content helmSpecTemplate)) d
  else if String.eqb Sourcetype "url" then
    let d := Set_ "source_type" (VString "url") d in
    SetIface "spec_path" (hst_Contentpath helmSpecTemplate) d
  else if String.eqb Sourcetype "git" then
    let d := Set_ "source_type" (VString "repository") d in
    let d := SetIface "spec_path" (hst_Contentpath helmSpecTemplate) d in
    let d := Set_ "repository_id" (VInt (hst_Repository_ID helmSpecTemplate)) d in
    SetIface "version_ref" (hst_Contentref helmSpecTemplate) d
  else d.

Definition resourceHelmSpecTemplateRead
    (d : ResourceData) (meta : Client) (w : World) : Outcome :=
  let diags : Diagnostics := [] in
  let id := Id d in
  let name := GetString "name" d in
  (* lookup by name if we do not have an id yet *)
  let lookup : option (Reply Body * World) :=
    if String.eqb id "" && negb (String.eqb name "") then
      Some (invoke meta (FindSpecTemplateByName name) w)
    else if negb (String.eqb id "") then
      Some (invoke meta (GetSpecTemplate (toInt64 id)) w)
    else None in
  match lookup with
  | None => (Errorf "Spec template cannot be read without name or id", d, w)
  | Some (Failure resp err, w) =>
      if is404 resp then
        let w := Printf (API_404 resp err) w in
        let w := Printf Forcing_recreation w in
        (diags, SetId "" d, w)
      else
        let w := Printf (API_FAILURE resp err) w in
        (FromErr err, d, w)
  | Some (Success body, w) =>
      let w := Printf API_RESPONSE w in
      match json_Unmarshal body with
      | inl err => (FromErr err, d, w)
      | inr helmSpecTemplate => (diags, helmStore helmSpecTemplate d, w)
      end
  end.

Definition resourceHelmSpecTemplateCreate
    (d : ResourceData) (meta : Client) (w : World) : Outcome :=
  let diags : Diagnostics := [] in
  let req := helmRequest d in
  match invoke meta (CreateSpecTemplate req) w with
  | (Failure resp err, w) =>
      let w := Printf (API_FAILURE resp err) w in
      (FromErr err, d, w)
  | (Success specTemplate_ID, w) =>
      let w := Printf API_RESPONSE w in
      (* Successfully created resource, now set id *)
      let d := SetId (int64ToString specTemplate_ID) d in
      let '(_, d, w) := resourceHelmSpecTemplateRead d meta w in
      (diags, d, w)
  end.

Definition resourceHelmSpecTemplateUpdate
    (d : ResourceData) (meta : Client) (w : World) : Outcome :=
  let id := Id d in
  let req := helmRequest d in
  match invoke meta (UpdateSpecTemplate (toInt64 id) req) w with
  | (Failure resp err, w) =>
      let w := Printf (API_FAILURE resp err) w in
      (FromErr err, d, w)
  | (Success specTemplate_ID, w) =>
      let w := Printf API_RESPONSE w in
      let d := SetId (int64ToString specTemplate_ID) d in
      resourceHelmSpecTemplateRead d meta w
  end.

Definition resourceHelmSpecTemplateDelete
    (d : ResourceData) (meta : Client) (w : World) : Outcome :=
  let diags : Diagnostics := [] in
  let id := Id d in
  match invoke meta (DeleteSpecTemplate (toInt64 id)) w with
  | (Failure resp err, w) =>
      if is404 resp then
        let w := Printf (API_404 resp err) w in
        ([], d, w)
      else
        let w := Printf (API_FAILURE resp err) w in
        (FromErr err, d, w)
  | (Success _, w) =>
      let w := Printf API_RESPONSE w in
      (diags, SetId "" d, w)
  end.

(** ** Workflow catalog item *)

(** [labelsPayload]: the elements of the [labels] set, appended one by
    one when [d.GetOk("labels")] reports a value. *)
Definition labelsPayload (d : ResourceData) : list string :=
  let labelsPayload : list string := [] in
  let '(attr, ok) := GetOkSet "labels" d in
  if ok then
    fold_left (fun (acc : list string) (s : string) => acc ++ [s]) (elements attr)
      labelsPayload
  else labelsPayload.

(** [if d.Get("form_id").(int) > 0 { ... }] *)
Definition withForm (d : ResourceData) (catalogItem : gmap string JSON) : gmap string JSON :=
  if 0 <? GetInt "form_id" d then
    <["form" := JObject (<["id" := JInt (GetInt "form_id" d)]> ∅)]>
      (<["formType" := JString "form"]> catalogItem)
  else catalogItem.

(** The [catalogItem] map of create. *)
Definition catalogItemCreatePayload (d : ResourceData) : gmap string JSON :=
  let catalogItem : gmap string JSON := ∅ in
  let catalogItem := <["name" := JString (GetString "name" d)]> catalogItem in
  let catalogItem := <["description" := JString (GetString "description" d)]> catalogItem in
  let catalogItem := <["category" := JString (GetString "category" d)]> catalogItem in
  let catalogItem := <["enabled" := JBool (GetBool "enabled" d)]> catalogItem in
  let catalogItem := <["featured" := JBool (GetBool "featured" d)]> catalogItem in
  let catalogItem := <["type" := JString "workflow"]> catalogItem in
  let catalogItem := <["iconPath" := JString "custom"]> catalogItem in
  let catalogItem := <["context" := JString (GetString "context_type" d)]> catalogItem in
  let catalogItem :=
    <["optionTypes" := JArray (JInt <$> GetList "option_type_ids" d)]> catalogItem in
  let catalogItem := <["content" := JString (GetString "content" d)]> catalogItem in
  let catalogItem := <["visibility" := JString (GetString "visibility" d)]> catalogItem in
  let catalogItem :=
    <["workflow" := JObject (<["id" := JInt (GetInt "workflow_id" d)]> ∅)]> catalogItem in
  let catalogItem := <["labels" := JArray (JString <$> labelsPayload d)]> catalogItem in
  withForm d catalogItem.

(** The [catalogItem] map of update. *)
Definition catalogItemUpdatePayload (d : ResourceData) : gmap string JSON :=
  let catalogItem : gmap string JSON := ∅ in
  let catalogItem := <["name" := JString (GetString "name" d)]> catalogItem in
  let catalogItem := <["labels" := JArray (JString <$> labelsPayload d)]> catalogItem in
  let catalogItem := <["description" := JString (GetString "description" d)]> catalogItem in
  let catalogItem := <["category" := JString (GetString "category" d)]> catalogItem in
  let catalogItem := <["enabled" := JBool (GetBool "enabled" d)]> catalogItem in
  let catalogItem := <["featured" := JBool (GetBool "featured" d)]> catalogItem in
  let catalogItem := <["type" := JString "workflow"]> catalogItem in
  let catalogItem := <["context" := JString (GetString "context_type" d)]> catalogItem in
  let catalogItem :=
    <["optionTypes" := JArray (JInt <$> GetList "option_type_ids" d)]> catalogItem in
  let catalogItem := <["content" := JString (GetString "content" d)]> catalogItem in
  let catalogItem := <["visibility" := JString (GetString "visibility" d)]> catalogItem in
  let catalogItem :=
    <["workflow" := JObject (<["id" := JInt (GetInt "workflow_id" d)]> ∅)]> catalogItem in
  withForm d catalogItem.

Definition catalogItemRequest (catalogItem : gmap string JSON) : JSON :=
  JObject (<["catalogItemType" := JObject catalogItem]> ∅).

(** One of the two logo blocks of create and update: when [wanted], the
    file at [d.Get(pathKey)] is read and a payload named [d.Get(nameKey)]
    is appended to [filePayloads]; a read error ends the function. *)
Definition appendLogo (wanted : bool) (parameterName pathKey nameKey : string)
    (d : ResourceData) (filePayloads : list FilePayload) : error + list FilePayload :=
  if wanted then
    match os_ReadFile (GetString pathKey d) with
    | inl err => inl err
    | inr data =>
        inr (filePayloads ++ [mkFilePayload parameterName (GetString nameKey d) data])
    end
  else inr filePayloads.

(** The condition of a logo block in create:
    [d.Get(pathKey) != "" && d.Get(nameKey) != ""]. *)
Definition logoGiven (pathKey nameKey : string) (d : ResourceData) : bool :=
  negb (String.eqb (GetString pathKey d) "") && negb (String.eqb (GetString nameKey d) "").

(** The condition of a logo block in update:
    [d.HasChange(pathKey) || d.HasChange(nameKey)]. *)
Definition logoChanged (pathKey nameKey : string) (d : ResourceData) : bool :=
  HasChange pathKey d || HasChange nameKey d.

(** Both logo blocks in sequence, under the condition [wanted] of the
    calling function. *)
Definition logoPayloads (wanted : string -> string -> ResourceData -> bool)
    (d : ResourceData) : error + list FilePayload :=
  let filePayloads : list FilePayload := [] in
  match appendLogo (wanted "logo_image_path" "logo_image_name" d)
          "logo" "logo_image_path" "logo_image_name" d filePayloads with
  | inl err => inl err
  | inr filePayloads =>
      appendLogo (wanted "dark_logo_image_path" "dark_logo_image_name" d)
        "darkLogo" "dark_logo_image_path" "dark_logo_image_name" d filePayloads
  end.

(** The part of read after a successful lookup. *)
Definition catalogItemStore (catalogItem : CatalogItem) (d : ResourceData) : ResourceData :=
  let d := SetId (intToString (ci_ID catalogItem)) d in
  let d := Set_ "name" (VString (ci_Name catalogItem)) d in
  let d := Set_ "labels" (VSet (list_to_set (ci_Labels catalogItem))) d in
  let d := Set_ "description" (VString (ci_Description catalogItem)) d in
  let d := Set_ "category" (VString (ci_Category catalogItem)) d in
  let d := Set_ "enabled" (VBool (ci_Enabled catalogItem)) d in
  let d := Set_ "featured" (VBool (ci_Featured catalogItem)) d in
  (* option types *)
  let optionTypes : list Z :=
    fold_left (fun (acc : list Z) (optionID : Z) => acc ++ [optionID])
      (ci_OptionTypes catalogItem) [] in
  let d := Set_ "option_type_ids" (VList optionTypes) d in
  let d := Set_ "content" (VString (ci_Content catalogItem)) d in
  let d := Set_ "context_type" (VString (ci_Context catalogItem)) d in
  let d := Set_ "visibility" (VString (ci_Visibility catalogItem)) d in
  let d := Set_ "form_id" (VInt (ci_Form_ID catalogItem)) d in
  let d := Set_ "workflow_id" (VInt (ci_Workflow_ID catalogItem)) d in
  let d := Set_ "logo_image_name" (VString (logoName (ci_ImagePath catalogItem))) d in
  Set_ "dark_logo_image_name" (VString (logoName (ci_DarkImagePath catalogItem))) d.

Definition resourceWorkflowCatalogItemRead
    (d : ResourceData) (meta : Client) (w : World) : Outcome :=
  let diags : Diagnostics := [] in
  let id := Id d in
  let name := GetString "name" d in
  (* lookup by name if we do not have an id yet *)
  let lookup : option (Reply CatalogItem * World) :=
    if String.eqb id "" && negb (String.eqb name "") then
      Some (invoke meta (FindCatalogItemByName name) w)
    else if negb (String.eqb id "") then
      Some (invoke meta (GetCatalogItem (toInt64 id)) w)
    else None in
  match lookup with
  | None => (Errorf "Catalog Item cannot be read without name or id", d, w)
  | Some (Failure resp err, w) =>
      if is404 resp then
        let w := Printf (API_404 resp err) w in
        let w := Printf Forcing_recreation w in
        (diags, SetId "" d, w)
      else
        let w := Printf (API_FAILURE resp err) w in
        (FromErr err, d, w)
  | Some (Success catalogItem, w) =>
      let w := Printf API_RESPONSE w in
      (diags, catalogItemStore catalogItem d, w)
  end.

(** The logo upload that ends create and update: its failure is logged
    and nothing else. *)
Definition uploadLogos (meta : Client) (id : Z) (filePayloads : list FilePayload)
    (w : World) : World :=
  match invoke meta (UpdateCatalogItemLogo id filePayloads) w with
  | (Failure response err, w) =>
      let w := Printf (API_FAILURE response err) w in
      Printf API_RESPONSE w
  | (Success _, w) => Printf API_RESPONSE w
  end.

Definition resourceWorkflowCatalogItemCreate
    (d : ResourceData) (meta : Client) (w : World) : Outcome :=
  let diags : Diagnostics := [] in
  let req := catalogItemRequest (catalogItemCreatePayload d) in
  match invoke meta (CreateCatalogItem req) w with
  | (Failure resp err, w) =>
      let w := Printf (API_FAILURE resp err) w in
      (FromErr err, d, w)
  | (Success catalogItemResult_ID, w) =>
      let w := Printf API_RESPONSE w in
      match logoPayloads logoGiven d with
      | inl err => (FromErr err, d, w)
      | inr filePayloads =>
          let w := uploadLogos meta catalogItemResult_ID filePayloads w in
          (* Successfully created resource, now set id *)
          let d := SetId (int64ToString catalogItemResult_ID) d in
          let '(_, d, w) := resourceWorkflowCatalogItemRead d meta w in
          (diags, d, w)
      end
  end.

Definition resourceWorkflowCatalogItemUpdate
    (d : ResourceData) (meta : Client) (w : World) : Outcome :=
  let id := Id d in
  let req := catalogItemRequest (catalogItemUpdatePayload d) in
  match invoke meta (UpdateCatalogItem (toInt64 id) req) w with
  | (Failure resp err, w) =>
      let w := Printf (API_FAILURE resp err) w in
      (FromErr err, d, w)
  | (Success catalogItemResult_ID, w) =>
      let w := Printf API_RESPONSE w in
      match logoPayloads logoChanged d with
      | inl err => (FromErr err, d, w)
      | inr filePayloads =>
          let w := uploadLogos meta catalogItemResult_ID filePayloads w in
          let d := SetId (int64ToString catalogItemResult_ID) d in
          resourceWorkflowCatalogItemRead d meta w
      end
  end.

Definition resourceWorkflowCatalogItemDelete
    (d : ResourceData) (meta : Client) (w : World) : Outcome :=
  let diags : Diagnostics := [] in
  let id := Id d in
  match invoke meta (DeleteCatalogItem (toInt64 id)) w with
  | (Failure resp err, w) =>
      if is404 resp then
        let w := Printf (API_404 resp err) w in
        (FromErr err, d, w)
      else
        let w := Printf (API_FAILURE resp err) w in
        (FromErr err, d, w)
  | (Success _, w) =>
      let w := Printf API_RESPONSE w in
      (diags, SetId "" d, w)
  end.

(** ** Ansible Tower integration *)

(** The [integration] map of create.  In the branch of a nonzero
    [credential_id] the source fills the local map [credential] and then
    assigns it to its own key, [credential["credential"] = credential]:
    [integration] is not assigned to. *)
Definition integrationCreatePayload (d : ResourceData) : gmap string JSON :=
  let integration : gmap string JSON := ∅ in
  let integration := <["name" := JString (GetString "name" d)]> integration in
  let integration := <["enabled" := JBool (GetBool "enabled" d)]> integration in
  let integration := <["type" := JString "ansibleTower"]> integration in
  let integration := <["serviceVersion" := JString "v2"]> integration in
  let integration :=
    if negb (GetInt "credential_id" d =? 0) then
      let credential : gmap string JSON := ∅ in
      let credential := <["type" := JString "username-password"]> credential in
      let credential := <["id" := JInt (GetInt "credential_id" d)]> credential in
      integration
    else
      let credential : gmap string JSON := ∅ in
      let credential := <["type" := JString "local"]> credential in
      let integration := <["credential" := JObject credential]> integration in
      let integration :=
        <["serviceUsername" := JString (GetString "username" d)]> integration in
      <["servicePassword" := JString (GetString "password" d)]> integration in
  <["serviceUrl" := JString (GetString "url" d)]> integration.

(** The [integration] map of update. *)
Definition integrationUpdatePayload (d : ResourceData) : gmap string JSON :=
  let integration : gmap string JSON := ∅ in
  let integration := <["name" := JString (GetString "name" d)]> integration in
  let integration := <["enabled" := JBool (GetBool "enabled" d)]> integration in
  let integration := <["type" := JString "ansibleTower"]> integration in
  let integration := <["serviceVersion" := JString "v2"]> integration in
  let integration := <["serviceUrl" := JString (GetString "url" d)]> integration in
  if negb (GetInt "credential_id" d =? 0) then
    let credential : gmap string JSON := ∅ in
    let credential := <["type" := JString "username-password"]> credential in
    let credential := <["id" := JInt (GetInt "credential_id" d)]> credential in
    <["credential" := JObject credential]> integration
  else
    let credential : gmap string JSON := ∅ in
    let credential := <["type" := JString "local"]> credential in
    let integration := <["credential" := JObject credential]> integration in
    let integration :=
      if HasChange "username" d then
        <["serviceUsername" := JString (GetString "username" d)]> integration
      else integration in
    if HasChange "password" d then
      <["servicePassword" := JString (GetString "password" d)]> integration
    else integration.

Definition integrationRequest (integration : gmap string JSON) : JSON :=
  JObject (<["integration" := JObject integration]> ∅).

(** The part of read after a successful lookup. *)
Definition integrationStore (integration : Integration) (d : ResourceData) : ResourceData :=
  let d := SetId (int64ToString (in_ID integration)) d in
  let d := Set_ "name" (VString (in_Name integration)) d in
  let d := Set_ "enabled" (VBool (in_Enabled integration)) d in
  let d := Set_ "url" (VString (in_URL integration)) d in
  if in_Credential_ID integration =? 0 then
    let d := Set_ "username" (VString (in_Username integration)) d in
    Set_ "password" (VString (in_PasswordHash integration)) d
  else
    Set_ "credential_id" (VInt (in_Credential_ID integration)) d.

Definition resourceAnsibleTowerIntegrationRead
    (d : ResourceData) (meta : Client) (w : World) : Outcome :=
  let diags : Diagnostics := [] in
  let id := Id d in
  let name := GetString "name" d in
  (* lookup by name if we do not have an id yet *)
  let lookup : option (Reply Integration * World) :=
    if String.eqb id "" && negb (String.eqb name "") then
      Some (invoke meta (FindIntegrationByName name) w)
    else if negb (String.eqb id "") then
      Some (invoke meta (GetIntegration (toInt64 id)) w)
    else None in
  match lookup with
  | None => (Errorf "Integration cannot be read without name or id", d, w)
  | Some (Failure resp err, w) =>
      if is404 resp then
        let w := Printf (API_404 resp err) w in
        let w := Printf Forcing_recreation w in
        (diags, SetId "" d, w)
      else
        let w := Printf (API_FAILURE resp err) w in
        (FromErr err, d, w)
  | Some (Success integration, w) =>
      let w := Printf API_RESPONSE w in
      (diags, integrationStore integration d, w)
  end.

Definition resourceAnsibleTowerIntegrationCreate
    (d : ResourceData) (meta : Client) (w : World) : Outcome :=
  let diags : Diagnostics := [] in
  let req := integrationRequest (integrationCreatePayload d) in
  match invoke meta (CreateIntegration req) w with
  | (Failure resp err, w) =>
      let w := Printf (API_FAILURE resp err) w in
      (FromErr err, d, w)
  | (Success integrationResult_ID, w) =>
      let w := Printf API_RESPONSE w in
      (* Successfully created resource, now set id *)
      let d := SetId (int64ToString integrationResult_ID) d in
      let '(_, d, w) := resourceAnsibleTowerIntegrationRead d meta w in
      (diags, d, w)
  end.

Definition resourceAnsibleTowerIntegrationUpdate
    (d : ResourceData) (meta : Client) (w : World) : Outcome :=
  let id := Id d in
  let req := integrationRequest (integrationUpdatePayload d) in
  match invoke meta (UpdateIntegration (toInt64 id) req) w with
  | (Failure resp err, w) =>
      let w := Printf (API_FAILURE resp err) w in
      (FromErr err, d, w)
  | (Success integrationResult_ID, w) =>
      let w := Printf API_RESPONSE w in
      let d := SetId (int64ToString integrationResult_ID) d in
      resourceAnsibleTowerIntegrationRead d meta w
  end.

Definition resourceAnsibleTowerIntegrationDelete
    (d : ResourceData) (meta : Client) (w : World) : Outcome :=
  let diags : Diagnostics := [] in
  let id := Id d in
  match invoke meta (DeleteIntegration (toInt64 id)) w with
  | (Failure resp err, w) =>
      if is404 resp then
        let w := Printf (API_404 resp err) w in
        (FromErr err, d, w)
      else
        let w := Printf (API_FAILURE resp err) w in
        (FromErr err, d, w)
  | (Success _, w) =>
      let w := Printf API_RESPONSE w in
      (diags, SetId "" d, w)
  end.

(** ** The resource descriptors *)

Definition resourceHelmSpecTemplate : Resource :=
  {| CreateContext := resourceHelmSpecTemplateCreate;
     ReadContext := resourceHelmSpecTemplateRead;
     UpdateContext := resourceHelmSpecTemplateUpdate;
     DeleteContext := resourceHelmSpecTemplateDelete |}.

Definition resourceWorkflowCatalogItem : Resource :=
  {| CreateContext := resourceWorkflowCatalogItemCreate;
     ReadContext := resourceWorkflowCatalogItemRead;
     UpdateContext := resourceWorkflowCatalogItemUpdate;
     DeleteContext := resourceWorkflowCatalogItemDelete |}.

Definition resourceAnsibleTowerIntegration : Resource :=
  {| CreateContext := resourceAnsibleTowerIntegrationCreate;
     ReadContext := resourceAnsibleTowerIntegrationRead;
     UpdateContext := resourceAnsibleTowerIntegrationUpdate;
     DeleteContext := resourceAnsibleTowerIntegrationDelete |}.

Definition resource (k : Kind) : Resource :=
  match k with
  | HelmSpecTemplateKind => resourceHelmSpecTemplate
  | WorkflowCatalogItemKind => resourceWorkflowCatalogItem
  | AnsibleTowerIntegrationKind => resourceAnsibleTowerIntegration
  end.

End Provider.

(** The client methods of each kind. *)
Definition getById (k : Kind) (id : Z) : Call :=
  match k with
  | HelmSpecTemplateKind => GetSpecTemplate id
  | WorkflowCatalogItemKind => GetCatalogItem id
  | AnsibleTowerIntegrationKind => GetIntegration id
  end.

Definition findByName (k : Kind) (name : string) : Call :=
  match k with
  | HelmSpecTemplateKind => FindSpecTemplateByName name
  | WorkflowCatalogItemKind => FindCatalogItemByName name
  | AnsibleTowerIntegrationKind => FindIntegrationByName name
  end.

Definition deleteById (k : Kind) (id : Z) : Call :=
  match k with
  | HelmSpecTemplateKind => DeleteSpecTemplate id
  | WorkflowCatalogItemKind => DeleteCatalogItem id
  | AnsibleTowerIntegrationKind => DeleteIntegration id
  end.

(** * Part 4. Definitions used to state the properties *)

(** ** Digests *)

(** The bytes [0-9a-f], by their codes. *)
Definition lower_hex (c : nat) : Prop :=
  (48 <= c <= 57)%nat \/ (97 <= c <= 102)%nat.

Fixpoint all_lower_hex (s : string) : Prop :=
  match s with
  | EmptyString => True
  | String a s' => lower_hex (nat_of_ascii a) /\ all_lower_hex s'
  end.

(** [strings.ToUpper] on ASCII letters. *)
Definition upper_ascii (a : ascii) : ascii :=
  let c := nat_of_ascii a in
  if ((97 <=? c) && (c <=? 122))%nat then ascii_of_nat (c - 32) else a.

Fixpoint ToUpper (s : string) : string :=
  match s with
  | EmptyString => EmptyString
  | String a s' => String (upper_ascii a) (ToUpper s')
  end.

(** ** The dispatch of read, in the words of the specification

    By identifier when one is present; otherwise by name when one is
    present; otherwise there is nothing to look up. *)
Definition lookupOf (toInt64 : string -> Z) (k : Kind) (d : ResourceData) : option Call :=
  if negb (String.eqb (Id d) "") then Some (getById k (toInt64 (Id d)))
  else if negb (String.eqb (GetString "name" d) "") then
    Some (findByName k (GetString "name" d))
  else None.

(** The same resource data over another last observed state. *)
Definition withState (state : gmap string Value) (d : ResourceData) : ResourceData :=
  mkResourceData (rd_id d) state (rd_plan d) (rd_set d).

(** ** A remote that keeps what it is sent

    The round trip of create and read depends on the remote service.  The
    relations below say that an entity returned by the service carries
    the values of a request body; they are the assumption under which the
    round trip is stated. *)

(** [req[k1][k2]...] *)
Fixpoint at_path (ks : list string) (j : JSON) : option JSON :=
  match ks with
  | [] => Some j
  | k :: ks' =>
      match field k j with
      | Some j' => at_path ks' j'
      | None => None
      end
  end.

Definition jstring (o : option JSON) : string :=
  match o with Some (JString s) => s | _ => "" end.

Definition jint (o : option JSON) : Z :=
  match o with Some (JInt n) => n | _ => 0 end.

Definition jbool (o : option JSON) : bool :=
  match o with Some (JBool b) => b | _ => false end.

Definition jiface (o : option JSON) : iface :=
  match o with Some (JString s) => Str s | Some _ => Other | None => Nil end.

Definition jstrings (o : option JSON) : list string :=
  match o with Some (JArray l) => (fun j => jstring (Some j)) <$> l | _ => [] end.

Definition jints (o : option JSON) : list Z :=
  match o with Some (JArray l) => (fun j => jint (Some j)) <$> l | _ => [] end.

(** The source type a spec template is stored under: the one sent, or
    ["git"] for a template sent as ["repository"]. *)
Definition stored_sourceType (sent stored : string) : Prop :=
  stored = sent \/ (sent = "repository" /\ stored = "git").

Definition helm_keeps (req : JSON) (e : HelmSpecTemplate) : Prop :=
  hst_Name e = jstring (at_path ["specTemplate"; "name"] req) /\
  stored_sourceType (jstring (at_path ["specTemplate"; "file"; "sourceType"] req))
    (hst_Sourcetype e) /\
  hst_Content e = jstring (at_path ["specTemplate"; "file"; "content"] req) /\
  hst_Contentpath e = jiface (at_path ["specTemplate"; "file"; "contentPath"] req) /\
  hst_Contentref e = jiface (at_path ["specTemplate"; "file"; "contentRef"] req) /\
  hst_Repository_ID e = jint (at_path ["specTemplate"; "file"; "repository"; "id"] req).

Definition catalogItem_keeps (req : JSON) (e : CatalogItem) : Prop :=
  ci_Name e = jstring (at_path ["catalogItemType"; "name"] req) /\
  (list_to_set (ci_Labels e) : gset string)
  = list_to_set (jstrings (at_path ["catalogItemType"; "labels"] req)) /\
  ci_Description e = jstring (at_path ["catalogItemType"; "description"] req) /\
  ci_Category e = jstring (at_path ["catalogItemType"; "category"] req) /\
  ci_Enabled e = jbool (at_path ["catalogItemType"; "enabled"] req) /\
  ci_Featured e = jbool (at_path ["catalogItemType"; "featured"] req) /\
  ci_OptionTypes e = jints (at_path ["catalogItemType"; "optionTypes"] req) /\
  ci_Content e = jstring (at_path ["catalogItemType"; "content"] req) /\
  ci_Context e = jstring (at_path ["catalogItemType"; "context"] req) /\
  ci_Visibility e = jstring (at_path ["catalogItemType"; "visibility"] req) /\
  ci_Form_ID e = jint (at_path ["catalogItemType"; "form"; "id"] req) /\
  ci_Workflow_ID e = jint (at_path ["catalogItemType"; "workflow"; "id"] req).

(** The integration keeps the password as its digest. *)
Definition integration_keeps (req : JSON) (e : Integration) : Prop :=
  in_Name e = jstring (at_path ["integration"; "name"] req) /\
  in_Enabled e = jbool (at_path ["integration"; "enabled"] req) /\
  in_URL e = jstring (at_path ["integration"; "serviceUrl"] req) /\
  in_Username e = jstring (at_path ["integration"; "serviceUsername"] req) /\
  in_PasswordHash e = sha256_hex (jstring (at_path ["integration"; "servicePassword"] req)) /\
  in_Credential_ID e = jint (at_path ["integration"; "credential"; "id"] req).

(** The user-settable attributes of each kind that read stores from the
    remote entity or leaves as they are. *)
Definition helm_same (d d' : ResourceData) : Prop :=
  GetString "name" d' = GetString "name" d /\
  GetString "source_type" d' = GetString "source_type" d /\
  GetString "spec_content" d' = GetString "spec_content" d /\
  GetString "spec_path" d' = GetString "spec_path" d /\
  GetInt "repository_id" d' = GetInt "repository_id" d /\
  GetString "version_ref" d' = GetString "version_ref" d.

Definition catalogItem_same (d d' : ResourceData) : Prop :=
  GetString "name" d' = GetString "name" d /\
  GetSet "labels" d' = GetSet "labels" d /\
  GetString "description" d' = GetString "description" d /\
  GetString "category" d' = GetString "category" d /\
  GetBool "enabled" d' = GetBool "enabled" d /\
  GetBool "featured" d' = GetBool "featured" d /\
  GetInt "workflow_id" d' = GetInt "workflow_id" d /\
  GetString "context_type" d' = GetString "context_type" d /\
  GetString "content" d' = GetString "content" d /\
  GetList "option_type_ids" d' = GetList "option_type_ids" d /\
  GetString "logo_image_path" d' = GetString "logo_image_path" d /\
  GetString "dark_logo_image_path" d' = GetString "dark_logo_image_path" d /\
  GetString "visibility" d' = GetString "visibility" d /\
  GetInt "form_id" d' = GetInt "form_id" d.

Definition integration_same (d d' : ResourceData) : Prop :=
  GetString "name" d' = GetString "name" d /\
  GetBool "enabled" d' = GetBool "enabled" d /\
  GetString "url" d' = GetString "url" d /\
  GetString "username" d' = GetString "username" d /\
  GetInt "credential_id" d' = GetInt "credential_id" d.

(** [validation.StringInSlice([]string{"local", "url", "repository"}, false)] *)
Definition valid_source_type (s : string) : Prop :=
  s = "local" \/ s = "url" \/ s = "repository".

(** ** Calls and uploads *)

(** Between the worlds [w] and [w'] the remote service was called, first
    of all with [c]. *)
Definition calls_first (c : Call) (w w' : World) : Prop :=
  exists rest : list Call, calls w' = calls w ++ c :: rest.

(** The files of an upload hold one for the form field [parameterName]. *)
Definition has_file (parameterName : string) (filePayloads : list FilePayload) : bool :=
  existsb (fun f => String.eqb (ParameterName f) parameterName) filePayloads.

(** The request of the create call and of the update call of each kind. *)
Definition createCall (k : Kind) (d : ResourceData) : Call :=
  match k with
  | HelmSpecTemplateKind => CreateSpecTemplate (helmRequest d)
  | WorkflowCatalogItemKind =>
      CreateCatalogItem (catalogItemRequest (catalogItemCreatePayload d))
  | AnsibleTowerIntegrationKind =>
      CreateIntegration (integrationRequest (integrationCreatePayload d))
  end.

Definition updateCall (toInt64 : string -> Z) (k : Kind) (d : ResourceData) : Call :=
  match k with
  | HelmSpecTemplateKind => UpdateSpecTemplate (toInt64 (Id d)) (helmRequest d)
  | WorkflowCatalogItemKind =>
      UpdateCatalogItem (toInt64 (Id d)) (catalogItemRequest (catalogItemUpdatePayload d))
  | AnsibleTowerIntegrationKind =>
      UpdateIntegration (toInt64 (Id d)) (integrationRequest (integrationUpdatePayload d))
  end.

(** ** Instances for the examples

    Decimal conversions for the three helpers, a file system with one
    file, a few resource data, and remote services: one that has lost
    everything, one that cannot be reached, and one that keeps the last
    request body and answers reads from it. *)

Module Sample.

Definition toInt64 (s : string) : Z :=
  match NilZero.int_of_string s with
  | Some i => Z.of_int i
  | None => 0
  end.

Definition int64ToString (n : Z) : string := NilZero.string_of_int (Z.to_int n).

Definition intToString (n : Z) : string := NilZero.string_of_int (Z.to_int n).

Definition os_ReadFile (path : string) : error + list Z :=
  if String.eqb path "/tmp/logo.png" then inr [137; 80; 78; 71]
  else inl "open: no such file or directory".

Definition equalFoldUnicode (s t : string) : bool := false.

Definition start : World := mkWorld [] [].

(** Resource data before create: no identifier, no state. *)
Definition planned (attrs : list (string * Value)) : ResourceData :=
  mkResourceData "" ∅ (list_to_map attrs) ∅.

(** Resource data of an existing resource whose plan is its state. *)
Definition settled (id : string) (attrs : list (string * Value)) : ResourceData :=
  mkResourceData id (list_to_map attrs) (list_to_map attrs) ∅.

Definition helm_repository : list (string * Value) :=
  [ ("name", VString "app"); ("source_type", VString "repository");
    ("spec_path", VString "charts/app"); ("repository_id", VInt 5);
    ("version_ref", VString "main") ].

Definition catalog_item : list (string * Value) :=
  [ ("name", VString "restart"); ("labels", VSet {["ops"; "prod"]});
    ("description", VString "Restart a service"); ("category", VString "ops");
    ("enabled", VBool true); ("featured", VBool false); ("workflow_id", VInt 12);
    ("context_type", VString "instance"); ("content", VString "# Restart");
    ("option_type_ids", VList [3; 4]); ("logo_image_name", VString "logo.png");
    ("logo_image_path", VString "/tmp/logo.png"); ("visibility", VString "public");
    ("form_id", VInt 0) ].

Definition tower_inline : list (string * Value) :=
  [ ("name", VString "tower"); ("enabled", VBool true);
    ("url", VString "https://tower.example.com");
    ("username", VString "admin"); ("password", VString "secret") ].

Definition tower_credential : list (string * Value) :=
  [ ("name", VString "tower"); ("enabled", VBool true);
    ("url", VString "https://tower.example.com"); ("credential_id", VInt 7) ].

Definition gone : Client := fun _ _ => Failure (Some 404) "not found".

Definition unreachable : Client := fun _ _ => Failure None "connection refused".

(** The request body the service holds after the calls [h]. *)
Definition kept (h : list Call) : option JSON :=
  fold_left
    (fun (acc : option JSON) (c : Call) =>
       match c with
       | CreateSpecTemplate r | UpdateSpecTemplate _ r
       | CreateCatalogItem r | UpdateCatalogItem _ r
       | CreateIntegration r | UpdateIntegration _ r => Some r
       | DeleteSpecTemplate _ | DeleteCatalogItem _ | DeleteIntegration _ => None
       | _ => acc
       end) h None.

Definition answer {A : Type} (h : list Call) (entity : JSON -> A) : Reply A :=
  match kept h with
  | Some r => Success (entity r)
  | None => Failure (Some 404) "not found"
  end.

Definition keptSpecTemplate (id : Z) (r : JSON) : Body :=
  let sourceType := jstring (at_path ["specTemplate"; "file"; "sourceType"] r) in
  inr {| hst_ID := id;
         hst_Name := jstring (at_path ["specTemplate"; "name"] r);
         hst_Sourcetype :=
           if String.eqb sourceType "repository" then "git" else sourceType;
         hst_Contentref := jiface (at_path ["specTemplate"; "file"; "contentRef"] r);
         hst_Contentpath := jiface (at_path ["specTemplate"; "file"; "contentPath"] r);
         hst_Repository_ID := jint (at_path ["specTemplate"; "file"; "repository"; "id"] r);
         hst_Content := jstring (at_path ["specTemplate"; "file"; "content"] r) |}.

Definition keptCatalogItem (id : Z) (r : JSON) : CatalogItem :=
  {| ci_ID := id;
     ci_Name := jstring (at_path ["catalogItemType"; "name"] r);
     ci_Labels := jstrings (at_path ["catalogItemType"; "labels"] r);
     ci_Description := jstring (at_path ["catalogItemType"; "description"] r);
     ci_Category := jstring (at_path ["catalogItemType"; "category"] r);
     ci_Enabled := jbool (at_path ["catalogItemType"; "enabled"] r);
     ci_Featured := jbool (at_path ["catalogItemType"; "featured"] r);
     ci_OptionTypes := jints (at_path ["catalogItemType"; "optionTypes"] r);
     ci_Content := jstring (at_path ["catalogItemType"; "content"] r);
     ci_Context := jstring (at_path ["catalogItemType"; "context"] r);
     ci_Visibility := jstring (at_path ["catalogItemType"; "visibility"] r);
     ci_Form_ID := jint (at_path ["catalogItemType"; "form"; "id"] r);
     ci_Workflow_ID := jint (at_path ["catalogItemType"; "workflow"; "id"] r);
     ci_ImagePath := "";
     ci_DarkImagePath := "" |}.

Definition keptIntegration (id : Z) (r : JSON) : Integration :=
  {| in_ID := id;
     in_Name := jstring (at_path ["integration"; "name"] r);
     in_Enabled := jbool (at_path ["integration"; "enabled"] r);
     in_URL := jstring (at_path ["integration"; "serviceUrl"] r);
     in_Username := jstring (at_path ["integration"; "serviceUsername"] r);
     in_PasswordHash := sha256_hex (jstring (at_path ["integration"; "servicePassword"] r));
     in_Credential_ID := jint (at_path ["integration"; "credential"; "id"] r) |}.

Definition keeping : Client :=
  fun (h : list Call) (c : Call) =>
    match c return Reply (ResultOf c) with
    | CreateSpecTemplate _ => Success 7
    | CreateCatalogItem _ => Success 7
    | CreateIntegration _ => Success 7
    | UpdateSpecTemplate id _ => Success id
    | UpdateCatalogItem id _ => Success id
    | UpdateIntegration id _ => Success id
    | GetSpecTemplate id => answer h (keptSpecTemplate id)
    | FindSpecTemplateByName _ => answer h (keptSpecTemplate 7)
    | GetCatalogItem id => answer h (keptCatalogItem id)
    | FindCatalogItemByName _ => answer h (keptCatalogItem 7)
    | GetIntegration id => answer h (keptIntegration id)
    | FindIntegrationByName _ => answer h (keptIntegration 7)
    | DeleteSpecTemplate _ => answer h (fun _ => tt)
    | DeleteCatalogItem _ => answer h (fun _ => tt)
    | DeleteIntegration _ => answer h (fun _ => tt)
    | UpdateCatalogItemLogo _ _ => Success tt
    end.

(** The same service with a logo upload that fails. *)
Definition keeping_no_logos : Client :=
  fun (h : list Call) (c : Call) =>
    match c return Reply (ResultOf c) with
    | UpdateCatalogItemLogo _ _ => Failure (Some 500) "upload failed"
    | c' => keeping h c'
    end.

(** The provider over the decimal helpers and the one-file file system. *)
Definition provider : Kind -> Resource :=
  resource toInt64 int64ToString intToString os_ReadFile.

(** The Ansible Tower integration as a read leaves it: the password
    attribute holds the digest of ["secret"]. *)
Definition tower_observed : list (string * Value) :=
  [ ("name", VString "tower"); ("enabled", VBool true);
    ("url", VString "https://tower.example.com"); ("username", VString "admin");
    ("password",
     VString "2bb80d537b1da3e38bd30361aa855686bde0eacd7162fef6a25fe97bf527a25b") ].

(** The world after a create, or an update, of the given request. *)
Definition after (c : Call) : World := mkWorld [c] [].

End Sample.

(** * Part 4, continued. Further definitions

    ** The schema functions

    The [StateFunc] of [spec_content] and of [content] is
    [strings.TrimSuffix(val.(string), "\n")]; [source_type],
    [context_type] and [visibility] are validated by
    [validation.StringInSlice(valid, false)]. *)

Fixpoint string_take (n : nat) (s : string) : string :=
  match n, s with
  | S n', String c s' => String c (string_take n' s')
  | _, _ => EmptyString
  end.

(** [strings.HasSuffix]:
    [len(s) >= len(suffix) && s[len(s)-len(suffix):] == suffix] *)
Definition HasSuffix (s suffix : string) : bool :=
  (String.length suffix <=? String.length s)%nat &&
  String.eqb (string_drop (String.length s - String.length suffix) s) suffix.

(** [strings.TrimSuffix]: [s[:len(s)-len(suffix)]] when [s] has the suffix,
    [s] otherwise. *)
Definition TrimSuffix (s suffix : string) : string :=
  if HasSuffix s suffix
  then string_take (String.length s - String.length suffix) s
  else s.

Definition newline : string := String "010"%char EmptyString.

(** The [StateFunc] of [spec_content] (helm spec template) and of
    [content] (workflow catalog item). *)
Definition contentStateFunc (val : string) : string := TrimSuffix val newline.

(** [validation.StringInSlice(valid, ignoreCase)] applied to the string
    [v]: whether it returns no error.  The loop accepts [v] at the first
    [str] with [v == str || (ignoreCase && strings.EqualFold(v, str))]. *)
Definition StringInSlice (equalFoldUnicode : string -> string -> bool)
    (valid : list string) (ignoreCase : bool) (v : string) : bool :=
  existsb (fun str => String.eqb v str || (ignoreCase && EqualFold equalFoldUnicode v str))
    valid.

(** The [ValidateFunc] of [source_type]. *)
Definition validate_source_type (equalFoldUnicode : string -> string -> bool)
    (v : string) : bool :=
  StringInSlice equalFoldUnicode ["local"; "url"; "repository"] false v.

(** [strings.Join(pieces, sep)] *)
Fixpoint Join (pieces : list string) (sep : string) : string :=
  match pieces with
  | [] => EmptyString
  | [piece] => piece
  | piece :: rest => String.append piece (String.append sep (Join rest sep))
  end.

(** The byte [c] occurs in [s]. *)
Fixpoint occurs (c : ascii) (s : string) : bool :=
  match s with
  | EmptyString => false
  | String a s' => Ascii.eqb a c || occurs c s'
  end.

(** Every byte of [s] is below [utf8.RuneSelf]. *)
Fixpoint all_ascii (s : string) : Prop :=
  match s with
  | EmptyString => True
  | String a s' => (nat_of_ascii a < 128)%nat /\ all_ascii s'
  end.

(** ** The primary call of create and of update

    The answer of the remote service to the first call of create and of
    update, at the type of the identifier that both take out of it. *)
Definition primaryCreate (k : Kind) (d : ResourceData) (meta : Client) (h : list Call)
    : Reply Z :=
  match k with
  | HelmSpecTemplateKind => meta h (CreateSpecTemplate (helmRequest d))
  | WorkflowCatalogItemKind =>
      meta h (CreateCatalogItem (catalogItemRequest (catalogItemCreatePayload d)))
  | AnsibleTowerIntegrationKind =>
      meta h (CreateIntegration (integrationRequest (integrationCreatePayload d)))
  end.

Definition primaryUpdate (toInt64 : string -> Z) (k : Kind) (d : ResourceData)
    (meta : Client) (h : list Call) : Reply Z :=
  match k with
  | HelmSpecTemplateKind => meta h (UpdateSpecTemplate (toInt64 (Id d)) (helmRequest d))
  | WorkflowCatalogItemKind =>
      meta h (UpdateCatalogItem (toInt64 (Id d))
                (catalogItemRequest (catalogItemUpdatePayload d)))
  | AnsibleTowerIntegrationKind =>
      meta h (UpdateIntegration (toInt64 (Id d))
                (integrationRequest (integrationUpdatePayload d)))
  end.

(** The calls that follow the primary call before the read: the logo
    upload of the workflow catalog item, nothing for the other kinds. *)
Definition uploadCalls (k : Kind) (newid : Z) (files : list FilePayload) : list Call :=
  match k with
  | WorkflowCatalogItemKind => [UpdateCatalogItemLogo newid files]
  | _ => []
  end.

(** The attributes that the read of each kind passes to [d.Set]. *)
Definition readAttributes (k : Kind) : list string :=
  match k with
  | HelmSpecTemplateKind =>
      ["name"; "source_type"; "spec_content"; "spec_path"; "repository_id"; "version_ref"]
  | WorkflowCatalogItemKind =>
      ["name"; "labels"; "description"; "category"; "enabled"; "featured";
       "option_type_ids"; "content"; "context_type"; "visibility"; "form_id";
       "workflow_id"; "logo_image_name"; "dark_logo_image_name"]
  | AnsibleTowerIntegrationKind =>
      ["name"; "enabled"; "url"; "username"; "password"; "credential_id"]
  end.

(** The lookup of a read was answered with [r]: by the method of the
    identifier when there is one, by the method of the name when there is
    a name and no identifier. *)
Definition looked_up {A : Type} (toInt64 : string -> Z) (d : ResourceData)
    (byId : Z -> Reply A) (byName : string -> Reply A) (r : Reply A) : Prop :=
  (Id d <> "" /\ byId (toInt64 (Id d)) = r) \/
  (Id d = "" /\ GetString "name" d <> "" /\ byName (GetString "name" d) = r).


(** Diagnostics that report success, or one error and nothing else. *)
Definition success_or_one_error (diags : Diagnostics) : Prop :=
  diags = [] \/ exists msg : string, diags = [mkDiagnostic Error msg].

(** ** Further instances for the examples *)

Module Scenario.

(** A service that takes creates and updates and answers nothing else. *)
Definition accepting : Client :=
  fun (h : list Call) (c : Call) =>
    match c return Reply (ResultOf c) with
    | CreateSpecTemplate _ => Success 7
    | CreateCatalogItem _ => Success 7
    | CreateIntegration _ => Success 7
    | UpdateSpecTemplate id _ => Success id
    | UpdateCatalogItem id _ => Success id
    | UpdateIntegration id _ => Success id
    | _ => Failure None "connection refused"
    end.

(** A service that takes creates and updates and has lost the entity by
    the time it is read. *)
Definition vanishing : Client :=
  fun (h : list Call) (c : Call) =>
    match c return Reply (ResultOf c) with
    | CreateSpecTemplate _ => Success 7
    | CreateCatalogItem _ => Success 7
    | CreateIntegration _ => Success 7
    | UpdateSpecTemplate id _ => Success id
    | UpdateCatalogItem id _ => Success id
    | UpdateIntegration id _ => Success id
    | _ => Failure (Some 404) "not found"
    end.

(** A workflow catalog item whose logo file does not exist. *)
Definition missing_logo : list (string * Value) :=
  [ ("name", VString "restart"); ("workflow_id", VInt 12);
    ("visibility", VString "public"); ("logo_image_name", VString "logo.png");
    ("logo_image_path", VString "/tmp/missing.png") ].

End Scenario.

(** * Part 5. Properties *)

(** ** The digest and the comparison *)

Lemma digit_lower_hex (v : Z) : lower_hex (nat_of_ascii (Hex.digit v)).
Proof.
  unfold Hex.digit, lower_hex.
  generalize (Z.to_nat v) as n. intros n.
  do 16 (destruct n as [|n]; [vm_compute; lia|]).
  destruct n; vm_compute; lia.
Qed.

Lemma EncodeToString_lower_hex (src : list Z) :
  all_lower_hex (Hex.EncodeToString src).
Proof.
  induction src as [|v rest IH]; simpl; auto using digit_lower_hex.
Qed.

Lemma EncodeToString_length (src : list Z) :
  String.length (Hex.EncodeToString src) = (2 * length src)%nat.
Proof.
  induction src as [|v rest IH]; simpl; [reflexivity|]. rewrite IH. lia.
Qed.

Lemma Sum256_length (msg : list Z) : length (Sha256.Sum256 msg) = 32%nat.
Proof. reflexivity. Qed.

Lemma sha256_hex_length (s : string) : String.length (sha256_hex s) = 64%nat.
Proof.
  unfold sha256_hex. rewrite EncodeToString_length, Sum256_length. reflexivity.
Qed.

Section EqualFoldFacts.

Variable equalFoldUnicode : string -> string -> bool.

Lemma lower_hex_ascii (c : nat) : lower_hex c -> (128 <=? c)%nat = false.
Proof. unfold lower_hex. intros H. apply Nat.leb_gt. lia. Qed.

Lemma lower_hex_not_upper (c : nat) : lower_hex c -> is_upper c = false.
Proof.
  unfold lower_hex, is_upper. intros H.
  destruct (Nat.leb_spec 65 c), (Nat.leb_spec c 90); simpl; try reflexivity; lia.
Qed.

Lemma nat_of_ascii_inj (a b : ascii) : nat_of_ascii a = nat_of_ascii b -> a = b.
Proof.
  intros H. rewrite <- (ascii_nat_embedding a), <- (ascii_nat_embedding b).
  now rewrite H.
Qed.

Lemma EqualFold_cons (a b : ascii) (s t : string) :
  EqualFold equalFoldUnicode (String a s) (String b t) =
  if ((128 <=? nat_of_ascii a) || (128 <=? nat_of_ascii b))%nat
  then equalFoldUnicode (String a s) (String b t)
  else if (nat_of_ascii b =? nat_of_ascii a)%nat then EqualFold equalFoldUnicode s t
  else if (nat_of_ascii b <? nat_of_ascii a)%nat
       then if is_upper (nat_of_ascii b) && (nat_of_ascii a =? nat_of_ascii b + 32)%nat
            then EqualFold equalFoldUnicode s t else false
       else if is_upper (nat_of_ascii a) && (nat_of_ascii b =? nat_of_ascii a + 32)%nat
            then EqualFold equalFoldUnicode s t else false.
Proof.
  cbn [EqualFold]. destruct (nat_of_ascii b <? nat_of_ascii a)%nat; reflexivity.
Qed.

(** On two lower-case hexadecimal strings, [EqualFold] is equality. *)
Lemma EqualFold_lower_hex (s t : string) :
  all_lower_hex s -> all_lower_hex t ->
  EqualFold equalFoldUnicode s t = true <-> s = t.
Proof.
  revert t. induction s as [|a s IH]; intros [|b t] Hs Ht;
    try (cbn [EqualFold]; split; [discriminate|discriminate]);
    try (cbn [EqualFold]; split; reflexivity).
  destruct Hs as [Ha Hs], Ht as [Hb Ht].
  rewrite EqualFold_cons, (lower_hex_ascii _ Ha), (lower_hex_ascii _ Hb).
  cbn [orb].
  destruct (Nat.eqb_spec (nat_of_ascii b) (nat_of_ascii a)) as [E|E].
  - apply nat_of_ascii_inj in E. subst b. rewrite IH by assumption.
    split; [intros ->; reflexivity | intros [= ->]; reflexivity].
  - assert (Hne : String a s <> String b t)
      by (intros [= -> _]; apply E; reflexivity).
    rewrite (lower_hex_not_upper _ Ha), (lower_hex_not_upper _ Hb). cbn [andb].
    destruct (nat_of_ascii b <? nat_of_ascii a)%nat;
      (split; [discriminate | contradiction]).
Qed.

Lemma upper_ascii_digit (a : ascii) :
  (48 <= nat_of_ascii a <= 57)%nat -> upper_ascii a = a.
Proof.
  intros H. unfold upper_ascii.
  destruct (Nat.leb_spec 97 (nat_of_ascii a)); [lia | reflexivity].
Qed.

Lemma upper_ascii_letter (a : ascii) :
  (97 <= nat_of_ascii a <= 102)%nat ->
  nat_of_ascii (upper_ascii a) = (nat_of_ascii a - 32)%nat.
Proof.
  intros H. unfold upper_ascii.
  destruct (Nat.leb_spec 97 (nat_of_ascii a)); [|lia].
  destruct (Nat.leb_spec (nat_of_ascii a) 122); [|lia].
  cbn [andb]. apply nat_ascii_embedding. lia.
Qed.

(** An upper-cased hexadecimal string folds to the lower-case one. *)
Lemma EqualFold_ToUpper (s : string) :
  all_lower_hex s -> EqualFold equalFoldUnicode (ToUpper s) s = true.
Proof.
  induction s as [|a s IH]; [reflexivity|]. intros [Ha Hs].
  specialize (IH Hs). cbn [ToUpper]. rewrite EqualFold_cons.
  destruct Ha as [Ha|Ha].
  - (* a digit: unchanged *)
    rewrite (upper_ascii_digit _ Ha).
    destruct (Nat.leb_spec 128 (nat_of_ascii a)); [lia|]. cbn [orb].
    rewrite Nat.eqb_refl. exact IH.
  - (* a letter [a-f]: 32 below *)
    rewrite (upper_ascii_letter _ Ha).
    destruct (Nat.leb_spec 128 (nat_of_ascii a - 32)); [lia|].
    destruct (Nat.leb_spec 128 (nat_of_ascii a)); [lia|]. cbn [orb].
    destruct (Nat.eqb_spec (nat_of_ascii a) (nat_of_ascii a - 32)); [lia|].
    destruct (Nat.ltb_spec (nat_of_ascii a) (nat_of_ascii a - 32)); [lia|].
    unfold is_upper.
    destruct (Nat.leb_spec 65 (nat_of_ascii a - 32)); [|lia].
    destruct (Nat.leb_spec (nat_of_ascii a - 32) 90); [|lia].
    destruct (Nat.eqb_spec (nat_of_ascii a) (nat_of_ascii a - 32 + 32)); [|lia].
    exact IH.
Qed.

(** C2. The password diff-suppression predicate compares the stored value,
    ignoring case, with the digest of the new plaintext, which is the
    hexadecimal encoding (64 characters) of its SHA-256 sum: for a stored
    digest [D = sha256_hex S] it returns [true] on [(D, S)], also when [D]
    is stored in upper case, and [false] on [(D, S')] for every [S']
    whose digest differs from [D]. *)
Theorem password_diff_suppress_digest (S : string) :
  String.length (sha256_hex S) = 64%nat /\
  passwordDiffSuppress equalFoldUnicode (sha256_hex S) S = true /\
  passwordDiffSuppress equalFoldUnicode (ToUpper (sha256_hex S)) S = true /\
  (forall S' : string,
      sha256_hex S' <> sha256_hex S ->
      passwordDiffSuppress equalFoldUnicode (sha256_hex S) S' = false).
Proof.
  pose proof (EncodeToString_lower_hex (Sha256.Sum256 (bytes_of_string S))) as HS.
  fold (sha256_hex S) in HS.
  split; [apply sha256_hex_length|]. unfold passwordDiffSuppress.
  split; [apply EqualFold_lower_hex; auto|].
  split; [apply EqualFold_ToUpper; exact HS|].
  intros S' Hne.
  pose proof (EncodeToString_lower_hex (Sha256.Sum256 (bytes_of_string S'))) as HS'.
  fold (sha256_hex S') in HS'.
  destruct (EqualFold equalFoldUnicode (sha256_hex S) (sha256_hex S')) eqn:E;
    [|reflexivity].
  apply EqualFold_lower_hex in E; auto. congruence.
Qed.

End EqualFoldFacts.

(** ** The lifecycle functions *)

(** Lookups at literal keys through a chain of insertions. *)
Ltac lookups :=
  repeat first
    [ rewrite lookup_insert_eq
    | rewrite lookup_insert_ne by discriminate
    | rewrite lookup_empty ].

Section Contract.

Variable toInt64 : string -> Z.
Variable int64ToString : Z -> string.
Variable intToString : Z -> string.
Variable os_ReadFile : string -> error + list Z.

Local Abbreviation resource_of := (resource toInt64 int64ToString intToString os_ReadFile).
Local Abbreviation lookup_of := (lookupOf toInt64).

Lemma lookupOf_by_id (k : Kind) (d : ResourceData) :
  Id d <> "" -> lookup_of k d = Some (getById k (toInt64 (Id d))).
Proof.
  intros H. unfold lookupOf.
  destruct (String.eqb_spec (Id d) ""); [contradiction | reflexivity].
Qed.

Lemma lookupOf_by_name (k : Kind) (d : ResourceData) :
  Id d = "" -> GetString "name" d <> "" ->
  lookup_of k d = Some (findByName k (GetString "name" d)).
Proof.
  intros H1 H2. unfold lookupOf. rewrite H1. cbn [String.eqb negb].
  destruct (String.eqb_spec (GetString "name" d) ""); [contradiction | reflexivity].
Qed.

Lemma lookupOf_none (k : Kind) (d : ResourceData) :
  Id d = "" -> GetString "name" d = "" -> lookup_of k d = None.
Proof. intros H1 H2. unfold lookupOf. rewrite H1, H2. reflexivity. Qed.

(** The three reads start alike: the dispatch is the one of [lookupOf]. *)
Ltac dispatch_read d :=
  unfold lookupOf; cbn [resource ReadContext
    resourceHelmSpecTemplate resourceWorkflowCatalogItem resourceAnsibleTowerIntegration
    getById findByName];
  unfold resourceHelmSpecTemplateRead, resourceWorkflowCatalogItemRead,
    resourceAnsibleTowerIntegrationRead;
  destruct (String.eqb_spec (Id d) ""), (String.eqb_spec (GetString "name" d) "");
  cbn [negb andb].

(** What a read does to the calls, by [lookupOf]. *)
Lemma read_lookup (k : Kind) (d : ResourceData) (meta : Client) (w : World) :
  let '(diags, d', w') := ReadContext (resource_of k) d meta w in
  match lookup_of k d with
  | Some c => calls w' = calls w ++ [c]
  | None => HasError diags = true /\ d' = d /\ w' = w
  end.
Proof.
  destruct (ReadContext (resource_of k) d meta w) as [[diags d'] w'] eqn:E.
  revert E. destruct k; dispatch_read d; unfold invoke;
    repeat match goal with
      | |- context [match ?r with Success _ => _ | Failure _ _ => _ end] => destruct r
      | |- context [if is404 ?r then _ else _] => destruct (is404 r)
      | |- context [match json_Unmarshal ?b with inl _ => _ | inr _ => _ end] =>
          destruct (json_Unmarshal b)
      end;
    intros [= <- <- <-]; cbn; auto.
Qed.

Lemma read_calls (k : Kind) (d : ResourceData) (meta : Client) (w : World) :
  exists rest : list Call,
    calls (ReadContext (resource_of k) d meta w).2 = calls w ++ rest.
Proof.
  pose proof (read_lookup k d meta w) as H.
  destruct (ReadContext (resource_of k) d meta w) as [[diags d'] w'].
  destruct (lookup_of k d) as [c|].
  - exists [c]. exact H.
  - exists []. destruct H as (_ & _ & ->). cbn. now rewrite app_nil_r.
Qed.

(** C8. The read of every resource kind looks the entity up by identifier
    when the identifier is present, by name when the identifier is absent
    and a name is present, and otherwise returns an error without calling
    the remote service. *)
Theorem read_dispatch (k : Kind) (d : ResourceData) (meta : Client) (w : World) :
  let '(diags, d', w') := ReadContext (resource_of k) d meta w in
  (Id d <> "" -> calls w' = calls w ++ [getById k (toInt64 (Id d))]) /\
  (Id d = "" -> GetString "name" d <> "" ->
   calls w' = calls w ++ [findByName k (GetString "name" d)]) /\
  (Id d = "" -> GetString "name" d = "" ->
   HasError diags = true /\ d' = d /\ w' = w).
Proof.
  pose proof (read_lookup k d meta w) as Hcalls.
  destruct (ReadContext (resource_of k) d meta w) as [[diags d'] w'].
  split; [|split].
  - intros H. rewrite (lookupOf_by_id k d H) in Hcalls. exact Hcalls.
  - intros H1 H2. rewrite (lookupOf_by_name k d H1 H2) in Hcalls. exact Hcalls.
  - intros H1 H2. rewrite (lookupOf_none k d H1 H2) in Hcalls. exact Hcalls.
Qed.

(** C4. When the lookup of a read fails with a 404 response, the read of
    every resource kind returns no diagnostic and clears the identifier;
    when it fails in any other way (another status code, or no response at
    all) the read returns the error and leaves the resource data alone. *)
Theorem read_not_found (k : Kind) (d : ResourceData) (meta : Client) (w : World)
    (c : Call) (resp : option Z) (err : error) :
  lookup_of k d = Some c ->
  meta (calls w) c = Failure resp err ->
  let '(diags, d', w') := ReadContext (resource_of k) d meta w in
  if is404 resp
  then diags = [] /\ d' = SetId "" d /\ Id d' = ""
  else diags = FromErr err /\ HasError diags = true /\ d' = d.
Proof.
  destruct k; dispatch_read d; intros [= <-] Hreply; unfold invoke;
    rewrite Hreply; destruct (is404 resp); cbn; auto.
Qed.

(** C3. A 404 response to the delete call is a success for the helm spec
    template and an error for the workflow catalog item and for the
    Ansible Tower integration. *)
Theorem delete_not_found (k : Kind) (d : ResourceData) (meta : Client) (w : World)
    (resp : option Z) (err : error) :
  is404 resp = true ->
  meta (calls w) (deleteById k (toInt64 (Id d))) = Failure resp err ->
  let '(diags, d', w') := DeleteContext (resource_of k) d meta w in
  d' = d /\
  match k with
  | HelmSpecTemplateKind => diags = [] /\ HasError diags = false
  | WorkflowCatalogItemKind | AnsibleTowerIntegrationKind =>
      diags = FromErr err /\ HasError diags = true
  end.
Proof.
  intros H404 Hreply.
  destruct k; cbn [deleteById] in Hreply;
    cbn [resource DeleteContext resourceHelmSpecTemplate
           resourceWorkflowCatalogItem resourceAnsibleTowerIntegration];
    unfold resourceHelmSpecTemplateDelete, resourceWorkflowCatalogItemDelete,
      resourceAnsibleTowerIntegrationDelete, invoke;
    rewrite Hreply, H404; cbn; auto.
Qed.

(** C10. A successful read of the Ansible Tower integration stores one
    credential group: with a remote credential ID of zero the remote
    username and the remote password hash become [username] and
    [password] and [credential_id] is not written; with a nonzero one it
    becomes [credential_id] and [username] and [password] are not
    written. *)
Theorem integration_read_credential_group (d : ResourceData) (meta : Client) (w : World)
    (integration : Integration) :
  (Id d <> "" /\
   meta (calls w) (GetIntegration (toInt64 (Id d))) = Success integration) \/
  (Id d = "" /\ GetString "name" d <> "" /\
   meta (calls w) (FindIntegrationByName (GetString "name" d)) = Success integration) ->
  let '(diags, d', w') := ReadContext (resource_of AnsibleTowerIntegrationKind) d meta w in
  diags = [] /\
  if in_Credential_ID integration =? 0
  then Get "username" d' = Some (VString (in_Username integration)) /\
       Get "password" d' = Some (VString (in_PasswordHash integration)) /\
       rd_set d' !! "credential_id" = rd_set d !! "credential_id" /\
       Get "credential_id" d' = Get "credential_id" d
  else Get "credential_id" d' = Some (VInt (in_Credential_ID integration)) /\
       rd_set d' !! "username" = rd_set d !! "username" /\
       rd_set d' !! "password" = rd_set d !! "password" /\
       Get "username" d' = Get "username" d /\
       Get "password" d' = Get "password" d.
Proof.
  intros H.
  assert (E : ReadContext (resource_of AnsibleTowerIntegrationKind) d meta w =
              ([], integrationStore int64ToString integration d,
               Printf API_RESPONSE
                 (mkWorld (calls w ++ [match lookup_of AnsibleTowerIntegrationKind d with
                                       | Some c => c
                                       | None => GetIntegration 0
                                       end]) (logs w)))).
  { dispatch_read d; unfold invoke;
      destruct H as [[Hid' Hr]|(Hid' & Hname' & Hr)]; try contradiction;
      rewrite Hr; reflexivity. }
  rewrite E. unfold integrationStore.
  destruct (in_Credential_ID integration =? 0); unfold Get; cbn;
    lookups; repeat split; reflexivity.
Qed.

(** ** Request payloads *)

Lemma uploadLogos_calls (meta : Client) (id : Z) (files : list FilePayload) (w : World) :
  calls (uploadLogos meta id files w) = calls w ++ [UpdateCatalogItemLogo id files].
Proof.
  unfold uploadLogos, invoke.
  destruct (meta (calls w) (UpdateCatalogItemLogo id files)); reflexivity.
Qed.

Ltac unfold_lifecycle :=
  cbn [resource CreateContext UpdateContext
         resourceHelmSpecTemplate resourceWorkflowCatalogItem
         resourceAnsibleTowerIntegration createCall updateCall];
  unfold resourceHelmSpecTemplateCreate, resourceWorkflowCatalogItemCreate,
    resourceAnsibleTowerIntegrationCreate, resourceHelmSpecTemplateUpdate,
    resourceWorkflowCatalogItemUpdate, resourceAnsibleTowerIntegrationUpdate, invoke.

Ltac fold_read :=
  change (resourceHelmSpecTemplateRead toInt64 intToString)
    with (ReadContext (resource_of HelmSpecTemplateKind)) in *;
  change (resourceWorkflowCatalogItemRead toInt64 intToString)
    with (ReadContext (resource_of WorkflowCatalogItemKind)) in *;
  change (resourceAnsibleTowerIntegrationRead toInt64 int64ToString)
    with (ReadContext (resource_of AnsibleTowerIntegrationKind)) in *.

(** After the first call, whatever a read adds comes behind it. *)
Ltac first_then_read :=
  match goal with
  | |- context [ReadContext (resource_of ?k) ?d ?m ?w] =>
      let rest := fresh "rest" in
      let H := fresh "H" in
      destruct (read_calls k d m w) as [rest H];
      destruct (ReadContext (resource_of k) d m w) as [[? ?] ?];
      cbn [snd] in H |- *; rewrite H, ?uploadLogos_calls; unfold Printf;
      cbn [calls]; rewrite <- ?app_assoc; cbn [app]; eexists; reflexivity
  | |- _ => cbn; exists []; reflexivity
  end.

(** The three creates and the three updates call the remote service first
    of all with their request. *)
Lemma create_calls_first (k : Kind) (d : ResourceData) (meta : Client) (w : World) :
  calls_first (createCall k d) w (CreateContext (resource_of k) d meta w).2.
Proof.
  unfold calls_first.
  destruct k; unfold_lifecycle;
    repeat match goal with
      | |- context [match meta ?h ?c with Success _ => _ | Failure _ _ => _ end] =>
          destruct (meta h c)
      | |- context [match logoPayloads ?f ?g ?x with inl _ => _ | inr _ => _ end] =>
          destruct (logoPayloads f g x)
      end;
    fold_read; first_then_read.
Qed.

Lemma update_calls_first (k : Kind) (d : ResourceData) (meta : Client) (w : World) :
  calls_first (updateCall toInt64 k d) w (UpdateContext (resource_of k) d meta w).2.
Proof.
  unfold calls_first.
  destruct k; unfold_lifecycle;
    repeat match goal with
      | |- context [match meta ?h ?c with Success _ => _ | Failure _ _ => _ end] =>
          destruct (meta h c)
      | |- context [match logoPayloads ?f ?g ?x with inl _ => _ | inr _ => _ end] =>
          destruct (logoPayloads f g x)
      end;
    fold_read; first_then_read.
Qed.

(** C5 (the source departs from it).  With a nonzero [credential_id] the
    request body that create sends holds no credential at all: the map
    with the credential type and ID is never put into the integration.
    The update builds the same map and does put it there. *)
Theorem integration_create_drops_credential (d : ResourceData) (meta : Client) (w : World) :
  GetInt "credential_id" d <> 0 ->
  let req := integrationRequest (integrationCreatePayload d) in
  calls_first (CreateIntegration req) w
    (CreateContext (resource_of AnsibleTowerIntegrationKind) d meta w).2 /\
  at_path ["integration"; "credential"] req = None /\
  at_path ["integration"; "credential"] (integrationRequest (integrationUpdatePayload d))
  = Some (JObject (<["id" := JInt (GetInt "credential_id" d)]>
                     (<["type" := JString "username-password"]> ∅))).
Proof.
  intros Hcred. cbn zeta.
  split; [exact (create_calls_first AnsibleTowerIntegrationKind d meta w)|].
  unfold integrationRequest, integrationCreatePayload, integrationUpdatePayload.
  destruct (Z.eqb_spec (GetInt "credential_id" d) 0) as [E|_]; [contradiction|].
  cbn [negb at_path field]. lookups. cbn [at_path field]. lookups.
  split; reflexivity.
Qed.

(** C6. Creating a helm spec template with [source_type = "repository"],
    [spec_path = "charts/app"], [repository_id = 5] and
    [version_ref = "main"] sends a request whose file object holds
    [contentPath = "charts/app"], [contentRef = "main"] and
    [repository.id = 5], and holds no [content]. *)
Theorem helm_create_repository_payload (d : ResourceData) (meta : Client) (w : World) :
  GetString "source_type" d = "repository" ->
  GetString "spec_path" d = "charts/app" ->
  GetInt "repository_id" d = 5 ->
  GetString "version_ref" d = "main" ->
  let req := helmRequest d in
  calls_first (CreateSpecTemplate req) w
    (CreateContext (resource_of HelmSpecTemplateKind) d meta w).2 /\
  at_path ["specTemplate"; "file"; "contentPath"] req = Some (JString "charts/app") /\
  at_path ["specTemplate"; "file"; "contentRef"] req = Some (JString "main") /\
  at_path ["specTemplate"; "file"; "repository"; "id"] req = Some (JInt 5) /\
  at_path ["specTemplate"; "file"; "content"] req = None.
Proof.
  intros Htype Hpath Hrepo Href. cbn zeta.
  split; [exact (create_calls_first HelmSpecTemplateKind d meta w)|].
  unfold helmRequest, helmSourceOptions. rewrite Htype, Hpath, Hrepo, Href.
  cbn [String.eqb Ascii.eqb Bool.eqb andb at_path field].
  repeat (lookups; cbn [at_path field]).
  repeat split; reflexivity.
Qed.

(** ** Partial failure of create *)

Lemma read_logs (k : Kind) (d : ResourceData) (meta : Client) (w : World) :
  exists rest : list LogLine,
    logs (ReadContext (resource_of k) d meta w).2 = logs w ++ rest.
Proof.
  destruct k; dispatch_read d; unfold invoke;
    repeat match goal with
      | |- context [match ?r with Success _ => _ | Failure _ _ => _ end] => destruct r
      | |- context [if is404 ?r then _ else _] => destruct (is404 r)
      | |- context [match json_Unmarshal ?b with inl _ => _ | inr _ => _ end] =>
          destruct (json_Unmarshal b)
      end;
    unfold Printf; cbn [snd logs]; rewrite <- ?app_assoc;
    solve [eexists; reflexivity | exists []; now rewrite app_nil_r].
Qed.

(** C9. When the primary create of a workflow catalog item succeeds and
    the logo upload fails, the failure is logged, the identifier returned
    by the primary create is assigned, the create goes on with the read of
    that identifier and returns no diagnostic. *)
Theorem catalogItem_create_logo_failure (d : ResourceData) (meta : Client) (w : World)
    (newid : Z) (files : list FilePayload) (resp : option Z) (err : error) :
  let req := catalogItemRequest (catalogItemCreatePayload d) in
  meta (calls w) (CreateCatalogItem req) = Success newid ->
  logoPayloads os_ReadFile logoGiven d = inr files ->
  meta (calls w ++ [CreateCatalogItem req]) (UpdateCatalogItemLogo newid files)
  = Failure resp err ->
  let w1 := mkWorld (calls w ++ [CreateCatalogItem req; UpdateCatalogItemLogo newid files])
                    (logs w ++ [API_RESPONSE; API_FAILURE resp err; API_RESPONSE]) in
  let after_read :=
    ReadContext (resource_of WorkflowCatalogItemKind)
      (SetId (int64ToString newid) d) meta w1 in
  let '(diags, d', w') := CreateContext (resource_of WorkflowCatalogItemKind) d meta w in
  diags = [] /\ HasError diags = false /\
  d' = after_read.1.2 /\ w' = after_read.2 /\
  In (API_FAILURE resp err) (logs w').
Proof.
  intros req Hcreate Hfiles Hlogo w1 after_read.
  assert (E : CreateContext (resource_of WorkflowCatalogItemKind) d meta w =
              let '(_, d', w') := after_read in ([], d', w')).
  { unfold_lifecycle. fold req. rewrite Hcreate, Hfiles.
    unfold uploadLogos, invoke, Printf. cbn [calls logs]. rewrite Hlogo.
    cbn [calls logs]. rewrite <- !app_assoc. reflexivity. }
  rewrite E. subst after_read.
  destruct (read_logs WorkflowCatalogItemKind (SetId (int64ToString newid) d) meta w1)
    as [rest Hlogs].
  destruct (ReadContext (resource_of WorkflowCatalogItemKind)
              (SetId (int64ToString newid) d) meta w1) as [[diags1 d'] w'].
  cbn [fst snd] in Hlogs |- *. repeat split.
  rewrite Hlogs. subst w1. cbn [logs]. rewrite !in_app_iff. cbn. tauto.
Qed.

(** ** What update sends *)

Lemma fold_left_snoc {A : Type} (l acc : list A) :
  fold_left (fun (acc : list A) (x : A) => acc ++ [x]) l acc = acc ++ l.
Proof.
  revert acc. induction l as [|x l IH]; intros acc; cbn [fold_left].
  - now rewrite app_nil_r.
  - rewrite IH, <- app_assoc. reflexivity.
Qed.

Lemma labelsPayload_elements (d : ResourceData) :
  labelsPayload d = elements (GetSet "labels" d).
Proof.
  unfold labelsPayload, GetOkSet.
  destruct (bool_decide_reflect (GetSet "labels" d = ∅)) as [E|E]; cbn [negb].
  - rewrite E, elements_empty. reflexivity.
  - apply fold_left_snoc.
Qed.

Lemma logoPayloads_files (wanted : string -> string -> ResourceData -> bool)
    (d : ResourceData) (files : list FilePayload) :
  logoPayloads os_ReadFile wanted d = inr files ->
  has_file "logo" files = wanted "logo_image_path" "logo_image_name" d /\
  has_file "darkLogo" files = wanted "dark_logo_image_path" "dark_logo_image_name" d.
Proof.
  unfold logoPayloads, appendLogo.
  destruct (wanted "logo_image_path" "logo_image_name" d),
    (wanted "dark_logo_image_path" "dark_logo_image_name" d);
    repeat match goal with
      | |- context [os_ReadFile ?p] => destruct (os_ReadFile p)
      end;
    intros [= <-]; split; reflexivity.
Qed.

(** C7 (as the source has it).  Every update sends its request first, and
    the request is built from the desired values: for the helm spec
    template the name, the source type and the attributes of the group
    that the source type selects; for the workflow catalog item every
    attribute but the logos, the form only for a positive [form_id]; for
    the Ansible Tower integration the name, the flag, the URL and the
    credential, while [username] and [password] are sent only when
    [credential_id] is zero and the attribute changed since the last
    observed state.  A logo is uploaded exactly when its path or its name
    changed. *)
Theorem update_payloads (d : ResourceData) (meta : Client) (w : World) :
  (forall k : Kind,
      calls_first (updateCall toInt64 k d) w (UpdateContext (resource_of k) d meta w).2) /\
  (forall state : gmap string Value,
      helmRequest (withState state d) = helmRequest d /\
      catalogItemUpdatePayload (withState state d) = catalogItemUpdatePayload d) /\
  (let req := helmRequest d in
   let source_type := GetString "source_type" d in
   let inline := String.eqb source_type "local" || String.eqb source_type "url" in
   let repository := negb inline && String.eqb source_type "repository" in
   at_path ["specTemplate"; "name"] req = Some (JString (GetString "name" d)) /\
   at_path ["specTemplate"; "file"; "sourceType"] req = Some (JString source_type) /\
   at_path ["specTemplate"; "file"; "content"] req
   = (if inline then Some (JString (GetString "spec_content" d)) else None) /\
   at_path ["specTemplate"; "file"; "contentPath"] req
   = (if inline || repository then Some (JString (GetString "spec_path" d)) else None) /\
   at_path ["specTemplate"; "file"; "contentRef"] req
   = (if repository then Some (JString (GetString "version_ref" d)) else None) /\
   at_path ["specTemplate"; "file"; "repository"; "id"] req
   = (if repository then Some (JInt (GetInt "repository_id" d)) else None)) /\
  (let item := catalogItemUpdatePayload d in
   item !! "name" = Some (JString (GetString "name" d)) /\
   item !! "labels" = Some (JArray (JString <$> elements (GetSet "labels" d))) /\
   item !! "description" = Some (JString (GetString "description" d)) /\
   item !! "category" = Some (JString (GetString "category" d)) /\
   item !! "enabled" = Some (JBool (GetBool "enabled" d)) /\
   item !! "featured" = Some (JBool (GetBool "featured" d)) /\
   item !! "context" = Some (JString (GetString "context_type" d)) /\
   item !! "optionTypes" = Some (JArray (JInt <$> GetList "option_type_ids" d)) /\
   item !! "content" = Some (JString (GetString "content" d)) /\
   item !! "visibility" = Some (JString (GetString "visibility" d)) /\
   item !! "workflow" = Some (JObject (<["id" := JInt (GetInt "workflow_id" d)]> ∅)) /\
   item !! "form"
   = (if 0 <? GetInt "form_id" d
      then Some (JObject (<["id" := JInt (GetInt "form_id" d)]> ∅)) else None)) /\
  (let integration := integrationUpdatePayload d in
   let inline := GetInt "credential_id" d =? 0 in
   integration !! "name" = Some (JString (GetString "name" d)) /\
   integration !! "enabled" = Some (JBool (GetBool "enabled" d)) /\
   integration !! "serviceUrl" = Some (JString (GetString "url" d)) /\
   integration !! "credential"
   = Some (JObject (if inline then <["type" := JString "local"]> ∅
                    else <["id" := JInt (GetInt "credential_id" d)]>
                           (<["type" := JString "username-password"]> ∅))) /\
   integration !! "serviceUsername"
   = (if inline && HasChange "username" d
      then Some (JString (GetString "username" d)) else None) /\
   integration !! "servicePassword"
   = (if inline && HasChange "password" d
      then Some (JString (GetString "password" d)) else None)) /\
  (forall (newid : Z) (files : list FilePayload),
      meta (calls w) (updateCall toInt64 WorkflowCatalogItemKind d) = Success newid ->
      logoPayloads os_ReadFile logoChanged d = inr files ->
      (exists rest : list Call,
          calls (UpdateContext (resource_of WorkflowCatalogItemKind) d meta w).2
          = calls w ++ updateCall toInt64 WorkflowCatalogItemKind d
                    :: UpdateCatalogItemLogo newid files :: rest) /\
      has_file "logo" files = logoChanged "logo_image_path" "logo_image_name" d /\
      has_file "darkLogo" files
      = logoChanged "dark_logo_image_path" "dark_logo_image_name" d).
Proof.
  split; [intros k; apply update_calls_first|].
  split; [intros state; split; reflexivity|].
  split.
  { cbn zeta. unfold helmRequest, helmSourceOptions.
    destruct (String.eqb (GetString "source_type" d) "local"),
      (String.eqb (GetString "source_type" d) "url"),
      (String.eqb (GetString "source_type" d) "repository");
      cbn [orb andb negb at_path field];
      repeat (lookups; cbn [at_path field]); repeat split; reflexivity. }
  split.
  { cbn zeta. unfold catalogItemUpdatePayload, withForm.
    rewrite labelsPayload_elements.
    destruct (0 <? GetInt "form_id" d); lookups; repeat split; reflexivity. }
  split.
  { cbn zeta. unfold integrationUpdatePayload.
    destruct (GetInt "credential_id" d =? 0), (HasChange "username" d),
      (HasChange "password" d); cbn [negb andb]; lookups; repeat split; reflexivity. }
  intros newid files Hupdate Hfiles.
  split; [|exact (logoPayloads_files logoChanged d files Hfiles)].
  cbn [updateCall] in Hupdate |- *. unfold_lifecycle. rewrite Hupdate, Hfiles.
  fold_read.
  match goal with
  | |- context [ReadContext (resource_of ?k) ?d ?m ?w] =>
      destruct (read_calls k d m w) as [rest H];
      destruct (ReadContext (resource_of k) d m w) as [[? ?] ?]
  end.
  cbn [snd] in H |- *. rewrite H, uploadLogos_calls. unfold Printf. cbn [calls].
  rewrite <- !app_assoc. cbn [app]. eexists; reflexivity.
Qed.

(** ** Create, then read *)

Lemma Get_Set_eq (k : string) (v : Value) (d : ResourceData) :
  Get k (Set_ k v d) = Some v.
Proof. unfold Get, Set_. cbn [rd_set]. now rewrite lookup_insert_eq. Qed.

Lemma Get_Set_ne (k k' : string) (v : Value) (d : ResourceData) :
  k' <> k -> Get k (Set_ k' v d) = Get k d.
Proof. intros H. unfold Get, Set_. cbn [rd_set rd_plan]. now rewrite lookup_insert_ne. Qed.

Lemma Get_SetId (k i : string) (d : ResourceData) : Get k (SetId i d) = Get k d.
Proof. reflexivity. Qed.

Lemma Id_Set (k : string) (v : Value) (d : ResourceData) : Id (Set_ k v d) = Id d.
Proof. reflexivity. Qed.

Lemma GetString_Set_eq (k s : string) (d : ResourceData) :
  GetString k (Set_ k (VString s) d) = s.
Proof. unfold GetString. now rewrite Get_Set_eq. Qed.

Lemma GetInt_Set_eq (k : string) (n : Z) (d : ResourceData) :
  GetInt k (Set_ k (VInt n) d) = n.
Proof. unfold GetInt. now rewrite Get_Set_eq. Qed.

Lemma GetBool_Set_eq (k : string) (b : bool) (d : ResourceData) :
  GetBool k (Set_ k (VBool b) d) = b.
Proof. unfold GetBool. now rewrite Get_Set_eq. Qed.

Lemma GetList_Set_eq (k : string) (l : list Z) (d : ResourceData) :
  GetList k (Set_ k (VList l) d) = l.
Proof. unfold GetList. now rewrite Get_Set_eq. Qed.

Lemma GetSet_Set_eq (k : string) (s : gset string) (d : ResourceData) :
  GetSet k (Set_ k (VSet s) d) = s.
Proof. unfold GetSet. now rewrite Get_Set_eq. Qed.

Lemma getters_Set_ne (k k' : string) (v : Value) (d : ResourceData) :
  k' <> k ->
  GetString k (Set_ k' v d) = GetString k d /\
  GetInt k (Set_ k' v d) = GetInt k d /\
  GetBool k (Set_ k' v d) = GetBool k d /\
  GetList k (Set_ k' v d) = GetList k d /\
  GetSet k (Set_ k' v d) = GetSet k d.
Proof.
  intros H. unfold GetString, GetInt, GetBool, GetList, GetSet.
  rewrite (Get_Set_ne k k' v d H). repeat split; reflexivity.
Qed.

Lemma GetString_Set_ne (k k' : string) (v : Value) (d : ResourceData) :
  k' <> k -> GetString k (Set_ k' v d) = GetString k d.
Proof. intros H. apply (getters_Set_ne k k' v d H). Qed.

Lemma GetInt_Set_ne (k k' : string) (v : Value) (d : ResourceData) :
  k' <> k -> GetInt k (Set_ k' v d) = GetInt k d.
Proof. intros H. apply (getters_Set_ne k k' v d H). Qed.

Lemma GetBool_Set_ne (k k' : string) (v : Value) (d : ResourceData) :
  k' <> k -> GetBool k (Set_ k' v d) = GetBool k d.
Proof. intros H. apply (getters_Set_ne k k' v d H). Qed.

Lemma GetList_Set_ne (k k' : string) (v : Value) (d : ResourceData) :
  k' <> k -> GetList k (Set_ k' v d) = GetList k d.
Proof. intros H. apply (getters_Set_ne k k' v d H). Qed.

Lemma GetSet_Set_ne (k k' : string) (v : Value) (d : ResourceData) :
  k' <> k -> GetSet k (Set_ k' v d) = GetSet k d.
Proof. intros H. apply (getters_Set_ne k k' v d H). Qed.

Lemma getters_SetId (k i : string) (d : ResourceData) :
  GetString k (SetId i d) = GetString k d /\
  GetInt k (SetId i d) = GetInt k d /\
  GetBool k (SetId i d) = GetBool k d /\
  GetList k (SetId i d) = GetList k d /\
  GetSet k (SetId i d) = GetSet k d.
Proof. repeat split; reflexivity. Qed.

(** Reading an attribute back through the writes of a read. *)
Ltac getters :=
  unfold SetIface;
  repeat first
    [ rewrite GetString_Set_eq | rewrite GetInt_Set_eq | rewrite GetBool_Set_eq
    | rewrite GetList_Set_eq | rewrite GetSet_Set_eq
    | rewrite GetString_Set_ne by discriminate
    | rewrite GetInt_Set_ne by discriminate
    | rewrite GetBool_Set_ne by discriminate
    | rewrite GetList_Set_ne by discriminate
    | rewrite GetSet_Set_ne by discriminate
    | rewrite (proj1 (getters_SetId _ _ _))
    | rewrite (proj1 (proj2 (getters_SetId _ _ _)))
    | rewrite (proj1 (proj2 (proj2 (getters_SetId _ _ _))))
    | rewrite (proj1 (proj2 (proj2 (proj2 (getters_SetId _ _ _)))))
    | rewrite (proj2 (proj2 (proj2 (proj2 (getters_SetId _ _ _)))))
    | rewrite Id_Set ].

Lemma read_by_id_helm (d : ResourceData) (meta : Client) (w : World) (e : HelmSpecTemplate) :
  Id d <> "" ->
  meta (calls w) (GetSpecTemplate (toInt64 (Id d))) = Success (inr e) ->
  ReadContext (resource_of HelmSpecTemplateKind) d meta w
  = ([], helmStore intToString e d,
     Printf API_RESPONSE (mkWorld (calls w ++ [GetSpecTemplate (toInt64 (Id d))]) (logs w))).
Proof.
  intros Hid Hget. dispatch_read d; try contradiction; unfold invoke;
    rewrite Hget; reflexivity.
Qed.

Lemma helm_round_trip (d : ResourceData) (meta : Client) (w : World)
    (newid : Z) (e : HelmSpecTemplate) :
  valid_source_type (GetString "source_type" d) ->
  int64ToString newid <> "" ->
  meta (calls w) (CreateSpecTemplate (helmRequest d)) = Success newid ->
  meta (calls w ++ [CreateSpecTemplate (helmRequest d)])
       (GetSpecTemplate (toInt64 (int64ToString newid))) = Success (inr e) ->
  helm_keeps (helmRequest d) e ->
  let '(diags, d', w') := CreateContext (resource_of HelmSpecTemplateKind) d meta w in
  diags = [] /\ Id d' = intToString (hst_ID e) /\ helm_same d d'.
Proof.
  intros Hvalid Hid Hcreate Hget Hkeeps.
  unfold_lifecycle. rewrite Hcreate. fold_read.
  rewrite read_by_id_helm with (e := e); [|exact Hid|exact Hget].
  split; [reflexivity|].
  revert Hkeeps. unfold helm_keeps, helmRequest, helmSourceOptions, stored_sourceType.
  destruct Hvalid as [Hv|[Hv|Hv]]; rewrite Hv;
    cbn [String.eqb Ascii.eqb Bool.eqb andb at_path field];
    repeat (lookups; cbn [at_path field jstring jint jiface]);
    intros (Hname & Hsource & Hcontent & Hpath & Href & Hrepo);
    (destruct Hsource as [Hs|[Hs' Hs]]; [|try discriminate Hs']);
    unfold helmStore, helm_same; rewrite Hs;
    cbn [String.eqb Ascii.eqb Bool.eqb andb];
    rewrite ?Hpath, ?Href; getters;
    rewrite ?Hname, ?Hcontent, ?Hrepo, ?Hv; repeat split; reflexivity.
Qed.

Lemma jstrings_strings (l : list string) :
  jstrings (Some (JArray (JString <$> l))) = l.
Proof.
  unfold jstrings. induction l as [|x l IH]; [reflexivity|].
  cbn [fmap list_fmap jstring] in *. now rewrite IH.
Qed.

Lemma jints_ints (l : list Z) : jints (Some (JArray (JInt <$> l))) = l.
Proof.
  unfold jints. induction l as [|x l IH]; [reflexivity|].
  cbn [fmap list_fmap jint] in *. now rewrite IH.
Qed.

Lemma read_by_id_catalogItem (d : ResourceData) (meta : Client) (w : World)
    (e : CatalogItem) :
  Id d <> "" ->
  meta (calls w) (GetCatalogItem (toInt64 (Id d))) = Success e ->
  ReadContext (resource_of WorkflowCatalogItemKind) d meta w
  = ([], catalogItemStore intToString e d,
     Printf API_RESPONSE (mkWorld (calls w ++ [GetCatalogItem (toInt64 (Id d))]) (logs w))).
Proof.
  intros Hid Hget. dispatch_read d; try contradiction; unfold invoke;
    rewrite Hget; reflexivity.
Qed.

Lemma read_by_id_integration (d : ResourceData) (meta : Client) (w : World)
    (e : Integration) :
  Id d <> "" ->
  meta (calls w) (GetIntegration (toInt64 (Id d))) = Success e ->
  ReadContext (resource_of AnsibleTowerIntegrationKind) d meta w
  = ([], integrationStore int64ToString e d,
     Printf API_RESPONSE (mkWorld (calls w ++ [GetIntegration (toInt64 (Id d))]) (logs w))).
Proof.
  intros Hid Hget. dispatch_read d; try contradiction; unfold invoke;
    rewrite Hget; reflexivity.
Qed.

Lemma catalogItem_round_trip (d : ResourceData) (meta : Client) (w : World)
    (newid : Z) (files : list FilePayload) (e : CatalogItem) :
  let req := catalogItemRequest (catalogItemCreatePayload d) in
  0 <= GetInt "form_id" d ->
  int64ToString newid <> "" ->
  meta (calls w) (CreateCatalogItem req) = Success newid ->
  logoPayloads os_ReadFile logoGiven d = inr files ->
  meta (calls w ++ [CreateCatalogItem req; UpdateCatalogItemLogo newid files])
       (GetCatalogItem (toInt64 (int64ToString newid))) = Success e ->
  catalogItem_keeps req e ->
  let '(diags, d', w') := CreateContext (resource_of WorkflowCatalogItemKind) d meta w in
  diags = [] /\ Id d' = intToString (ci_ID e) /\ catalogItem_same d d'.
Proof.
  intros req Hform Hid Hcreate Hfiles Hget Hkeeps.
  unfold_lifecycle. fold req. rewrite Hcreate, Hfiles. fold_read.
  rewrite read_by_id_catalogItem with (e := e); [|exact Hid|].
  2:{ cbn [Id SetId rd_id]. rewrite uploadLogos_calls. unfold Printf. cbn [calls].
      rewrite <- app_assoc. exact Hget. }
  split; [reflexivity|]. split; [reflexivity|].
  revert Hkeeps. subst req.
  unfold catalogItem_keeps, catalogItemRequest, catalogItemCreatePayload, withForm.
  rewrite labelsPayload_elements.
  destruct (Z.ltb_spec 0 (GetInt "form_id" d)) as [Hpos|Hzero];
    cbn [at_path field]; lookups; cbn [at_path field]; lookups;
    cbn [at_path field]; lookups;
    rewrite jstrings_strings, jints_ints; cbn [jstring jint jbool];
    intros (Hname & Hlabels & Hdesc & Hcat & Hen & Hfeat & Hopt & Hcontent & Hctx
            & Hvis & Hformid & Hwf);
    unfold catalogItemStore, catalogItem_same; rewrite fold_left_snoc; cbn [app];
    getters;
    rewrite Hname, Hlabels, Hdesc, Hcat, Hen, Hfeat, Hopt, Hcontent, Hctx, Hvis,
      Hformid, Hwf, list_to_set_elements_L;
    repeat split; try reflexivity; lia.
Qed.

Variable equalFoldUnicode : string -> string -> bool.

Lemma passwordDiffSuppress_digest (S : string) :
  passwordDiffSuppress equalFoldUnicode (sha256_hex S) S = true.
Proof.
  unfold passwordDiffSuppress.
  apply EqualFold_lower_hex; try reflexivity; apply EncodeToString_lower_hex.
Qed.

Lemma integration_round_trip (d : ResourceData) (meta : Client) (w : World)
    (newid : Z) (e : Integration) :
  let req := integrationRequest (integrationCreatePayload d) in
  GetInt "credential_id" d = 0 ->
  int64ToString newid <> "" ->
  meta (calls w) (CreateIntegration req) = Success newid ->
  meta (calls w ++ [CreateIntegration req])
       (GetIntegration (toInt64 (int64ToString newid))) = Success e ->
  integration_keeps req e ->
  let '(diags, d', w') := CreateContext (resource_of AnsibleTowerIntegrationKind) d meta w in
  diags = [] /\ Id d' = int64ToString (in_ID e) /\ integration_same d d' /\
  GetString "password" d' = sha256_hex (GetString "password" d) /\
  passwordDiffSuppress equalFoldUnicode
    (GetString "password" d') (GetString "password" d) = true.
Proof.
  intros req Hcred Hid Hcreate Hget Hkeeps.
  unfold_lifecycle. fold req. rewrite Hcreate. fold_read.
  rewrite read_by_id_integration with (e := e); [|exact Hid|exact Hget].
  split; [reflexivity|].
  revert Hkeeps. subst req.
  unfold integration_keeps, integrationRequest, integrationCreatePayload.
  rewrite Hcred. cbn [Z.eqb negb at_path field]. lookups. cbn [at_path field]. lookups.
  cbn [at_path field]. lookups. cbn [jstring jint jbool].
  intros (Hname & Hen & Hurl & Huser & Hpw & Hcid).
  unfold integrationStore, integration_same. rewrite Hcid. cbn [Z.eqb].
  getters. rewrite Hname, Hen, Hurl, Huser, Hpw.
  repeat split; try reflexivity. apply passwordDiffSuppress_digest.
Qed.

(** C1 (as the source has it).  Against a remote service that keeps what
    it is sent, a successful create followed by the read of the assigned
    identifier leaves the user-settable attributes as they were desired:
    for the helm spec template with any of the source types [local], [url]
    and [repository]; for the workflow catalog item with a non-negative
    [form_id], the two logo names apart, which the read derives from the
    image paths the service assigns; for the Ansible Tower integration
    with inline credentials, the password apart: the service keeps its
    digest, the read stores the digest, and the diff-suppression
    predicate accepts the desired password against it. *)
Theorem create_read_round_trip :
  (forall (d : ResourceData) (meta : Client) (w : World) (newid : Z) (e : HelmSpecTemplate),
      valid_source_type (GetString "source_type" d) ->
      int64ToString newid <> "" ->
      meta (calls w) (CreateSpecTemplate (helmRequest d)) = Success newid ->
      meta (calls w ++ [CreateSpecTemplate (helmRequest d)])
           (GetSpecTemplate (toInt64 (int64ToString newid))) = Success (inr e) ->
      helm_keeps (helmRequest d) e ->
      let '(diags, d', w') := CreateContext (resource_of HelmSpecTemplateKind) d meta w in
      diags = [] /\ Id d' = intToString (hst_ID e) /\ helm_same d d') /\
  (forall (d : ResourceData) (meta : Client) (w : World) (newid : Z)
          (files : list FilePayload) (e : CatalogItem),
      let req := catalogItemRequest (catalogItemCreatePayload d) in
      0 <= GetInt "form_id" d ->
      int64ToString newid <> "" ->
      meta (calls w) (CreateCatalogItem req) = Success newid ->
      logoPayloads os_ReadFile logoGiven d = inr files ->
      meta (calls w ++ [CreateCatalogItem req; UpdateCatalogItemLogo newid files])
           (GetCatalogItem (toInt64 (int64ToString newid))) = Success e ->
      catalogItem_keeps req e ->
      let '(diags, d', w') :=
        CreateContext (resource_of WorkflowCatalogItemKind) d meta w in
      diags = [] /\ Id d' = intToString (ci_ID e) /\ catalogItem_same d d') /\
  (forall (d : ResourceData) (meta : Client) (w : World) (newid : Z) (e : Integration),
      let req := integrationRequest (integrationCreatePayload d) in
      GetInt "credential_id" d = 0 ->
      int64ToString newid <> "" ->
      meta (calls w) (CreateIntegration req) = Success newid ->
      meta (calls w ++ [CreateIntegration req])
           (GetIntegration (toInt64 (int64ToString newid))) = Success e ->
      integration_keeps req e ->
      let '(diags, d', w') :=
        CreateContext (resource_of AnsibleTowerIntegrationKind) d meta w in
      diags = [] /\ Id d' = int64ToString (in_ID e) /\ integration_same d d' /\
      GetString "password" d' = sha256_hex (GetString "password" d) /\
      passwordDiffSuppress equalFoldUnicode
        (GetString "password" d') (GetString "password" d) = true).
Proof.
  split; [exact helm_round_trip|].
  split; [exact catalogItem_round_trip | exact integration_round_trip].
Qed.

End Contract.

(** * Part 6. The properties at concrete inputs *)

Example sha256_hex_abc :
  sha256_hex "abc" = "ba7816bf8f01cfea414140de5dae2223b00361a396177a9cb410ff61f20015ad".
Proof. vm_compute. reflexivity. Qed.

Example sha256_hex_empty :
  sha256_hex "" = "e3b0c44298fc1c149afbf4c8996fb92427ae41e4649b934ca495991b7852b855".
Proof. vm_compute. reflexivity. Qed.

Example sha256_hex_two_blocks :
  sha256_hex "aaaaaaaaaaaaaaaaaaaaaaaaaaaaaaaaaaaaaaaaaaaaaaaaaaaaaaaa"
  = "b35439a4ac6f0948b6d6f9e3c6af0f5f590ce20f1bde7090ef7970686ec6738a".
Proof. vm_compute. reflexivity. Qed.

Example logoName_original :
  logoName "/storage/catalog/12/logo_original.png" = "logo.png".
Proof. reflexivity. Qed.

Example logoName_empty : logoName "" = "".
Proof. reflexivity. Qed.

(** The stored digest of ["secret"] suppresses the diff for ["secret"] and
    not for ["hunter2"]. *)
Lemma password_diff_suppress_digest_witness :
  sha256_hex "hunter2" <> sha256_hex "secret" /\
  passwordDiffSuppress Sample.equalFoldUnicode (sha256_hex "secret") "secret" = true /\
  passwordDiffSuppress Sample.equalFoldUnicode (sha256_hex "secret") "hunter2" = false.
Proof.
  assert (H : sha256_hex "hunter2" <> sha256_hex "secret")
    by (vm_compute; discriminate).
  pose proof (password_diff_suppress_digest Sample.equalFoldUnicode "secret")
    as (_ & Hsame & _ & Hother).
  split; [exact H|]. split; [exact Hsame | exact (Hother "hunter2" H)].
Defined.

(** Read by identifier, read by name, and read with neither. *)
Lemma read_dispatch_witness :
  calls (ReadContext (Sample.provider AnsibleTowerIntegrationKind)
           (Sample.settled "7" Sample.tower_inline) Sample.gone Sample.start).2
  = [GetIntegration 7] /\
  calls (ReadContext (Sample.provider AnsibleTowerIntegrationKind)
           (Sample.planned Sample.tower_inline) Sample.gone Sample.start).2
  = [FindIntegrationByName "tower"] /\
  ReadContext (Sample.provider AnsibleTowerIntegrationKind)
    (Sample.planned []) Sample.gone Sample.start
  = (Errorf "Integration cannot be read without name or id",
     Sample.planned [], Sample.start).
Proof.
  pose proof (read_dispatch Sample.toInt64 Sample.int64ToString Sample.intToString
                Sample.os_ReadFile AnsibleTowerIntegrationKind
                (Sample.settled "7" Sample.tower_inline) Sample.gone Sample.start) as H1.
  pose proof (read_dispatch Sample.toInt64 Sample.int64ToString Sample.intToString
                Sample.os_ReadFile AnsibleTowerIntegrationKind
                (Sample.planned Sample.tower_inline) Sample.gone Sample.start) as H2.
  pose proof (read_dispatch Sample.toInt64 Sample.int64ToString Sample.intToString
                Sample.os_ReadFile AnsibleTowerIntegrationKind
                (Sample.planned []) Sample.gone Sample.start) as H3.
  fold Sample.provider in H1, H2, H3.
  destruct (ReadContext (Sample.provider AnsibleTowerIntegrationKind)
              (Sample.settled "7" Sample.tower_inline) Sample.gone Sample.start)
    as [[diags1 d1] w1].
  destruct (ReadContext (Sample.provider AnsibleTowerIntegrationKind)
              (Sample.planned Sample.tower_inline) Sample.gone Sample.start)
    as [[diags2 d2] w2].
  destruct (ReadContext (Sample.provider AnsibleTowerIntegrationKind)
              (Sample.planned []) Sample.gone Sample.start)
    as [[diags3 d3] w3] eqn:E3.
  split; [apply (proj1 H1); discriminate|].
  split; [apply (proj1 (proj2 H2)); [reflexivity | discriminate]|].
  destruct (proj2 (proj2 H3) eq_refl eq_refl) as (_ & -> & ->).
  vm_compute in E3. injection E3 as <-. reflexivity.
Defined.

(** A read that meets a 404 clears the identifier; a read that cannot
    reach the service returns the error. *)
Lemma read_not_found_witness :
  ReadContext (Sample.provider HelmSpecTemplateKind)
    (Sample.settled "7" Sample.helm_repository) Sample.gone Sample.start
  = ([], SetId "" (Sample.settled "7" Sample.helm_repository),
     mkWorld [GetSpecTemplate 7] [API_404 (Some 404) "not found"; Forcing_recreation]) /\
  (ReadContext (Sample.provider HelmSpecTemplateKind)
     (Sample.settled "7" Sample.helm_repository) Sample.unreachable Sample.start).1
  = (FromErr "connection refused", Sample.settled "7" Sample.helm_repository).
Proof.
  pose proof (read_not_found Sample.toInt64 Sample.int64ToString Sample.intToString
                Sample.os_ReadFile HelmSpecTemplateKind
                (Sample.settled "7" Sample.helm_repository) Sample.gone Sample.start
                (GetSpecTemplate 7) (Some 404) "not found" eq_refl eq_refl) as H1.
  pose proof (read_not_found Sample.toInt64 Sample.int64ToString Sample.intToString
                Sample.os_ReadFile HelmSpecTemplateKind
                (Sample.settled "7" Sample.helm_repository) Sample.unreachable
                Sample.start (GetSpecTemplate 7) None "connection refused"
                eq_refl eq_refl) as H2.
  fold Sample.provider in H1, H2. cbn [is404] in H1, H2.
  destruct (ReadContext (Sample.provider HelmSpecTemplateKind)
              (Sample.settled "7" Sample.helm_repository) Sample.gone Sample.start)
    as [[diags1 d1] w1] eqn:E1.
  destruct (ReadContext (Sample.provider HelmSpecTemplateKind)
              (Sample.settled "7" Sample.helm_repository) Sample.unreachable
              Sample.start) as [[diags2 d2] w2].
  destruct H1 as (-> & -> & _). destruct H2 as (-> & _ & ->).
  split; [|reflexivity].
  vm_compute in E1. injection E1 as <-. reflexivity.
Defined.

(** A delete that meets a 404: success for the helm spec template, the
    error for the other two kinds. *)
Lemma delete_not_found_witness :
  (DeleteContext (Sample.provider HelmSpecTemplateKind)
     (Sample.settled "7" Sample.helm_repository) Sample.gone Sample.start).1.1 = [] /\
  (DeleteContext (Sample.provider WorkflowCatalogItemKind)
     (Sample.settled "7" Sample.catalog_item) Sample.gone Sample.start).1.1
  = FromErr "not found" /\
  (DeleteContext (Sample.provider AnsibleTowerIntegrationKind)
     (Sample.settled "7" Sample.tower_inline) Sample.gone Sample.start).1.1
  = FromErr "not found".
Proof.
  pose proof (fun k d =>
                delete_not_found Sample.toInt64 Sample.int64ToString Sample.intToString
                  Sample.os_ReadFile k d Sample.gone Sample.start (Some 404) "not found"
                  eq_refl eq_refl) as H.
  fold Sample.provider in H.
  pose proof (H HelmSpecTemplateKind (Sample.settled "7" Sample.helm_repository)) as H1.
  pose proof (H WorkflowCatalogItemKind (Sample.settled "7" Sample.catalog_item)) as H2.
  pose proof (H AnsibleTowerIntegrationKind (Sample.settled "7" Sample.tower_inline))
    as H3.
  destruct (DeleteContext (Sample.provider HelmSpecTemplateKind) _ _ _) as [[? ?] ?].
  destruct (DeleteContext (Sample.provider WorkflowCatalogItemKind) _ _ _) as [[? ?] ?].
  destruct (DeleteContext (Sample.provider AnsibleTowerIntegrationKind) _ _ _)
    as [[? ?] ?].
  cbn [fst]. split; [apply H1|]. split; [apply H2 | apply H3].
Defined.

(** Reading an integration kept with inline credentials stores username
    and password digest; reading one kept with a credential reference
    stores the reference. *)
Lemma integration_read_credential_group_witness :
  (let d := Sample.settled "7" Sample.tower_inline in
   let w := Sample.after (createCall AnsibleTowerIntegrationKind d) in
   let d' := (ReadContext (Sample.provider AnsibleTowerIntegrationKind)
                d Sample.keeping w).1.2 in
   Get "username" d' = Some (VString "admin") /\
   Get "password" d' = Some (VString (sha256_hex "secret")) /\
   rd_set d' !! "credential_id" = None) /\
  (let d := Sample.settled "7" Sample.tower_credential in
   let w := Sample.after (updateCall Sample.toInt64 AnsibleTowerIntegrationKind d) in
   let d' := (ReadContext (Sample.provider AnsibleTowerIntegrationKind)
                d Sample.keeping w).1.2 in
   Get "credential_id" d' = Some (VInt 7) /\
   rd_set d' !! "username" = None /\ rd_set d' !! "password" = None).
Proof.
  split; cbn zeta.
  - pose proof (integration_read_credential_group Sample.toInt64 Sample.int64ToString
                  Sample.intToString Sample.os_ReadFile
                  (Sample.settled "7" Sample.tower_inline) Sample.keeping
                  (Sample.after (createCall AnsibleTowerIntegrationKind
                                   (Sample.settled "7" Sample.tower_inline)))
                  (Sample.keptIntegration 7
                     (integrationRequest
                        (integrationCreatePayload
                           (Sample.settled "7" Sample.tower_inline))))) as H.
    fold Sample.provider in H.
    destruct (ReadContext (Sample.provider AnsibleTowerIntegrationKind) _ _ _)
      as [[diags d'] w'].
    destruct H as (_ & Huser & Hpw & Hcid & _).
    + left. split; [discriminate | reflexivity].
    + cbn [fst snd]. split; [exact Huser|]. split; [|exact Hcid].
      rewrite Hpw. vm_compute. reflexivity.
  - pose proof (integration_read_credential_group Sample.toInt64 Sample.int64ToString
                  Sample.intToString Sample.os_ReadFile
                  (Sample.settled "7" Sample.tower_credential) Sample.keeping
                  (Sample.after (updateCall Sample.toInt64 AnsibleTowerIntegrationKind
                                   (Sample.settled "7" Sample.tower_credential)))
                  (Sample.keptIntegration 7
                     (integrationRequest
                        (integrationUpdatePayload
                           (Sample.settled "7" Sample.tower_credential))))) as H.
    fold Sample.provider in H.
    destruct (ReadContext (Sample.provider AnsibleTowerIntegrationKind) _ _ _)
      as [[diags d'] w'].
    destruct H as (_ & Hcid & Huser & Hpw & _).
    + left. split; [discriminate | reflexivity].
    + cbn [fst snd]. split; [exact Hcid|]. split; [exact Huser | exact Hpw].
Defined.

(** Create with [credential_id = 7]: the body names no credential. *)
Lemma integration_create_drops_credential_witness :
  GetInt "credential_id" (Sample.planned Sample.tower_credential) = 7 /\
  at_path ["integration"; "credential"]
    (integrationRequest (integrationCreatePayload (Sample.planned Sample.tower_credential)))
  = None /\
  integrationCreatePayload (Sample.planned Sample.tower_credential)
  = list_to_map [ ("name", JString "tower"); ("enabled", JBool true);
                  ("type", JString "ansibleTower"); ("serviceVersion", JString "v2");
                  ("serviceUrl", JString "https://tower.example.com") ].
Proof.
  assert (H : GetInt "credential_id" (Sample.planned Sample.tower_credential) <> 0)
    by (vm_compute; discriminate).
  pose proof (integration_create_drops_credential Sample.toInt64 Sample.int64ToString
                Sample.intToString Sample.os_ReadFile
                (Sample.planned Sample.tower_credential) Sample.keeping Sample.start H)
    as (_ & Hnone & _).
  split; [reflexivity|]. split; [exact Hnone|]. vm_compute. reflexivity.
Defined.

(** The scenario of the specification. *)
Lemma helm_create_repository_payload_witness :
  calls (CreateContext (Sample.provider HelmSpecTemplateKind)
           (Sample.planned Sample.helm_repository) Sample.keeping Sample.start).2
  = [ CreateSpecTemplate (helmRequest (Sample.planned Sample.helm_repository));
      GetSpecTemplate 7 ] /\
  at_path ["specTemplate"; "file"]
    (helmRequest (Sample.planned Sample.helm_repository))
  = Some (JObject (list_to_map
                     [ ("sourceType", JString "repository");
                       ("contentPath", JString "charts/app");
                       ("contentRef", JString "main");
                       ("repository", JObject {["id" := JInt 5]}) ])) /\
  at_path ["specTemplate"; "file"; "content"]
    (helmRequest (Sample.planned Sample.helm_repository)) = None.
Proof.
  pose proof (helm_create_repository_payload Sample.toInt64 Sample.int64ToString
                Sample.intToString Sample.os_ReadFile
                (Sample.planned Sample.helm_repository) Sample.keeping Sample.start
                eq_refl eq_refl eq_refl eq_refl) as (_ & _ & _ & _ & Hnone).
  split; [vm_compute; reflexivity|]. split; [vm_compute; reflexivity | exact Hnone].
Defined.

(** The logo upload fails, the create succeeds. *)
Lemma catalogItem_create_logo_failure_witness :
  let d := Sample.planned Sample.catalog_item in
  let '(diags, d', w') :=
    CreateContext (Sample.provider WorkflowCatalogItemKind) d Sample.keeping_no_logos
      Sample.start in
  diags = [] /\ Id d' = "7" /\
  logs w' = [API_RESPONSE; API_FAILURE (Some 500) "upload failed"; API_RESPONSE;
             API_RESPONSE].
Proof.
  cbn zeta.
  pose proof (catalogItem_create_logo_failure Sample.toInt64 Sample.int64ToString
                Sample.intToString Sample.os_ReadFile
                (Sample.planned Sample.catalog_item) Sample.keeping_no_logos Sample.start
                7 [mkFilePayload "logo" "logo.png" [137; 80; 78; 71]]
                (Some 500) "upload failed" eq_refl eq_refl eq_refl) as H.
  fold Sample.provider in H. cbn zeta in H.
  destruct (CreateContext (Sample.provider WorkflowCatalogItemKind) _ _ _)
    as [[diags d'] w'].
  destruct H as (Hdiags & _ & Hd & Hw & _).
  split; [exact Hdiags|]. rewrite Hd, Hw. split; vm_compute; reflexivity.
Defined.

(** An update of a catalog item whose logo was not there before: the
    request goes first, the logo is uploaded, the dark logo is not. *)
Lemma update_payloads_witness :
  let d := mkResourceData "7" ∅ (list_to_map Sample.catalog_item) ∅ in
  let logo := mkFilePayload "logo" "logo.png" [137; 80; 78; 71] in
  calls (UpdateContext (Sample.provider WorkflowCatalogItemKind)
           d Sample.keeping Sample.start).2
  = [ UpdateCatalogItem 7 (catalogItemRequest (catalogItemUpdatePayload d));
      UpdateCatalogItemLogo 7 [logo]; GetCatalogItem 7 ] /\
  logoChanged "logo_image_path" "logo_image_name" d = true /\
  logoChanged "dark_logo_image_path" "dark_logo_image_name" d = false.
Proof.
  cbn zeta.
  pose proof (proj2 (proj2 (proj2 (proj2 (proj2
                (update_payloads Sample.toInt64 Sample.int64ToString Sample.intToString
                   Sample.os_ReadFile
                   (mkResourceData "7" ∅ (list_to_map Sample.catalog_item) ∅)
                   Sample.keeping Sample.start)))))
                7 [mkFilePayload "logo" "logo.png" [137; 80; 78; 71]]
                eq_refl eq_refl) as (_ & Hlogo & Hdark).
  split; [vm_compute; reflexivity|].
  split; [rewrite <- Hlogo | rewrite <- Hdark]; reflexivity.
Defined.

(** The claim of the full payload fails on the integration: after a read,
    an update with unchanged credentials sends neither the username nor
    the password, although both attributes hold a value. *)
Lemma integration_update_omits_unchanged_credentials :
  let d := Sample.settled "7" Sample.tower_observed in
  GetString "username" d = "admin" /\
  GetString "password" d = sha256_hex "secret" /\
  calls (UpdateContext (Sample.provider AnsibleTowerIntegrationKind)
           d Sample.keeping Sample.start).2
  = [ UpdateIntegration 7 (integrationRequest (integrationUpdatePayload d));
      GetIntegration 7 ] /\
  integrationUpdatePayload d
  = list_to_map [ ("name", JString "tower"); ("enabled", JBool true);
                  ("type", JString "ansibleTower"); ("serviceVersion", JString "v2");
                  ("serviceUrl", JString "https://tower.example.com");
                  ("credential", JObject {["type" := JString "local"]}) ] /\
  integrationUpdatePayload d !! "serviceUsername" = None /\
  integrationUpdatePayload d !! "servicePassword" = None.
Proof. cbn zeta. repeat split; vm_compute; reflexivity. Qed.

(** Create and read against the keeping service, for each kind. *)
Lemma create_read_round_trip_witness :
  (let d := Sample.planned Sample.helm_repository in
   let '(diags, d', w') :=
     CreateContext (Sample.provider HelmSpecTemplateKind) d Sample.keeping Sample.start in
   diags = [] /\ Id d' = "7" /\ helm_same d d') /\
  (let d := Sample.planned Sample.catalog_item in
   let '(diags, d', w') :=
     CreateContext (Sample.provider WorkflowCatalogItemKind) d Sample.keeping
       Sample.start in
   diags = [] /\ Id d' = "7" /\ catalogItem_same d d') /\
  (let d := Sample.planned Sample.tower_inline in
   let '(diags, d', w') :=
     CreateContext (Sample.provider AnsibleTowerIntegrationKind) d Sample.keeping
       Sample.start in
   diags = [] /\ Id d' = "7" /\ integration_same d d' /\
   passwordDiffSuppress Sample.equalFoldUnicode
     (GetString "password" d') (GetString "password" d) = true).
Proof.
  pose proof (create_read_round_trip Sample.toInt64 Sample.int64ToString
                Sample.intToString Sample.os_ReadFile Sample.equalFoldUnicode)
    as (Hhelm & Hcatalog & Htower).
  fold Sample.provider in Hhelm, Hcatalog, Htower.
  split; [|split]; cbn zeta.
  - specialize (Hhelm (Sample.planned Sample.helm_repository) Sample.keeping Sample.start
                  7 (mkHelmSpecTemplate 7 "app" "git" (Str "main") (Str "charts/app") 5 "")).
    destruct (CreateContext (Sample.provider HelmSpecTemplateKind) _ _ _)
      as [[diags d'] w'].
    destruct Hhelm as (Hdiags & Hid & Hsame).
    + right; right; reflexivity.
    + vm_compute; discriminate.
    + reflexivity.
    + vm_compute; reflexivity.
    + vm_compute. repeat split; auto.
    + split; [exact Hdiags|]. split; [rewrite Hid; reflexivity | exact Hsame].
  - specialize (Hcatalog (Sample.planned Sample.catalog_item) Sample.keeping Sample.start
                  7 [mkFilePayload "logo" "logo.png" [137; 80; 78; 71]]
                  (Sample.keptCatalogItem 7
                     (catalogItemRequest
                        (catalogItemCreatePayload (Sample.planned Sample.catalog_item))))).
    cbn zeta in Hcatalog.
    destruct (CreateContext (Sample.provider WorkflowCatalogItemKind) _ _ _)
      as [[diags d'] w'].
    destruct Hcatalog as (Hdiags & Hid & Hsame).
    + vm_compute; discriminate.
    + vm_compute; discriminate.
    + reflexivity.
    + reflexivity.
    + vm_compute; reflexivity.
    + vm_compute. repeat split; reflexivity.
    + split; [exact Hdiags|]. split; [rewrite Hid; reflexivity | exact Hsame].
  - specialize (Htower (Sample.planned Sample.tower_inline) Sample.keeping Sample.start
                  7 (Sample.keptIntegration 7
                       (integrationRequest
                          (integrationCreatePayload (Sample.planned Sample.tower_inline))))).
    cbn zeta in Htower.
    destruct (CreateContext (Sample.provider AnsibleTowerIntegrationKind) _ _ _)
      as [[diags d'] w'].
    destruct Htower as (Hdiags & Hid & Hsame & _ & Hsuppress).
    + reflexivity.
    + vm_compute; discriminate.
    + reflexivity.
    + vm_compute; reflexivity.
    + vm_compute. repeat split; reflexivity.
    + split; [exact Hdiags|]. split; [rewrite Hid; reflexivity|].
      split; [exact Hsame | exact Hsuppress].
Defined.

(** The claim of the round trip fails on the password of the integration:
    the service keeps the digest, and the read stores the digest where the
    desired state has the plaintext. *)
Lemma integration_password_not_round_tripped :
  let d := Sample.planned Sample.tower_inline in
  let req := integrationRequest (integrationCreatePayload d) in
  let '(diags, d', w') :=
    CreateContext (Sample.provider AnsibleTowerIntegrationKind) d Sample.keeping
      Sample.start in
  at_path ["integration"; "servicePassword"] req = Some (JString "secret") /\
  Sample.keeping [] (CreateIntegration req) = Success 7 /\
  Sample.keeping [CreateIntegration req] (GetIntegration 7)
  = Success
      {| in_ID := 7; in_Name := "tower"; in_Enabled := true;
         in_URL := "https://tower.example.com"; in_Username := "admin";
         in_PasswordHash :=
           "2bb80d537b1da3e38bd30361aa855686bde0eacd7162fef6a25fe97bf527a25b";
         in_Credential_ID := 0 |} /\
  diags = [] /\
  calls w' = [CreateIntegration req; GetIntegration 7] /\
  GetString "username" d' = GetString "username" d /\
  GetString "password" d = "secret" /\
  GetString "password" d'
  = "2bb80d537b1da3e38bd30361aa855686bde0eacd7162fef6a25fe97bf527a25b" /\
  GetString "password" d' <> GetString "password" d.
Proof.
  cbn zeta.
  destruct (CreateContext (Sample.provider AnsibleTowerIntegrationKind) _ _ _)
    as [[diags d'] w'] eqn:E.
  vm_compute in E. injection E as <- <- <-.
  repeat split; try (vm_compute; reflexivity). vm_compute. discriminate.
Qed.

(** * Part 7. Further properties *)

(** ** Strings *)

Lemma string_length_append (s t : string) :
  String.length (String.append s t) = (String.length s + String.length t)%nat.
Proof. induction s as [|c s IH]; simpl; [reflexivity | f_equal; exact IH]. Qed.

Lemma string_take_append (s t : string) :
  string_take (String.length s) (String.append s t) = s.
Proof.
  induction s as [|c s IH]; simpl.
  - destruct t; reflexivity.
  - f_equal. exact IH.
Qed.

Lemma string_drop_append (s t : string) :
  string_drop (String.length s) (String.append s t) = t.
Proof. induction s as [|c s IH]; simpl; [destruct t; reflexivity | exact IH]. Qed.

Lemma string_take_drop (n : nat) (s : string) :
  String.append (string_take n s) (string_drop n s) = s.
Proof.
  revert s. induction n as [|n IH]; intros [|c s]; simpl; try reflexivity.
  change (String c (String.append (string_take n s) (string_drop n s)) = String c s).
  f_equal. apply IH.
Qed.

Lemma HasSuffix_append (s suffix : string) : HasSuffix (String.append s suffix) suffix = true.
Proof.
  unfold HasSuffix. rewrite string_length_append.
  replace (String.length s + String.length suffix - String.length suffix)%nat
    with (String.length s) by lia.
  rewrite string_drop_append, String.eqb_refl, andb_true_r.
  apply Nat.leb_le. lia.
Qed.

Lemma TrimSuffix_append (s suffix : string) : TrimSuffix (String.append s suffix) suffix = s.
Proof.
  unfold TrimSuffix. rewrite HasSuffix_append, string_length_append.
  replace (String.length s + String.length suffix - String.length suffix)%nat
    with (String.length s) by lia.
  apply string_take_append.
Qed.

Lemma TrimSuffix_cases (s suffix : string) :
  (HasSuffix s suffix = false /\ TrimSuffix s suffix = s) \/
  (HasSuffix s suffix = true /\ s = String.append (TrimSuffix s suffix) suffix).
Proof.
  unfold TrimSuffix. destruct (HasSuffix s suffix) eqn:E; [right | left; auto].
  split; [reflexivity|]. unfold HasSuffix in E.
  apply andb_true_iff in E as [_ E]. apply String.eqb_eq in E.
  rewrite <- E at 2. symmetry. apply string_take_drop.
Qed.

(** X1. The [StateFunc] of [spec_content] and [content] drops one trailing
    newline and nothing else: a value with a newline appended is kept as
    the value itself, and every value is either kept as it is (it does not
    end in a newline) or is its kept form followed by one newline.  Only
    one newline goes: the function is not idempotent. *)
Theorem contentStateFunc_trailing_newline (val : string) :
  contentStateFunc (String.append val newline) = val /\
  ((HasSuffix val newline = false /\ contentStateFunc val = val) \/
   (HasSuffix val newline = true /\
    val = String.append (contentStateFunc val) newline)) /\
  contentStateFunc (String.append (String.append val newline) newline)
  = String.append val newline.
Proof.
  unfold contentStateFunc. split; [apply TrimSuffix_append|].
  split; [apply TrimSuffix_cases | apply TrimSuffix_append].
Qed.

Lemma append_cons (c : ascii) (s t : string) :
  String.append (String c s) t = String c (String.append s t).
Proof. reflexivity. Qed.

Lemma append_nil_l (t : string) : String.append EmptyString t = t.
Proof. reflexivity. Qed.

Lemma Split_nonempty (sep : ascii) (s : string) : Split sep s <> [].
Proof.
  destruct s as [|c s]; cbn [Split]; [discriminate|].
  destruct (Ascii.eqb c sep); [discriminate|].
  destruct (Split sep s); discriminate.
Qed.

Lemma Split_cons (sep c : ascii) (s : string) :
  Split sep (String c s) =
  if Ascii.eqb c sep then EmptyString :: Split sep s
  else match Split sep s with
       | piece :: rest => String c piece :: rest
       | [] => [String c EmptyString]
       end.
Proof. reflexivity. Qed.

Lemma Join_cons (piece : string) (rest : list string) (sep : string) :
  rest <> [] ->
  Join (piece :: rest) sep = String.append piece (String.append sep (Join rest sep)).
Proof. destruct rest; [contradiction | reflexivity]. Qed.

Lemma Split_Join (sep : ascii) (s : string) :
  Join (Split sep s) (String sep EmptyString) = s.
Proof.
  induction s as [|c s IH]; [reflexivity|].
  rewrite Split_cons. destruct (Ascii.eqb_spec c sep) as [->|Hne].
  - rewrite Join_cons by apply Split_nonempty. rewrite IH. reflexivity.
  - pose proof (Split_nonempty sep s) as Hs.
    destruct (Split sep s) as [|piece rest]; [contradiction|].
    destruct rest as [|piece' rest].
    + cbn [Join] in IH |- *. now rewrite IH.
    + rewrite Join_cons by discriminate. rewrite Join_cons in IH by discriminate.
      rewrite append_cons, IH. reflexivity.
Qed.

Lemma Split_pieces (sep : ascii) (s : string) :
  Forall (fun piece => occurs sep piece = false) (Split sep s).
Proof.
  induction s as [|c s IH]; [repeat constructor|].
  rewrite Split_cons. destruct (Ascii.eqb_spec c sep) as [->|Hne].
  - constructor; [reflexivity | exact IH].
  - pose proof (Split_nonempty sep s) as Hs.
    destruct (Split sep s) as [|piece rest]; [contradiction|].
    inversion IH as [|? ? Hpiece Hrest]; subst. constructor; [|exact Hrest].
    cbn [occurs]. rewrite Hpiece.
    destruct (Ascii.eqb_spec c sep); [contradiction | reflexivity].
Qed.

Lemma nth_error_last {A : Type} (l : list A) (d : A) :
  l <> [] -> nth_error l (length l - 1) = Some (List.last l d).
Proof.
  induction l as [|x l IH]; [contradiction|]. intros _.
  destruct l as [|y l]; [reflexivity|].
  replace (length (x :: y :: l) - 1)%nat with (S (length (y :: l) - 1))
    by (cbn [length]; lia).
  cbn [nth_error]. rewrite IH by discriminate. reflexivity.
Qed.

(** X2. [strings.Split] on a one-byte separator never returns an empty
    slice, so the index [len(imagePath)-1] of the catalog item read is
    always in range; its pieces hold no separator, and joined by the
    separator they give the string back. *)
Theorem Split_last_in_range (sep : ascii) (s : string) :
  (0 < length (Split sep s))%nat /\
  nth_error (Split sep s) (length (Split sep s) - 1) = Some (List.last (Split sep s) "") /\
  Forall (fun piece => occurs sep piece = false) (Split sep s) /\
  Join (Split sep s) (String sep EmptyString) = s.
Proof.
  pose proof (Split_nonempty sep s) as Hne.
  split; [destruct (Split sep s); [contradiction | cbn; lia]|].
  split; [apply nth_error_last; exact Hne|].
  split; [apply Split_pieces | apply Split_Join].
Qed.

Lemma occurs_append (c : ascii) (s t : string) :
  occurs c (String.append s t) = occurs c s || occurs c t.
Proof.
  induction s as [|a s IH]; [reflexivity|].
  rewrite append_cons. cbn [occurs]. rewrite IH. apply orb_assoc.
Qed.

Lemma Split_no_separator (sep : ascii) (s : string) :
  occurs sep s = false -> Split sep s = [s].
Proof.
  induction s as [|c s IH]; [reflexivity|]. cbn [occurs]. intros H.
  apply orb_false_iff in H as [Hc Hs]. rewrite Split_cons, Hc, (IH Hs). reflexivity.
Qed.

Lemma Split_append_two (sep : ascii) (dir file : string) :
  exists (p q : string) (r : list string),
    Split sep (String.append dir (String sep file)) = p :: q :: r.
Proof.
  induction dir as [|c dir IH].
  - rewrite append_nil_l, Split_cons, Ascii.eqb_refl.
    pose proof (Split_nonempty sep file) as H.
    destruct (Split sep file) as [|q r]; [contradiction|]. eauto.
  - destruct IH as (p & q & r & IH). rewrite append_cons, Split_cons, IH.
    destruct (Ascii.eqb c sep); eauto.
Qed.

Lemma last_Split_append (sep : ascii) (dir file d : string) :
  List.last (Split sep (String.append dir (String sep file))) d
  = List.last (Split sep file) d.
Proof.
  induction dir as [|c dir IH].
  - rewrite append_nil_l, Split_cons, Ascii.eqb_refl.
    pose proof (Split_nonempty sep file) as H.
    destruct (Split sep file) as [|q r]; [contradiction | reflexivity].
  - destruct (Split_append_two sep dir file) as (p & q & r & E).
    rewrite append_cons, Split_cons. rewrite E in IH |- *.
    destruct (Ascii.eqb c sep); exact IH.
Qed.

Lemma prefix_append (old rest : string) : String.prefix old (String.append old rest) = true.
Proof.
  induction old as [|c old IH]; [rewrite append_nil_l; destruct rest; reflexivity|].
  rewrite append_cons. cbn [String.prefix].
  destruct (ascii_dec c c); [exact IH | contradiction].
Qed.

Lemma Replace1_here (old new rest : string) :
  Replace1 (String.append old rest) old new = String.append new rest.
Proof.
  destruct old as [|c old].
  - rewrite append_nil_l. destruct rest; reflexivity.
  - rewrite append_cons. cbn [Replace1]. rewrite <- append_cons, prefix_append.
    now rewrite string_drop_append.
Qed.

Lemma Replace1_skip (c0 : ascii) (old' new base rest : string) :
  occurs c0 base = false ->
  Replace1 (String.append base (String.append (String c0 old') rest)) (String c0 old') new
  = String.append base (String.append new rest).
Proof.
  induction base as [|c base IH]; intros H.
  - rewrite !append_nil_l. apply Replace1_here.
  - cbn [occurs] in H. apply orb_false_iff in H as [Hc Hbase].
    rewrite !append_cons. cbn [Replace1 String.prefix].
    destruct (ascii_dec c0 c) as [->|_]; [now rewrite Ascii.eqb_refl in Hc|].
    f_equal. exact (IH Hbase).
Qed.

(** X3. The logo name that the catalog item read stores is the last
    segment of the image path without its first ["_original"]: for a
    path [dir/base_original.ext], where [base] holds no ["/"] and no
    ["_"] and the extension holds no ["/"], the name is [base.ext]. *)
Theorem logoName_of_stored_path (dir base ext : string) :
  occurs "/" base = false ->
  occurs "_" base = false ->
  occurs "/" ext = false ->
  logoName (String.append dir
              (String "/" (String.append base (String.append "_original" ext))))
  = String.append base ext.
Proof.
  intros Hslash Hunder Hext. unfold logoName.
  rewrite last_Split_append, Split_no_separator.
  - cbn [List.last].
    exact (Replace1_skip "_" "original" "" base ext Hunder).
  - rewrite !occurs_append, Hslash, Hext. reflexivity.
Qed.

(** ** The password comparison on other stored values *)

Section StoredValues.

Variable equalFoldUnicode : string -> string -> bool.

Lemma EqualFold_ascii_length (s t : string) :
  all_ascii s -> all_lower_hex t ->
  EqualFold equalFoldUnicode s t = true -> String.length s = String.length t.
Proof.
  revert t. induction s as [|a s IH]; intros [|b t] Hs Ht;
    [reflexivity | discriminate | discriminate |].
  destruct Hs as [Ha Hs], Ht as [Hb Ht]. rewrite EqualFold_cons.
  destruct (Nat.leb_spec 128 (nat_of_ascii a)); [lia|].
  rewrite (lower_hex_ascii _ Hb). cbn [orb String.length].
  repeat match goal with
    | |- context [if ?c then _ else _] => destruct c
    end; try discriminate; intros Hfold; f_equal; exact (IH t Hs Ht Hfold).
Qed.

(** X4. A stored password value of ASCII bytes whose length is not 64 is
    never taken as unchanged: the diff-suppression predicate returns
    [false] for every new password.  In particular the empty value of a
    resource not yet created, and a plaintext left in the state, always
    show a difference. *)
Theorem password_diff_not_suppressed (old new : string) :
  all_ascii old ->
  String.length old <> 64%nat ->
  passwordDiffSuppress equalFoldUnicode old new = false.
Proof.
  intros Hascii Hlen. unfold passwordDiffSuppress.
  destruct (EqualFold equalFoldUnicode old (sha256_hex new)) eqn:E; [|reflexivity].
  apply EqualFold_ascii_length in E; [|exact Hascii|apply EncodeToString_lower_hex].
  rewrite sha256_hex_length in E. contradiction.
Qed.

End StoredValues.

(** ** Failures along the lifecycle *)

Section Lifecycle.

Variable toInt64 : string -> Z.
Variable int64ToString : Z -> string.
Variable intToString : Z -> string.
Variable os_ReadFile : string -> error + list Z.

Local Abbreviation provider_of := (resource toInt64 int64ToString intToString os_ReadFile).

Ltac unfold_provider :=
  cbn [resource CreateContext ReadContext UpdateContext DeleteContext
         resourceHelmSpecTemplate resourceWorkflowCatalogItem
         resourceAnsibleTowerIntegration createCall updateCall deleteById getById
         findByName primaryCreate primaryUpdate uploadCalls] in *;
  unfold resourceHelmSpecTemplateCreate, resourceWorkflowCatalogItemCreate,
    resourceAnsibleTowerIntegrationCreate, resourceHelmSpecTemplateUpdate,
    resourceWorkflowCatalogItemUpdate, resourceAnsibleTowerIntegrationUpdate,
    resourceHelmSpecTemplateDelete, resourceWorkflowCatalogItemDelete,
    resourceAnsibleTowerIntegrationDelete, invoke.

(** X5. When the remote create call fails, the create of every resource
    kind returns that error after this one call: no identifier is
    assigned, the resource data are as before, nothing is uploaded and
    nothing is read. *)
Theorem create_remote_failure (k : Kind) (d : ResourceData) (meta : Client) (w : World)
    (resp : option Z) (err : error) :
  meta (calls w) (createCall k d) = Failure resp err ->
  CreateContext (provider_of k) d meta w
  = (FromErr err, d,
     mkWorld (calls w ++ [createCall k d]) (logs w ++ [API_FAILURE resp err])).
Proof.
  intros H. destruct k; unfold_provider; rewrite H; reflexivity.
Qed.

(** X6. When the remote update call fails, the update of every resource
    kind returns that error after this one call: the identifier and the
    resource data are as before, no logo is uploaded and nothing is
    read. *)
Theorem update_remote_failure (k : Kind) (d : ResourceData) (meta : Client) (w : World)
    (resp : option Z) (err : error) :
  meta (calls w) (updateCall toInt64 k d) = Failure resp err ->
  UpdateContext (provider_of k) d meta w
  = (FromErr err, d,
     mkWorld (calls w ++ [updateCall toInt64 k d]) (logs w ++ [API_FAILURE resp err])).
Proof.
  intros H. destruct k; unfold_provider; rewrite H; reflexivity.
Qed.

(** X7. The delete of every resource kind makes exactly one call, the
    delete of [toInt64(d.Id())].  When the call succeeds the identifier
    is cleared and no diagnostic is returned; when it fails the resource
    data are left as they are, and the error is returned unless the
    resource is a helm spec template and the response is a 404. *)
Theorem delete_outcome (k : Kind) (d : ResourceData) (meta : Client) (w : World) :
  let c := deleteById k (toInt64 (Id d)) in
  let '(diags, d', w') := DeleteContext (provider_of k) d meta w in
  calls w' = calls w ++ [c] /\
  match meta (calls w) c with
  | Success _ => diags = [] /\ d' = SetId "" d /\ Id d' = ""
  | Failure resp err =>
      d' = d /\
      diags = match k with
              | HelmSpecTemplateKind => if is404 resp then [] else FromErr err
              | _ => FromErr err
              end
  end.
Proof.
  destruct k; unfold_provider;
    match goal with
    | |- context [meta ?h ?c] => destruct (meta h c) as [r|resp err]
    end; try destruct (is404 resp); cbn; auto.
Qed.

Ltac unfold_read d :=
  cbn [resource ReadContext resourceHelmSpecTemplate resourceWorkflowCatalogItem
         resourceAnsibleTowerIntegration getById findByName] in *;
  unfold resourceHelmSpecTemplateRead, resourceWorkflowCatalogItemRead,
    resourceAnsibleTowerIntegrationRead;
  destruct (String.eqb_spec (Id d) "") as [?Hno_id|?Hsome_id],
    (String.eqb_spec (GetString "name" d) "") as [?Hno_name|?Hsome_name];
  cbn [negb andb].

Lemma read_by_id_failure (k : Kind) (d : ResourceData) (meta : Client) (w : World)
    (resp : option Z) (err : error) :
  Id d <> "" ->
  meta (calls w) (getById k (toInt64 (Id d))) = Failure resp err ->
  ReadContext (provider_of k) d meta w
  = if is404 resp
    then ([], SetId "" d,
          mkWorld (calls w ++ [getById k (toInt64 (Id d))])
                  (logs w ++ [API_404 resp err; Forcing_recreation]))
    else (FromErr err, d,
          mkWorld (calls w ++ [getById k (toInt64 (Id d))])
                  (logs w ++ [API_FAILURE resp err])).
Proof.
  intros Hid H. destruct k; unfold_read d; try contradiction; unfold invoke;
    rewrite H; destruct (is404 resp); unfold Printf; cbn [calls logs];
    rewrite <- ?app_assoc; reflexivity.
Qed.

(** The read at the end of create and update, as the read of its kind. *)
Ltac fold_reads :=
  match goal with
  | |- context [?read toInt64 ?ts ?d1 ?meta ?w1] =>
      change (read toInt64 ts d1 meta w1)
        with (ReadContext (provider_of
                ltac:(match read with
                      | resourceHelmSpecTemplateRead => exact HelmSpecTemplateKind
                      | resourceWorkflowCatalogItemRead => exact WorkflowCatalogItemKind
                      | resourceAnsibleTowerIntegrationRead =>
                          exact AnsibleTowerIntegrationKind
                      end)) d1 meta w1)
  end.

(** X8. A create whose remote create call succeeded returns no diagnostic
    even when the read that follows fails: after a failure other than a
    404 the new identifier stays assigned and the attributes are not
    refreshed, after a 404 the identifier is cleared; in both cases the
    create reports success. *)
Theorem create_then_failed_read (k : Kind) (d : ResourceData) (meta : Client) (w : World)
    (newid : Z) (files : list FilePayload) (resp : option Z) (err : error) :
  primaryCreate k d meta (calls w) = Success newid ->
  (k = WorkflowCatalogItemKind -> logoPayloads os_ReadFile logoGiven d = inr files) ->
  int64ToString newid <> "" ->
  meta (calls w ++ createCall k d :: uploadCalls k newid files)
       (getById k (toInt64 (int64ToString newid))) = Failure resp err ->
  let '(diags, d', w') := CreateContext (provider_of k) d meta w in
  diags = [] /\
  d' = SetId (if is404 resp then "" else int64ToString newid) d /\
  calls w' = calls w ++ createCall k d :: uploadCalls k newid files
                     ++ [getById k (toInt64 (int64ToString newid))].
Proof.
  intros Hcreate Hfiles Hid Hread.
  destruct k; unfold_provider; rewrite Hcreate;
    try rewrite (Hfiles eq_refl); fold_reads.
  all: rewrite (read_by_id_failure _ _ meta _ resp err);
    [ | exact Hid
      | cbn [Id SetId rd_id getById]; rewrite ?uploadLogos_calls; unfold Printf;
        cbn [calls]; rewrite <- ?app_assoc; exact Hread ].
  all: destruct (is404 resp); cbn [calls Id SetId rd_id getById];
    rewrite ?uploadLogos_calls; unfold Printf; cbn [calls];
    rewrite <- ?app_assoc; repeat split; reflexivity.
Qed.

(** X9. An update whose remote update call succeeded returns what the
    read that follows returns: its error when the read fails otherwise
    than by a 404, with the identifier kept, and no diagnostic with the
    identifier cleared when the read meets a 404. *)
Theorem update_then_failed_read (k : Kind) (d : ResourceData) (meta : Client) (w : World)
    (newid : Z) (files : list FilePayload) (resp : option Z) (err : error) :
  primaryUpdate toInt64 k d meta (calls w) = Success newid ->
  (k = WorkflowCatalogItemKind -> logoPayloads os_ReadFile logoChanged d = inr files) ->
  int64ToString newid <> "" ->
  meta (calls w ++ updateCall toInt64 k d :: uploadCalls k newid files)
       (getById k (toInt64 (int64ToString newid))) = Failure resp err ->
  let '(diags, d', w') := UpdateContext (provider_of k) d meta w in
  diags = (if is404 resp then [] else FromErr err) /\
  d' = SetId (if is404 resp then "" else int64ToString newid) d /\
  calls w' = calls w ++ updateCall toInt64 k d :: uploadCalls k newid files
                     ++ [getById k (toInt64 (int64ToString newid))].
Proof.
  intros Hupdate Hfiles Hid Hread.
  destruct k; unfold_provider; rewrite Hupdate;
    try rewrite (Hfiles eq_refl); fold_reads.
  all: rewrite (read_by_id_failure _ _ meta _ resp err);
    [ | exact Hid
      | cbn [Id SetId rd_id getById]; rewrite ?uploadLogos_calls; unfold Printf;
        cbn [calls]; rewrite <- ?app_assoc; exact Hread ].
  all: destruct (is404 resp); cbn [calls Id SetId rd_id getById];
    rewrite ?uploadLogos_calls; unfold Printf; cbn [calls];
    rewrite <- ?app_assoc; repeat split; reflexivity.
Qed.

(** X10. When the logo file of a workflow catalog item cannot be read,
    create and update return the file error after their remote call has
    succeeded: nothing is uploaded, nothing is read, and the create
    leaves the resource data without the identifier of the entity it has
    just created. *)
Theorem catalogItem_logo_unreadable (d : ResourceData) (meta : Client) (w : World)
    (newid : Z) (err : error) :
  os_ReadFile (GetString "logo_image_path" d) = inl err ->
  (logoGiven "logo_image_path" "logo_image_name" d = true ->
   primaryCreate WorkflowCatalogItemKind d meta (calls w) = Success newid ->
   CreateContext (provider_of WorkflowCatalogItemKind) d meta w
   = (FromErr err, d,
      mkWorld (calls w ++ [createCall WorkflowCatalogItemKind d])
              (logs w ++ [API_RESPONSE]))) /\
  (logoChanged "logo_image_path" "logo_image_name" d = true ->
   primaryUpdate toInt64 WorkflowCatalogItemKind d meta (calls w) = Success newid ->
   UpdateContext (provider_of WorkflowCatalogItemKind) d meta w
   = (FromErr err, d,
      mkWorld (calls w ++ [updateCall toInt64 WorkflowCatalogItemKind d])
              (logs w ++ [API_RESPONSE]))).
Proof.
  intros Hfile.
  split; intros Hwanted Hcall; unfold_provider; rewrite Hcall;
    unfold logoPayloads, appendLogo; rewrite Hwanted, Hfile; reflexivity.
Qed.

(** ** What a read writes *)

(** A lookup at any key through a chain of insertions at literal keys. *)
Ltac insert_cases i :=
  repeat match goal with
    | |- context [<[?k := _]> _ !! i] =>
        first
          [ rewrite (lookup_insert_ne _ k i) by assumption
          | destruct (decide (k = i)) as [<-|?]; [lookups; reflexivity|] ]
    end;
  try reflexivity.

Lemma ResourceData_ext (d1 d2 : ResourceData) :
  rd_id d1 = rd_id d2 -> rd_state d1 = rd_state d2 -> rd_plan d1 = rd_plan d2 ->
  (forall key : string, rd_set d1 !! key = rd_set d2 !! key) ->
  d1 = d2.
Proof.
  destruct d1, d2. cbn. intros -> -> -> H. f_equal. apply map_eq. exact H.
Qed.

Lemma fields_Set (key : string) (v : Value) (d : ResourceData) :
  rd_id (Set_ key v d) = rd_id d /\ rd_state (Set_ key v d) = rd_state d /\
  rd_plan (Set_ key v d) = rd_plan d /\
  rd_set (Set_ key v d) = <[key := v]> (rd_set d).
Proof. repeat split; reflexivity. Qed.

Lemma fields_SetId (id : string) (d : ResourceData) :
  rd_id (SetId id d) = id /\ rd_state (SetId id d) = rd_state d /\
  rd_plan (SetId id d) = rd_plan d /\ rd_set (SetId id d) = rd_set d.
Proof. repeat split; reflexivity. Qed.

(** The fields of resource data after a chain of [d.Set] and [d.SetId]. *)
Ltac fields :=
  repeat first
    [ rewrite (proj1 (fields_Set _ _ _))
    | rewrite (proj1 (proj2 (fields_Set _ _ _)))
    | rewrite (proj1 (proj2 (proj2 (fields_Set _ _ _))))
    | rewrite (proj2 (proj2 (proj2 (fields_Set _ _ _))))
    | rewrite (proj1 (fields_SetId _ _))
    | rewrite (proj1 (proj2 (fields_SetId _ _)))
    | rewrite (proj1 (proj2 (proj2 (fields_SetId _ _))))
    | rewrite (proj2 (proj2 (proj2 (fields_SetId _ _)))) ].

Lemma helmStore_twice (e : HelmSpecTemplate) (d : ResourceData) :
  helmStore intToString e (helmStore intToString e d) = helmStore intToString e d.
Proof.
  unfold helmStore.
  destruct (String.eqb (hst_Sourcetype e) "local"),
    (String.eqb (hst_Sourcetype e) "url"), (String.eqb (hst_Sourcetype e) "git"),
    (hst_Contentpath e), (hst_Contentref e);
    unfold SetIface; apply ResourceData_ext; fields; try reflexivity;
    intros key; insert_cases key.
Qed.

Lemma catalogItemStore_twice (e : CatalogItem) (d : ResourceData) :
  catalogItemStore intToString e (catalogItemStore intToString e d)
  = catalogItemStore intToString e d.
Proof.
  unfold catalogItemStore. apply ResourceData_ext; fields; try reflexivity.
  intros key; insert_cases key.
Qed.

Lemma integrationStore_twice (e : Integration) (d : ResourceData) :
  integrationStore int64ToString e (integrationStore int64ToString e d)
  = integrationStore int64ToString e d.
Proof.
  unfold integrationStore.
  destruct (in_Credential_ID e =? 0);
    apply ResourceData_ext; fields; try reflexivity;
    intros key; insert_cases key.
Qed.

(** X11. Storing a remote entity is idempotent: a read that stores the
    same entity a second time leaves the resource data as the first time,
    for each of the three kinds. *)
Theorem store_idempotent (d : ResourceData) :
  (forall e : HelmSpecTemplate,
      helmStore intToString e (helmStore intToString e d) = helmStore intToString e d) /\
  (forall e : CatalogItem,
      catalogItemStore intToString e (catalogItemStore intToString e d)
      = catalogItemStore intToString e d) /\
  (forall e : Integration,
      integrationStore int64ToString e (integrationStore int64ToString e d)
      = integrationStore int64ToString e d).
Proof.
  split; [|split]; intros e;
    [apply helmStore_twice | apply catalogItemStore_twice | apply integrationStore_twice].
Qed.

(** X12. A read, whatever its outcome, never changes the last observed
    state nor the planned values of the resource data, and writes no
    attribute outside the list of its kind: in particular the read of a
    workflow catalog item never writes [logo_image_path] or
    [dark_logo_image_path]. *)
Theorem read_writes_only_its_attributes (k : Kind) (d : ResourceData) (meta : Client)
    (w : World) :
  let d' := (ReadContext (provider_of k) d meta w).1.2 in
  rd_state d' = rd_state d /\
  rd_plan d' = rd_plan d /\
  forall key : string, ~ In key (readAttributes k) -> rd_set d' !! key = rd_set d !! key.
Proof.
  cbn zeta.
  destruct k; unfold_read d; unfold invoke;
    repeat match goal with
      | |- context [match ?r with Success _ => _ | Failure _ _ => _ end] => destruct r
      | |- context [if is404 ?r then _ else _] => destruct (is404 r)
      | |- context [match json_Unmarshal ?b with inl _ => _ | inr _ => _ end] =>
          destruct (json_Unmarshal b)
      end;
    cbn [fst snd]; try (repeat split; reflexivity);
    unfold helmStore, catalogItemStore, integrationStore;
    repeat match goal with
      | |- context [if ?c then _ else _] => destruct c
      end;
    unfold SetIface;
    repeat match goal with
      | |- context [match ?v with Nil => _ | Str _ => _ | Other => _ end] => destruct v
      end;
    fields; cbn [readAttributes In];
    (split; [reflexivity|]); (split; [reflexivity|]);
    intros key Hkey;
    repeat (rewrite lookup_insert_ne
              by (intros E; apply Hkey; clear Hkey; subst key; auto 20));
    reflexivity.
Qed.

(** ** Request bodies *)

(** X13. The body that the create of a workflow catalog item sends is the
    body that its update sends with [iconPath = "custom"] added: the
    update never sends [iconPath], and in every other key the two agree. *)
Theorem catalogItem_create_vs_update_payload (d : ResourceData) :
  catalogItemCreatePayload d
  = <["iconPath" := JString "custom"]> (catalogItemUpdatePayload d) /\
  catalogItemUpdatePayload d !! "iconPath" = None.
Proof.
  unfold catalogItemCreatePayload, catalogItemUpdatePayload, withForm.
  destruct (0 <? GetInt "form_id" d).
  - split; [apply map_eq; intros key; insert_cases key | lookups; reflexivity].
  - split; [apply map_eq; intros key; insert_cases key | lookups; reflexivity].
Qed.

(** X14. With inline credentials ([credential_id] zero) the update of the
    Ansible Tower integration sends nothing that the create would not
    send with the same value, and it sends the very body of the create
    when both [username] and [password] changed. *)
Theorem integration_update_within_create_payload (d : ResourceData) :
  GetInt "credential_id" d = 0 ->
  (forall (key : string) (v : JSON),
      integrationUpdatePayload d !! key = Some v ->
      integrationCreatePayload d !! key = Some v) /\
  (HasChange "username" d = true -> HasChange "password" d = true ->
   integrationUpdatePayload d = integrationCreatePayload d).
Proof.
  intros Hcred. unfold integrationUpdatePayload, integrationCreatePayload.
  rewrite Hcred. cbn [Z.eqb negb]. split.
  - intros key v.
    destruct (HasChange "username" d), (HasChange "password" d);
      repeat match goal with
        | |- context [<[?k := _]> _ !! key] =>
            first
              [ rewrite (lookup_insert_ne _ k key) by assumption
              | destruct (decide (k = key)) as [<-|?];
                [lookups; intros H; exact H|] ]
        end;
      rewrite ?lookup_empty; try discriminate; intros H; exact H.
  - intros -> ->. apply map_eq; intros key; insert_cases key.
Qed.

(** X15. The labels that create and update send are the elements of the
    [labels] set, each once: an empty or absent set gives the empty
    list. *)
Theorem labelsPayload_set (d : ResourceData) :
  List.NoDup (labelsPayload d) /\
  (forall label : string, In label (labelsPayload d) <-> label ∈ GetSet "labels" d) /\
  (GetSet "labels" d = ∅ -> labelsPayload d = []).
Proof.
  rewrite labelsPayload_elements. split; [|split].
  - apply (proj1 (NoDup_ListNoDup _)), NoDup_elements.
  - intros label. rewrite <- list_elem_of_In. apply elem_of_elements.
  - intros ->. apply elements_empty.
Qed.

(** ** Update, then read *)

(** Reading an attribute back through the writes of a read. *)
Ltac read_back :=
  unfold SetIface;
  repeat first
    [ rewrite GetString_Set_eq | rewrite GetInt_Set_eq | rewrite GetBool_Set_eq
    | rewrite GetList_Set_eq | rewrite GetSet_Set_eq
    | rewrite GetString_Set_ne by discriminate
    | rewrite GetInt_Set_ne by discriminate
    | rewrite GetBool_Set_ne by discriminate
    | rewrite GetList_Set_ne by discriminate
    | rewrite GetSet_Set_ne by discriminate
    | rewrite (proj1 (getters_SetId _ _ _))
    | rewrite (proj1 (proj2 (getters_SetId _ _ _)))
    | rewrite (proj1 (proj2 (proj2 (getters_SetId _ _ _))))
    | rewrite (proj1 (proj2 (proj2 (proj2 (getters_SetId _ _ _)))))
    | rewrite (proj2 (proj2 (proj2 (proj2 (getters_SetId _ _ _))))) ].

Lemma helm_update_round_trip (d : ResourceData) (meta : Client) (w : World)
    (newid : Z) (e : HelmSpecTemplate) :
  valid_source_type (GetString "source_type" d) ->
  int64ToString newid <> "" ->
  meta (calls w) (UpdateSpecTemplate (toInt64 (Id d)) (helmRequest d)) = Success newid ->
  meta (calls w ++ [UpdateSpecTemplate (toInt64 (Id d)) (helmRequest d)])
       (GetSpecTemplate (toInt64 (int64ToString newid))) = Success (inr e) ->
  helm_keeps (helmRequest d) e ->
  let '(diags, d', w') := UpdateContext (provider_of HelmSpecTemplateKind) d meta w in
  diags = [] /\ Id d' = intToString (hst_ID e) /\ helm_same d d'.
Proof.
  intros Hvalid Hid Hupdate Hget Hkeeps.
  unfold_provider. rewrite Hupdate. fold_reads.
  rewrite (read_by_id_helm toInt64 int64ToString intToString os_ReadFile)
    with (e := e); [|exact Hid|exact Hget].
  split; [reflexivity|].
  revert Hkeeps. unfold helm_keeps, helmRequest, helmSourceOptions, stored_sourceType.
  destruct Hvalid as [Hv|[Hv|Hv]]; rewrite Hv;
    cbn [String.eqb Ascii.eqb Bool.eqb andb at_path field];
    repeat (lookups; cbn [at_path field jstring jint jiface]);
    intros (Hname & Hsource & Hcontent & Hpath & Href & Hrepo);
    (destruct Hsource as [Hs|[Hs' Hs]]; [|try discriminate Hs']);
    unfold helmStore, helm_same; rewrite Hs;
    cbn [String.eqb Ascii.eqb Bool.eqb andb];
    rewrite ?Hpath, ?Href; read_back;
    rewrite ?Hname, ?Hcontent, ?Hrepo, ?Hv; repeat split; reflexivity.
Qed.

Lemma catalogItem_update_round_trip (d : ResourceData) (meta : Client) (w : World)
    (newid : Z) (files : list FilePayload) (e : CatalogItem) :
  let req := catalogItemRequest (catalogItemUpdatePayload d) in
  0 <= GetInt "form_id" d ->
  int64ToString newid <> "" ->
  meta (calls w) (UpdateCatalogItem (toInt64 (Id d)) req) = Success newid ->
  logoPayloads os_ReadFile logoChanged d = inr files ->
  meta (calls w ++ [UpdateCatalogItem (toInt64 (Id d)) req;
                    UpdateCatalogItemLogo newid files])
       (GetCatalogItem (toInt64 (int64ToString newid))) = Success e ->
  catalogItem_keeps req e ->
  let '(diags, d', w') := UpdateContext (provider_of WorkflowCatalogItemKind) d meta w in
  diags = [] /\ Id d' = intToString (ci_ID e) /\ catalogItem_same d d'.
Proof.
  intros req Hform Hid Hupdate Hfiles Hget Hkeeps.
  unfold_provider. fold req. rewrite Hupdate, Hfiles. fold_reads.
  rewrite (read_by_id_catalogItem toInt64 int64ToString intToString os_ReadFile)
    with (e := e); [|exact Hid|].
  2:{ cbn [Id SetId rd_id]. rewrite uploadLogos_calls. unfold Printf. cbn [calls].
      rewrite <- app_assoc. exact Hget. }
  split; [reflexivity|]. split; [reflexivity|].
  revert Hkeeps. subst req.
  unfold catalogItem_keeps, catalogItemRequest, catalogItemUpdatePayload, withForm.
  rewrite labelsPayload_elements.
  destruct (Z.ltb_spec 0 (GetInt "form_id" d)) as [Hpos|Hzero];
    cbn [at_path field]; lookups; cbn [at_path field]; lookups;
    cbn [at_path field]; lookups;
    rewrite jstrings_strings, jints_ints; cbn [jstring jint jbool];
    intros (Hname & Hlabels & Hdesc & Hcat & Hen & Hfeat & Hopt & Hcontent & Hctx
            & Hvis & Hformid & Hwf);
    unfold catalogItemStore, catalogItem_same; rewrite fold_left_snoc; cbn [app];
    read_back;
    rewrite Hname, Hlabels, Hdesc, Hcat, Hen, Hfeat, Hopt, Hcontent, Hctx, Hvis,
      Hformid, Hwf, list_to_set_elements_L;
    repeat split; try reflexivity; lia.
Qed.

(** X17. Against a remote service that returns on read what it was sent
    on update, a successful update leaves the user-settable attributes as
    they were desired: for the helm spec template with any of the three
    source types, and for the workflow catalog item with a non-negative
    [form_id], the two logo names apart. *)
Theorem update_read_round_trip :
  (forall (d : ResourceData) (meta : Client) (w : World) (newid : Z)
          (e : HelmSpecTemplate),
      valid_source_type (GetString "source_type" d) ->
      int64ToString newid <> "" ->
      meta (calls w) (UpdateSpecTemplate (toInt64 (Id d)) (helmRequest d))
      = Success newid ->
      meta (calls w ++ [UpdateSpecTemplate (toInt64 (Id d)) (helmRequest d)])
           (GetSpecTemplate (toInt64 (int64ToString newid))) = Success (inr e) ->
      helm_keeps (helmRequest d) e ->
      let '(diags, d', w') := UpdateContext (provider_of HelmSpecTemplateKind) d meta w in
      diags = [] /\ Id d' = intToString (hst_ID e) /\ helm_same d d') /\
  (forall (d : ResourceData) (meta : Client) (w : World) (newid : Z)
          (files : list FilePayload) (e : CatalogItem),
      let req := catalogItemRequest (catalogItemUpdatePayload d) in
      0 <= GetInt "form_id" d ->
      int64ToString newid <> "" ->
      meta (calls w) (UpdateCatalogItem (toInt64 (Id d)) req) = Success newid ->
      logoPayloads os_ReadFile logoChanged d = inr files ->
      meta (calls w ++ [UpdateCatalogItem (toInt64 (Id d)) req;
                        UpdateCatalogItemLogo newid files])
           (GetCatalogItem (toInt64 (int64ToString newid))) = Success e ->
      catalogItem_keeps req e ->
      let '(diags, d', w') :=
        UpdateContext (provider_of WorkflowCatalogItemKind) d meta w in
      diags = [] /\ Id d' = intToString (ci_ID e) /\ catalogItem_same d d').
Proof.
  split; [exact helm_update_round_trip | exact catalogItem_update_round_trip].
Qed.

(** ** Reads and calls *)

Lemma read_found_helm (d : ResourceData) (meta : Client) (w : World) (r : Reply Body) :
  looked_up toInt64 d (fun id => meta (calls w) (GetSpecTemplate id))
    (fun name => meta (calls w) (FindSpecTemplateByName name)) r ->
  (ReadContext (provider_of HelmSpecTemplateKind) d meta w).1
  = match r with
    | Success (inr e) => ([], helmStore intToString e d)
    | Success (inl err) => (FromErr err, d)
    | Failure resp err => if is404 resp then ([], SetId "" d) else (FromErr err, d)
    end.
Proof.
  intros [[Hid Hr]|(Hid & Hname & Hr)]; unfold_read d; try contradiction;
    unfold invoke; rewrite Hr; destruct r as [[err|e]|resp err];
    try destruct (is404 resp); reflexivity.
Qed.

Lemma read_found_catalogItem (d : ResourceData) (meta : Client) (w : World)
    (r : Reply CatalogItem) :
  looked_up toInt64 d (fun id => meta (calls w) (GetCatalogItem id))
    (fun name => meta (calls w) (FindCatalogItemByName name)) r ->
  (ReadContext (provider_of WorkflowCatalogItemKind) d meta w).1
  = match r with
    | Success e => ([], catalogItemStore intToString e d)
    | Failure resp err => if is404 resp then ([], SetId "" d) else (FromErr err, d)
    end.
Proof.
  intros [[Hid Hr]|(Hid & Hname & Hr)]; unfold_read d; try contradiction;
    unfold invoke; rewrite Hr; destruct r as [e|resp err];
    try destruct (is404 resp); reflexivity.
Qed.

Lemma read_found_integration (d : ResourceData) (meta : Client) (w : World)
    (r : Reply Integration) :
  looked_up toInt64 d (fun id => meta (calls w) (GetIntegration id))
    (fun name => meta (calls w) (FindIntegrationByName name)) r ->
  (ReadContext (provider_of AnsibleTowerIntegrationKind) d meta w).1
  = match r with
    | Success e => ([], integrationStore int64ToString e d)
    | Failure resp err => if is404 resp then ([], SetId "" d) else (FromErr err, d)
    end.
Proof.
  intros [[Hid Hr]|(Hid & Hname & Hr)]; unfold_read d; try contradiction;
    unfold invoke; rewrite Hr; destruct r as [e|resp err];
    try destruct (is404 resp); reflexivity.
Qed.

Lemma Id_helmStore (e : HelmSpecTemplate) (d : ResourceData) :
  Id (helmStore intToString e d) = intToString (hst_ID e).
Proof.
  unfold helmStore.
  repeat match goal with
    | |- context [if ?c then _ else _] => destruct c
    end; unfold SetIface;
    repeat match goal with
      | |- context [match ?v with Nil => _ | Str _ => _ | Other => _ end] => destruct v
      end; reflexivity.
Qed.

Lemma Id_integrationStore (e : Integration) (d : ResourceData) :
  Id (integrationStore int64ToString e d) = int64ToString (in_ID e).
Proof. unfold integrationStore. destruct (in_Credential_ID e =? 0); reflexivity. Qed.

(** X18. Reads repeat: a read that found the entity, by identifier or by
    name, returns no diagnostic and sets the identifier to the one of the
    entity; a second read, which then goes by that identifier and gets
    the same entity, returns no diagnostic and leaves the resource data
    exactly as the first read left them.  A helm spec template whose
    body cannot be decoded gives the decoding error and no change. *)
Theorem read_twice (d : ResourceData) (meta : Client) (w : World) :
  (forall r : Reply Body,
      looked_up toInt64 d (fun id => meta (calls w) (GetSpecTemplate id))
        (fun name => meta (calls w) (FindSpecTemplateByName name)) r ->
      let '(diags1, d1, w1) := ReadContext (provider_of HelmSpecTemplateKind) d meta w in
      match r with
      | Success (inr e) =>
          diags1 = [] /\ Id d1 = intToString (hst_ID e) /\
          (Id d1 <> "" ->
           meta (calls w1) (GetSpecTemplate (toInt64 (Id d1))) = Success (inr e) ->
           (ReadContext (provider_of HelmSpecTemplateKind) d1 meta w1).1 = ([], d1))
      | Success (inl err) => diags1 = FromErr err /\ d1 = d
      | Failure _ _ => True
      end) /\
  (forall e : CatalogItem,
      looked_up toInt64 d (fun id => meta (calls w) (GetCatalogItem id))
        (fun name => meta (calls w) (FindCatalogItemByName name)) (Success e) ->
      let '(diags1, d1, w1) :=
        ReadContext (provider_of WorkflowCatalogItemKind) d meta w in
      diags1 = [] /\ Id d1 = intToString (ci_ID e) /\
      (Id d1 <> "" ->
       meta (calls w1) (GetCatalogItem (toInt64 (Id d1))) = Success e ->
       (ReadContext (provider_of WorkflowCatalogItemKind) d1 meta w1).1 = ([], d1))) /\
  (forall e : Integration,
      looked_up toInt64 d (fun id => meta (calls w) (GetIntegration id))
        (fun name => meta (calls w) (FindIntegrationByName name)) (Success e) ->
      let '(diags1, d1, w1) :=
        ReadContext (provider_of AnsibleTowerIntegrationKind) d meta w in
      diags1 = [] /\ Id d1 = int64ToString (in_ID e) /\
      (Id d1 <> "" ->
       meta (calls w1) (GetIntegration (toInt64 (Id d1))) = Success e ->
       (ReadContext (provider_of AnsibleTowerIntegrationKind) d1 meta w1).1 = ([], d1))).
Proof.
  split; [|split].
  - intros r Hr. pose proof (read_found_helm d meta w r Hr) as E.
    destruct (ReadContext (provider_of HelmSpecTemplateKind) d meta w)
      as [[diags1 d1] w1].
    cbn [fst] in E. destruct r as [[err|e]|resp err]; [| |exact I].
    + injection E as -> ->. split; reflexivity.
    + injection E as -> ->. split; [reflexivity|].
      split; [apply Id_helmStore|]. intros Hid Hget.
      rewrite (read_found_helm _ meta w1 (Success (inr e))) by (left; split; assumption).
      now rewrite helmStore_twice.
  - intros e Hr. pose proof (read_found_catalogItem d meta w (Success e) Hr) as E.
    destruct (ReadContext (provider_of WorkflowCatalogItemKind) d meta w)
      as [[diags1 d1] w1].
    cbn [fst] in E. injection E as -> ->. split; [reflexivity|].
    split; [reflexivity|]. intros Hid Hget.
    rewrite (read_found_catalogItem _ meta w1 (Success e)) by (left; split; assumption).
    now rewrite catalogItemStore_twice.
  - intros e Hr. pose proof (read_found_integration d meta w (Success e) Hr) as E.
    destruct (ReadContext (provider_of AnsibleTowerIntegrationKind) d meta w)
      as [[diags1 d1] w1].
    cbn [fst] in E. injection E as -> ->. split; [reflexivity|].
    split; [apply Id_integrationStore|]. intros Hid Hget.
    rewrite (read_found_integration _ meta w1 (Success e)) by (left; split; assumption).
    now rewrite integrationStore_twice.
Qed.




Lemma read_diagnostics (k : Kind) (d : ResourceData) (meta : Client) (w : World) :
  success_or_one_error (ReadContext (provider_of k) d meta w).1.1.
Proof.
  unfold success_or_one_error, FromErr, Errorf.
  destruct k; unfold_read d; unfold invoke;
    repeat match goal with
      | |- context [match ?r with Success _ => _ | Failure _ _ => _ end] => destruct r
      | |- context [if is404 ?r then _ else _] => destruct (is404 r)
      | |- context [match json_Unmarshal ?b with inl _ => _ | inr _ => _ end] =>
          destruct (json_Unmarshal b)
      end; cbn [fst]; eauto.
Qed.

(** X20. Every lifecycle function of every kind returns either no
    diagnostic or exactly one diagnostic of severity error: never a
    warning, never several. *)
Theorem diagnostics_shape (k : Kind) (d : ResourceData) (meta : Client) (w : World) :
  success_or_one_error (CreateContext (provider_of k) d meta w).1.1 /\
  success_or_one_error (ReadContext (provider_of k) d meta w).1.1 /\
  success_or_one_error (UpdateContext (provider_of k) d meta w).1.1 /\
  success_or_one_error (DeleteContext (provider_of k) d meta w).1.1.
Proof.
  split; [|split; [apply read_diagnostics|split]].
  - unfold success_or_one_error, FromErr.
    destruct k; unfold_provider;
      repeat match goal with
        | |- context [match meta ?h ?c with Success _ => _ | Failure _ _ => _ end] =>
            destruct (meta h c)
        | |- context [match logoPayloads ?f ?g ?x with inl _ => _ | inr _ => _ end] =>
            destruct (logoPayloads f g x)
        end; try fold_reads;
      try match goal with
        | |- context [ReadContext (provider_of ?k) ?d1 ?m ?w1] =>
            destruct (ReadContext (provider_of k) d1 m w1) as [[? ?] ?]
        end; cbn [fst]; eauto.
  - destruct k; unfold_provider;
      repeat match goal with
        | |- context [match meta ?h ?c with Success _ => _ | Failure _ _ => _ end] =>
            destruct (meta h c)
        | |- context [match logoPayloads ?f ?g ?x with inl _ => _ | inr _ => _ end] =>
            destruct (logoPayloads f g x)
        end; try fold_reads; try apply read_diagnostics;
      unfold success_or_one_error, FromErr; cbn [fst]; eauto.
  - unfold success_or_one_error, FromErr.
    destruct k; unfold_provider;
      match goal with
      | |- context [meta ?h ?c] => destruct (meta h c) as [r|resp err]
      end; try destruct (is404 resp); cbn [fst]; eauto.
Qed.

Variable equalFoldUnicode : string -> string -> bool.

(** X16. The schema and the switches of the helm spec template agree: the
    validation of [source_type] accepts exactly the values for which
    create and update have a case (the request then holds a
    [contentPath]), and the source type that a read stores passes the
    validation exactly when the remote one is [local], [url], [git] or
    [repository]. *)
Theorem source_type_validation_and_switches (d : ResourceData) (e : HelmSpecTemplate) :
  (validate_source_type equalFoldUnicode (GetString "source_type" d) = true
   <-> is_Some (helmSourceOptions d !! "contentPath")) /\
  (validate_source_type equalFoldUnicode
     (GetString "source_type" (helmStore intToString e d)) = true
   <-> In (hst_Sourcetype e) ["local"; "url"; "git"; "repository"]).
Proof.
  unfold validate_source_type, StringInSlice. cbn [existsb andb orb]. split.
  - unfold helmSourceOptions.
    destruct (String.eqb (GetString "source_type" d) "local"),
      (String.eqb (GetString "source_type" d) "url"),
      (String.eqb (GetString "source_type" d) "repository");
      cbn [orb]; lookups; split; intros H; try reflexivity; try discriminate;
      try (eexists; reflexivity); destruct H; discriminate.
  - assert (Hstored :
      GetString "source_type" (helmStore intToString e d)
      = if String.eqb (hst_Sourcetype e) "git" then "repository" else hst_Sourcetype e).
    { unfold helmStore.
      destruct (String.eqb_spec (hst_Sourcetype e) "local") as [E1|E1];
        [|destruct (String.eqb_spec (hst_Sourcetype e) "url") as [E2|E2];
          [|destruct (String.eqb_spec (hst_Sourcetype e) "git") as [E3|E3]]];
        unfold SetIface;
        repeat match goal with
          | |- context [match ?v with Nil => _ | Str _ => _ | Other => _ end] =>
              destruct v
          end;
        repeat first
          [ rewrite GetString_Set_eq | rewrite GetString_Set_ne by discriminate ];
        rewrite ?E1, ?E2; reflexivity. }
    rewrite Hstored. cbn [In].
    destruct (String.eqb_spec (hst_Sourcetype e) "git") as [E3|E3].
    + split; [intros _; auto 10 | reflexivity].
    + destruct (String.eqb_spec (hst_Sourcetype e) "local") as [E1|E1];
        [split; [intros _; auto 10 | reflexivity]|].
      destruct (String.eqb_spec (hst_Sourcetype e) "url") as [E2|E2];
        [split; [intros _; auto 10 | reflexivity]|].
      destruct (String.eqb_spec (hst_Sourcetype e) "repository") as [E4|E4];
        [split; [intros _; auto 10 | reflexivity]|].
      cbn [orb]. split; [discriminate|]. intros [H|[H|[H|[H|[]]]]]; congruence.
Qed.

End Lifecycle.

(** * Part 8. The further properties at concrete inputs *)

Example contentStateFunc_twice :
  contentStateFunc (String.append "a: 1" (String.append newline newline))
  = String.append "a: 1" newline.
Proof. reflexivity. Qed.

Example Split_path :
  Split "/" "/storage/catalog/logo.png" = [""; "storage"; "catalog"; "logo.png"].
Proof. reflexivity. Qed.

(** The logo of catalog item 12 as the appliance stores it. *)
Lemma logoName_of_stored_path_witness :
  logoName "/storage/catalog/12/logo_original.png" = "logo.png".
Proof.
  exact (logoName_of_stored_path "/storage/catalog/12" "logo" ".png"
           eq_refl eq_refl eq_refl).
Defined.

(** Neither the empty stored value nor a stored plaintext is taken as
    unchanged. *)
Lemma password_diff_not_suppressed_witness :
  passwordDiffSuppress Sample.equalFoldUnicode "" "secret" = false /\
  passwordDiffSuppress Sample.equalFoldUnicode "secret" "secret" = false.
Proof.
  split.
  - apply (password_diff_not_suppressed Sample.equalFoldUnicode "" "secret");
      [exact I | discriminate].
  - apply (password_diff_not_suppressed Sample.equalFoldUnicode "secret" "secret");
      [repeat split; apply Nat.ltb_lt; reflexivity | discriminate].
Defined.

(** A create against a service that cannot be reached. *)
Lemma create_remote_failure_witness :
  CreateContext (Sample.provider HelmSpecTemplateKind)
    (Sample.planned Sample.helm_repository) Sample.unreachable Sample.start
  = (FromErr "connection refused", Sample.planned Sample.helm_repository,
     mkWorld [CreateSpecTemplate (helmRequest (Sample.planned Sample.helm_repository))]
             [API_FAILURE None "connection refused"]).
Proof.
  exact (create_remote_failure Sample.toInt64 Sample.int64ToString Sample.intToString
           Sample.os_ReadFile HelmSpecTemplateKind
           (Sample.planned Sample.helm_repository) Sample.unreachable Sample.start
           None "connection refused" eq_refl).
Defined.

(** An update against a service that cannot be reached. *)
Lemma update_remote_failure_witness :
  UpdateContext (Sample.provider WorkflowCatalogItemKind)
    (Sample.settled "7" Sample.catalog_item) Sample.unreachable Sample.start
  = (FromErr "connection refused", Sample.settled "7" Sample.catalog_item,
     mkWorld [UpdateCatalogItem 7
                (catalogItemRequest
                   (catalogItemUpdatePayload (Sample.settled "7" Sample.catalog_item)))]
             [API_FAILURE None "connection refused"]).
Proof.
  exact (update_remote_failure Sample.toInt64 Sample.int64ToString Sample.intToString
           Sample.os_ReadFile WorkflowCatalogItemKind
           (Sample.settled "7" Sample.catalog_item) Sample.unreachable Sample.start
           None "connection refused" eq_refl).
Defined.

(** A create whose read fails reports success: with the identifier when
    the service does not answer, without it when the entity is gone. *)
Lemma create_then_failed_read_witness :
  (CreateContext (Sample.provider AnsibleTowerIntegrationKind)
     (Sample.planned Sample.tower_inline) Scenario.accepting Sample.start).1
  = ([], SetId "7" (Sample.planned Sample.tower_inline)) /\
  (CreateContext (Sample.provider AnsibleTowerIntegrationKind)
     (Sample.planned Sample.tower_inline) Scenario.vanishing Sample.start).1
  = ([], SetId "" (Sample.planned Sample.tower_inline)).
Proof.
  pose proof (fun meta resp err =>
                create_then_failed_read Sample.toInt64 Sample.int64ToString
                  Sample.intToString Sample.os_ReadFile AnsibleTowerIntegrationKind
                  (Sample.planned Sample.tower_inline) meta Sample.start 7 [] resp err)
    as H.
  fold Sample.provider in H.
  pose proof (H Scenario.accepting None "connection refused" eq_refl) as H1.
  pose proof (H Scenario.vanishing (Some 404) "not found" eq_refl) as H2.
  destruct (CreateContext (Sample.provider AnsibleTowerIntegrationKind) _
              Scenario.accepting _) as [[diags1 d1] w1].
  destruct (CreateContext (Sample.provider AnsibleTowerIntegrationKind) _
              Scenario.vanishing _) as [[diags2 d2] w2].
  cbn [fst]. split.
  - destruct H1 as (-> & -> & _);
      [discriminate | vm_compute; discriminate | reflexivity | reflexivity].
  - destruct H2 as (-> & -> & _);
      [discriminate | vm_compute; discriminate | reflexivity | reflexivity].
Defined.

(** An update whose read fails returns the error of the read. *)
Lemma update_then_failed_read_witness :
  (UpdateContext (Sample.provider HelmSpecTemplateKind)
     (Sample.settled "7" Sample.helm_repository) Scenario.accepting Sample.start).1
  = (FromErr "connection refused", Sample.settled "7" Sample.helm_repository) /\
  (UpdateContext (Sample.provider HelmSpecTemplateKind)
     (Sample.settled "7" Sample.helm_repository) Scenario.vanishing Sample.start).1
  = ([], SetId "" (Sample.settled "7" Sample.helm_repository)).
Proof.
  pose proof (fun meta resp err =>
                update_then_failed_read Sample.toInt64 Sample.int64ToString
                  Sample.intToString Sample.os_ReadFile HelmSpecTemplateKind
                  (Sample.settled "7" Sample.helm_repository) meta Sample.start 7 []
                  resp err)
    as H.
  fold Sample.provider in H.
  pose proof (H Scenario.accepting None "connection refused" eq_refl) as H1.
  pose proof (H Scenario.vanishing (Some 404) "not found" eq_refl) as H2.
  destruct (UpdateContext (Sample.provider HelmSpecTemplateKind) _
              Scenario.accepting _) as [[diags1 d1] w1].
  destruct (UpdateContext (Sample.provider HelmSpecTemplateKind) _
              Scenario.vanishing _) as [[diags2 d2] w2].
  cbn [fst]. split.
  - destruct H1 as (-> & -> & _);
      [discriminate | vm_compute; discriminate | reflexivity | reflexivity].
  - destruct H2 as (-> & -> & _);
      [discriminate | vm_compute; discriminate | reflexivity | reflexivity].
Defined.

(** The entity is created, the logo file is missing: the create returns
    the file error and the resource data have no identifier. *)
Lemma catalogItem_logo_unreadable_witness :
  CreateContext (Sample.provider WorkflowCatalogItemKind)
    (Sample.planned Scenario.missing_logo) Sample.keeping Sample.start
  = (FromErr "open: no such file or directory", Sample.planned Scenario.missing_logo,
     mkWorld [createCall WorkflowCatalogItemKind (Sample.planned Scenario.missing_logo)]
             [API_RESPONSE]) /\
  Id (Sample.planned Scenario.missing_logo) = "".
Proof.
  split; [|reflexivity].
  exact (proj1 (catalogItem_logo_unreadable Sample.toInt64 Sample.int64ToString
                  Sample.intToString Sample.os_ReadFile
                  (Sample.planned Scenario.missing_logo) Sample.keeping Sample.start 7
                  "open: no such file or directory" eq_refl) eq_refl eq_refl).
Defined.

(** The first update of inline credentials sends the body of the create. *)
Lemma integration_update_within_create_payload_witness :
  integrationUpdatePayload (Sample.planned Sample.tower_inline)
  = integrationCreatePayload (Sample.planned Sample.tower_inline).
Proof.
  exact (proj2 (integration_update_within_create_payload
                  (Sample.planned Sample.tower_inline) eq_refl) eq_refl eq_refl).
Defined.

(** Update and read against the keeping service. *)
Lemma update_read_round_trip_witness :
  (let d := Sample.settled "7" Sample.helm_repository in
   let '(diags, d', w') :=
     UpdateContext (Sample.provider HelmSpecTemplateKind) d Sample.keeping Sample.start in
   diags = [] /\ Id d' = "7" /\ helm_same d d') /\
  (let d := mkResourceData "7" ∅ (list_to_map Sample.catalog_item) ∅ in
   let '(diags, d', w') :=
     UpdateContext (Sample.provider WorkflowCatalogItemKind) d Sample.keeping
       Sample.start in
   diags = [] /\ Id d' = "7" /\ catalogItem_same d d').
Proof.
  pose proof (update_read_round_trip Sample.toInt64 Sample.int64ToString
                Sample.intToString Sample.os_ReadFile) as (Hhelm & Hcatalog).
  fold Sample.provider in Hhelm, Hcatalog.
  split; cbn zeta.
  - specialize (Hhelm (Sample.settled "7" Sample.helm_repository) Sample.keeping
                  Sample.start 7
                  (mkHelmSpecTemplate 7 "app" "git" (Str "main") (Str "charts/app") 5 "")).
    destruct (UpdateContext (Sample.provider HelmSpecTemplateKind) _ _ _)
      as [[diags d'] w'].
    destruct Hhelm as (Hdiags & Hid & Hsame).
    + right; right; reflexivity.
    + vm_compute; discriminate.
    + reflexivity.
    + vm_compute; reflexivity.
    + vm_compute. repeat split; auto.
    + split; [exact Hdiags|]. split; [rewrite Hid; reflexivity | exact Hsame].
  - specialize (Hcatalog (mkResourceData "7" ∅ (list_to_map Sample.catalog_item) ∅)
                  Sample.keeping Sample.start 7
                  [mkFilePayload "logo" "logo.png" [137; 80; 78; 71]]
                  (Sample.keptCatalogItem 7
                     (catalogItemRequest
                        (catalogItemUpdatePayload
                           (mkResourceData "7" ∅ (list_to_map Sample.catalog_item) ∅))))).
    cbn zeta in Hcatalog.
    destruct (UpdateContext (Sample.provider WorkflowCatalogItemKind) _ _ _)
      as [[diags d'] w'].
    destruct Hcatalog as (Hdiags & Hid & Hsame).
    + vm_compute; discriminate.
    + vm_compute; discriminate.
    + reflexivity.
    + reflexivity.
    + vm_compute; reflexivity.
    + vm_compute. repeat split; reflexivity.
    + split; [exact Hdiags|]. split; [rewrite Hid; reflexivity | exact Hsame].
Defined.

(** A helm spec template found by its name gets its identifier, and the
    next read, by that identifier, changes nothing. *)
Lemma read_twice_witness :
  let d := Sample.planned Sample.helm_repository in
  let w := Sample.after (createCall HelmSpecTemplateKind d) in
  let '(diags1, d1, w1) :=
    ReadContext (Sample.provider HelmSpecTemplateKind) d Sample.keeping w in
  diags1 = [] /\ Id d1 = "7" /\
  calls w1 = [createCall HelmSpecTemplateKind d; FindSpecTemplateByName "app"] /\
  (ReadContext (Sample.provider HelmSpecTemplateKind) d1 Sample.keeping w1).1 = ([], d1).
Proof.
  cbn zeta.
  pose proof (proj1 (read_twice Sample.toInt64 Sample.int64ToString Sample.intToString
                       Sample.os_ReadFile (Sample.planned Sample.helm_repository)
                       Sample.keeping
                       (Sample.after (createCall HelmSpecTemplateKind
                                        (Sample.planned Sample.helm_repository))))
                (Success (inr (mkHelmSpecTemplate 7 "app" "git" (Str "main")
                                 (Str "charts/app") 5 "")))) as H.
  fold Sample.provider in H.
  destruct (ReadContext (Sample.provider HelmSpecTemplateKind) _ Sample.keeping _)
    as [[diags1 d1] w1] eqn:E.
  destruct H as (Hdiags & Hid & Hagain).
  - right. split; [reflexivity|]. split; [discriminate | vm_compute; reflexivity].
  - assert (Hcalls : calls w1 = [createCall HelmSpecTemplateKind
                                   (Sample.planned Sample.helm_repository);
                                 FindSpecTemplateByName "app"]).
    { vm_compute in E. injection E as _ _ <-. vm_compute. reflexivity. }
    split; [exact Hdiags|]. split; [rewrite Hid; reflexivity|].
    split; [exact Hcalls|]. apply Hagain.
    + rewrite Hid. vm_compute. discriminate.
    + rewrite Hid, Hcalls. vm_compute. reflexivity.
Defined.
